(** * Lottery slot inventory: scan extraction, validation and the slot store

    A shallow embedding of the TypeScript sources

      - [src/utils/scannerUtils.ts]      (digit cleaning and identifier extraction)
      - [src/store/inventoryStore.ts]    (the zustand inventory store)
      - [src/utils/barcodeValidation.ts] (the validator)
      - the Inventory screen and the Add screen (scan submission, slot navigation)

    JavaScript strings are modelled by [string]; one [ascii] stands for one
    UTF-16 code unit below 256.  Slot ids are JavaScript numbers that only ever
    hold integers; they are modelled by [Z]. *)

From Stdlib Require Import ZArith Ascii Lia Bool.
From Stdlib Require String.
From stdpp Require Import base option list gmap strings pretty sorting.

Local Open Scope Z_scope.

(** ** JavaScript string primitives used by the sources *)

Module JS.

(** The character class [[0-9]] (also [\d] without the unicode flag). *)
Definition isDigit (c : ascii) : bool :=
  let n := Z.of_nat (nat_of_ascii c) in (48 <=? n) && (n <=? 57).

(** [WhiteSpace] and [LineTerminator] code units below 256:
    TAB, LF, VT, FF, CR, SPACE and NO-BREAK SPACE. *)
Definition isWhiteSpace (c : ascii) : bool :=
  let n := Z.of_nat (nat_of_ascii c) in
  ((9 <=? n) && (n <=? 13)) || (n =? 32) || (n =? 160).

Definition strlen (s : string) : Z := Z.of_nat (String.length s).

(** [s.replace(/[^0-9]/g, '')] *)
Fixpoint replaceNonDigits (s : string) : string :=
  match s with
  | EmptyString => EmptyString
  | String c rest =>
      if isDigit c then String c (replaceNonDigits rest)
      else replaceNonDigits rest
  end.

(** [/^\d+$/.test(s)] *)
Fixpoint allDigits (s : string) : bool :=
  match s with
  | EmptyString => true
  | String c rest => isDigit c && allDigits rest
  end.

Definition testDigitsOnly (s : string) : bool :=
  match s with
  | EmptyString => false
  | _ => allDigits s
  end.

(** [s.substring(a, b)]: both indices are clamped to [0 .. length] and
    swapped when [a > b]. *)
Definition substring (a b : Z) (s : string) : string :=
  let len := strlen s in
  let a' := Z.min (Z.max a 0) len in
  let b' := Z.min (Z.max b 0) len in
  let lo := Z.min a' b' in
  let hi := Z.max a' b' in
  String.substring (Z.to_nat lo) (Z.to_nat (hi - lo)) s.

(** [s.slice(start)]: a negative [start] counts from the end. *)
Definition slice (start : Z) (s : string) : string :=
  let len := strlen s in
  let from := if start <? 0 then Z.max (len + start) 0 else Z.min start len in
  String.substring (Z.to_nat from) (Z.to_nat (len - from)) s.

Fixpoint trimStart (s : string) : string :=
  match s with
  | EmptyString => EmptyString
  | String c rest => if isWhiteSpace c then trimStart rest else s
  end.

Fixpoint trimEnd (s : string) : string :=
  match s with
  | EmptyString => EmptyString
  | String c rest =>
      match trimEnd rest with
      | EmptyString => if isWhiteSpace c then EmptyString else String c EmptyString
      | r => String c r
      end
  end.

(** [s.trim()] *)
Definition trim (s : string) : string := trimEnd (trimStart s).

(** Truthiness of a string: only the empty string is falsy. *)
Definition truthy (s : string) : bool :=
  match s with
  | EmptyString => false
  | _ => true
  end.

(** Truthiness of a [string | null] value. *)
Definition truthyOpt (o : option string) : bool :=
  match o with
  | Some s => truthy s
  | None => false
  end.


(** Some character of [s] is not white space. *)
Fixpoint hasNonWhite (s : string) : bool :=
  match s with
  | EmptyString => false
  | String c rest => negb (isWhiteSpace c) || hasNonWhite rest
  end.

End JS.

(** ** src/utils/scannerUtils.ts *)

Module Scanner.

Record Analysis := {
  rawLength : Z;
  cleanedBarcode : string;
  cleanedLength : Z;
  charCodes : list Z;
  controlChars : list (Z * Z)   (* code, position *)
}.

Definition charCode (c : ascii) : Z := Z.of_nat (nat_of_ascii c).

Fixpoint controlsFrom (pos : Z) (cs : list ascii) : list (Z * Z) :=
  match cs with
  | [] => []
  | c :: rest =>
      let code := charCode c in
      if (code <? 32) || (code =? 127)
      then (code, pos) :: controlsFrom (pos + 1) rest
      else controlsFrom (pos + 1) rest
  end.

(** On a string of characters below 256 every code point is one code unit,
    so [Array.from] gives one element per character;
    [CodeUnits.analyzeRawBarcode] below is the function on every string. *)
Definition analyzeRawBarcode (rawInput : string) : Analysis :=
  let cleaned := JS.replaceNonDigits rawInput in
  let cs := String.list_ascii_of_string rawInput in
  {| rawLength := JS.strlen rawInput;
     cleanedBarcode := cleaned;
     cleanedLength := JS.strlen cleaned;
     charCodes := map charCode cs;
     controlChars := controlsFrom 0 cs |}.

Definition extractBarcodeIdentifier (rawInput : string) : string :=
  let allDigits := JS.replaceNonDigits rawInput in
  if 24 <=? JS.strlen allDigits then
    let last24Digits := JS.slice (-24) allDigits in
    JS.substring 0 14 last24Digits
  else
    if 14 <? JS.strlen allDigits then JS.slice (-14) allDigits else allDigits.

(** The extraction rule as the specification words it, on the list of
    characters: keep the digits; with 24 or more of them take the first 14
    of the last 24; with more than 14 take the last 14; else all of them. *)
Definition lastn {A} (n : nat) (l : list A) : list A := rev (take n (rev l)).

Definition extractIdentifier_reference (rawText : string) : string :=
  let digits := filter (fun c => Is_true (JS.isDigit c))
                       (String.list_ascii_of_string rawText) in
  String.string_of_list_ascii
    (if decide (24 <= length digits)%nat then take 14 (lastn 24 digits)
     else if decide (14 < length digits)%nat then lastn 14 digits
     else digits).

End Scanner.

(** ** A state monad with exceptions

    Store operations and screen handlers read and write one shared state and
    may, as any JavaScript code, throw. *)

Inductive Outcome (S A : Type) : Type :=
  | Ok (a : A) (s : S)
  | Throw (err : string).
Arguments Ok {S A} a s.
Arguments Throw {S A} err.

Definition M (S A : Type) : Type := S -> Outcome S A.

Definition ret {S A} (a : A) : M S A := fun s => Ok a s.

Definition bind {S A B} (m : M S A) (k : A -> M S B) : M S B :=
  fun s => match m s with
           | Ok a s' => k a s'
           | Throw e => Throw e
           end.

Definition getState {S} : M S S := fun s => Ok s s.
Definition setState {S} (f : S -> S) : M S unit := fun s => Ok tt (f s).
Definition throw {S A} (e : string) : M S A := fun _ => Throw e.

Notation "'let*' x := m 'in' k" := (bind m (fun x => k))
  (at level 10, x name, m at level 100, k at level 200).
Notation "m >> k" := (bind m (fun _ => k))
  (at level 90, right associativity).

(** Reading a property of a possibly [undefined] value. *)
Definition defined {S A} (o : option A) : M S A :=
  match o with
  | Some a => ret a
  | None => throw "TypeError: Cannot read properties of undefined"
  end.

(** ** The wall clock

    [nowISO] is [new Date().toISOString()], [todayString] is
    [new Date().toDateString()] and [dateStringOf ts] is
    [new Date(ts).toDateString()]. *)

Record Clock := {
  nowISO : string;
  todayString : string;
  dateStringOf : string -> string
}.

(** ** types/inventory.ts and src/store/inventoryStore.ts *)

Module Inventory.

Inductive SlotStatus := empty | scanned | pending.

Definition SlotStatus_eqb (a b : SlotStatus) : bool :=
  match a, b with
  | empty, empty | scanned, scanned | pending, pending => true
  | _, _ => false
  end.

(** [gamepackNumber] and [soldOut] are optional in the interface; the store
    always writes them, and an absent [soldOut] reads as [false]. *)
Record InventorySlot := {
  id : Z;
  status : SlotStatus;
  barcode : option string;
  timestamp : option string;
  gamepackNumber : option string;
  soldOut : bool
}.

Record SoldOutPack := {
  packId : string;
  packGamepackNumber : string;
  gameName : string;
  price : string;
  type : string;
  soldOutDate : string;
  slotId : Z
}.

Record InventoryState := {
  slots : list InventorySlot;
  selectedSlot : option Z;
  soldOutPacks : list SoldOutPack
}.

Definition Store := M InventoryState.

Record GameInfo := { name : string; gprice : string; gtype : string }.

Definition gameData : gmap string GameInfo :=
  list_to_map
    [ ("12345", {| name := "Lucky 7s"; gprice := "$5"; gtype := "Scratch-off" |});
      ("23456", {| name := "Gold Rush"; gprice := "$10"; gtype := "Scratch-off" |});
      ("34567", {| name := "Mega Millions"; gprice := "$20"; gtype := "Scratch-off" |});
      ("45678", {| name := "Cash Explosion"; gprice := "$30"; gtype := "Scratch-off" |});
      ("56789", {| name := "Diamond Dazzler"; gprice := "$2"; gtype := "Scratch-off" |});
      ("default", {| name := "Unknown Game"; gprice := "N/A"; gtype := "Scratch-off" |}) ].

(** [gameData[gamePrefix] || gameData['default']]; a key of at most five
    characters names no inherited property of the object. *)
Definition getGameInfo (gamepackNumber : string) : option GameInfo :=
  let gamePrefix := JS.substring 0 5 gamepackNumber in
  match gameData !! gamePrefix with
  | Some info => Some info
  | None => gameData !! "default"
  end.

Definition sentinelGamepack : string := "00000000000".
Definition sentinelBarcode : string := "00000000000000".

Definition initialSlots : list InventorySlot :=
  map (fun i => {| id := i + 1; status := empty; barcode := None;
                   timestamp := None; gamepackNumber := None;
                   soldOut := false |})
      (seqZ 0 20).

Definition mapSlots (f : InventorySlot -> InventorySlot) (st : InventoryState)
  : InventoryState :=
  {| slots := map f (slots st);
     selectedSlot := selectedSlot st;
     soldOutPacks := soldOutPacks st |}.

Definition initializeSlots : Store unit :=
  setState (fun st => {| slots := initialSlots;
                         selectedSlot := selectedSlot st;
                         soldOutPacks := soldOutPacks st |}).

Definition setSelectedSlot (sel : option Z) : Store unit :=
  setState (fun st => {| slots := slots st;
                         selectedSlot := sel;
                         soldOutPacks := soldOutPacks st |}).

Definition updateSlot (clk : Clock) (i : Z) (bc : string) : Store unit :=
  let gamepack := if 11 <=? JS.strlen bc then JS.substring 0 11 bc else bc in
  setState (mapSlots (fun slot =>
    if id slot =? i
    then {| id := id slot;
            status := scanned;
            barcode := Some bc;
            timestamp := Some (nowISO clk);
            gamepackNumber := Some gamepack;
            soldOut := false |}
    else slot)).

Definition clearSlot (i : Z) : Store unit :=
  setState (mapSlots (fun slot =>
    if id slot =? i
    then {| id := id slot;
            status := empty;
            barcode := None;
            timestamp := None;
            gamepackNumber := None;
            soldOut := false |}
    else slot)).

Definition markAsEmpty (clk : Clock) (i : Z) : Store unit :=
  setState (mapSlots (fun slot =>
    if id slot =? i
    then {| id := id slot;
            status := empty;
            barcode := Some sentinelBarcode;
            timestamp := Some (nowISO clk);
            gamepackNumber := Some sentinelGamepack;
            soldOut := soldOut slot |}
    else slot)).

Definition findSlot (i : Z) (l : list InventorySlot) : option InventorySlot :=
  List.find (fun s => id s =? i) l.

Definition setSoldOut (slot : InventorySlot) : InventorySlot :=
  {| id := id slot;
     status := status slot;
     barcode := barcode slot;
     timestamp := timestamp slot;
     gamepackNumber := gamepackNumber slot;
     soldOut := true |}.

Definition markAsSoldOut (clk : Clock) (i : Z) : Store unit :=
  let* st := getState in
  match findSlot i (slots st) with
  | Some slot =>
      match gamepackNumber slot with
      | Some gamepack =>
          if JS.truthy gamepack && negb (String.eqb gamepack sentinelGamepack)
          then
            let now := nowISO clk in
            let* gameInfo := defined (getGameInfo gamepack) in
            let newSoldOutPack :=
              {| packId := gamepack +:+ "-" +:+ now;
                 packGamepackNumber := gamepack;
                 gameName := name gameInfo;
                 price := gprice gameInfo;
                 type := gtype gameInfo;
                 soldOutDate := now;
                 slotId := i |} in
            setState (fun state =>
              {| slots := map (fun s => if id s =? i then setSoldOut s else s)
                              (slots state);
                 selectedSlot := selectedSlot state;
                 soldOutPacks := soldOutPacks state ++ [newSoldOutPack] |})
          else ret tt
      | None => ret tt
      end
  | None => ret tt
  end.

Definition getPreviousGamepack (i : Z) : Store (option string) :=
  let* st := getState in
  match findSlot i (slots st) with
  | Some slot =>
      if negb (JS.truthyOpt (barcode slot))
         || match gamepackNumber slot with
            | Some g => String.eqb g sentinelGamepack
            | None => false
            end
      then ret None
      else ret (if JS.truthyOpt (gamepackNumber slot)
                then gamepackNumber slot else None)
  | None => ret None
  end.

(** The callback of [slots.some(...)] in [checkGamepackUniqueness]. *)
Definition activeToday (clk : Clock) (gamepack : string) (slot : InventorySlot)
  : bool :=
  match timestamp slot with
  | Some ts =>
      if negb (JS.truthy ts)
         || negb match gamepackNumber slot with
                 | Some g => String.eqb g gamepack
                 | None => false
                 end
      then false
      else
        let slotDate := dateStringOf clk ts in
        String.eqb slotDate (todayString clk) && negb (soldOut slot)
  | None => false
  end.

Definition checkGamepackUniqueness (clk : Clock) (gamepack : string)
  : Store bool :=
  if String.eqb gamepack sentinelGamepack then ret true
  else
    let* st := getState in
    ret (negb (existsb (activeToday clk gamepack) (slots st))).

End Inventory.

(** ** src/utils/barcodeValidation.ts *)

Module Validation.
Import Inventory.

Record ValidationResult := {
  isValid : bool;
  message : option string;
  previousGamepack : option string;
  requiresConfirmation : option bool
}.

(** The three shapes of result the validator builds. *)
Definition Accept : ValidationResult :=
  {| isValid := true; message := None;
     previousGamepack := None; requiresConfirmation := None |}.

Definition Reject (msg : string) : ValidationResult :=
  {| isValid := false; message := Some msg;
     previousGamepack := None; requiresConfirmation := None |}.

Definition RequiresConfirmation (prev msg : string) : ValidationResult :=
  {| isValid := false; message := Some msg;
     previousGamepack := Some prev; requiresConfirmation := Some true |}.

(** Number-to-string conversion inside a template literal, for an integer
    below 10^21 in absolute value. *)
Definition numberToString (n : Z) : string := pretty n.

Definition confirmationMessage (prev : string) (i : Z) : string :=
  "Was the previous pack (" +:+ prev +:+ ") in Slot " +:+ numberToString i
    +:+ " completely sold out?".

Definition duplicateMessage (gamepack : string) : string :=
  "This gamepack (" +:+ gamepack +:+ ") is already active in another slot today.".

Definition validateBarcode (clk : Clock) (bc : string) (i : Z)
  : Store ValidationResult :=
  if negb (JS.truthy (JS.trim bc)) then
    ret (Reject "Please enter a barcode")
  else if JS.strlen bc <? 14 then
    ret (Reject "Barcode must be at least 14 digits")
  else if negb (JS.testDigitsOnly bc) then
    ret (Reject "Barcode must contain only numbers")
  else
    let gamepack := JS.substring 0 11 bc in
    if String.eqb gamepack sentinelGamepack then ret Accept
    else
      let* prev := getPreviousGamepack i in
      match prev with
      | Some p =>
          if JS.truthy p && negb (String.eqb p sentinelGamepack)
             && negb (String.eqb p gamepack)
          then ret (RequiresConfirmation p (confirmationMessage p i))
          else
            let* isUnique := checkGamepackUniqueness clk gamepack in
            if negb isUnique then ret (Reject (duplicateMessage gamepack))
            else ret Accept
      | None =>
          let* isUnique := checkGamepackUniqueness clk gamepack in
          if negb isUnique then ret (Reject (duplicateMessage gamepack))
          else ret Accept
      end.

End Validation.

(** ** The screens

    A screen is a React function component.  Its state is kept for it between
    renders; each render creates the handlers anew, as closures over the
    state values of that render.  A handler the operator starts belongs to
    the latest render, but a timer keeps the handler of the render that armed
    it.  So a handler takes the render it belongs to as an argument and reads
    the state from there; what it writes goes to the current state.  Refs and
    the store are shared by all renders.  The callbacks a screen hands to a
    timer, to an animation or to an alert run later, as events of their
    own. *)

Module Screens.
Import Inventory Validation.

(** Calls a screen makes into the validator and the store, in order. *)
Inductive Call :=
  | CallValidateBarcode (bc : string) (slotId : Z)
  | CallUpdateSlot (slotId : Z) (bc : string)
  | CallMarkAsSoldOut (slotId : Z)
  | CallMarkAsEmpty (slotId : Z)
  | CallClearSlot (slotId : Z).

(** [parseInt(s, 10)]: leading white space, an optional sign, then the
    longest run of decimal digits; [None] is NaN.  The integer is exact,
    which the callers' comparisons with 1 and 20 cannot tell from the
    rounded double. *)
Definition digitValue (c : ascii) : Z := Z.of_nat (nat_of_ascii c) - 48.

Fixpoint parseDigits (acc : option Z) (s : string) : option Z :=
  match s with
  | EmptyString => acc
  | String c rest =>
      if JS.isDigit c
      then parseDigits (Some (10 * default 0 acc + digitValue c)) rest
      else acc
  end.

Definition parseInt10 (s : string) : option Z :=
  match JS.trimStart s with
  | String "-" rest => Z.opp <$> parseDigits None rest
  | String "+" rest => parseDigits None rest
  | t => parseDigits None t
  end.

(** *** The slot navigator of the Inventory screen *)

Definition findNextAvailableSlot (slots : list InventorySlot) : Z :=
  match List.find (fun slot => SlotStatus_eqb (status slot) pending) slots with
  | Some pendingSlot => id pendingSlot
  | None =>
      match List.find (fun slot =>
              match barcode slot with None => true | Some _ => false end
              && SlotStatus_eqb (status slot) empty) slots with
      | Some unprocessedSlot => id unprocessedSlot
      | None =>
          match List.find (fun slot =>
                  negb (SlotStatus_eqb (status slot) scanned)) slots with
          | Some nonScannedSlot => id nonScannedSlot
          | None => 1
          end
      end
  end.

(** *** The Add screen *)

(** The state of the screen ([useState]); a render is given by the state it
    was made from. *)
Record AddScreen := {
  barcodeText : string;
  slotNumber : string;
  addError : option string
}.

(** The two alerts of the screen.  [Alert.alert] shows the alert and returns;
    the handler of the button the operator presses runs later.  An alert
    holds what its button handlers close over. *)
Inductive AddAlert :=
  | IncompleteBarcode (r : AddScreen) (cleanedBarcode : string)
  | ConfirmPreviousPack (slotId : Z) (cleanedBarcode : string) (text : string).

Record AddWorld := {
  addUi : AddScreen;
  barcodeBuffer : string;          (* barcodeBufferRef.current *)
  addTimer : option AddScreen;     (* the armed auto-submit timer: the render
                                      whose handleSubmit it calls *)
  addAlerts : list AddAlert;       (* alerts shown so far *)
  navigatedBack : bool;            (* router.push('/(tabs)') was called *)
  addStore : InventoryState;
  addCalls : list Call
}.

Definition App := M AddWorld.

Definition modifyUi (f : AddScreen -> AddScreen) : App unit :=
  setState (fun w => {| addUi := f (addUi w);
                        barcodeBuffer := barcodeBuffer w;
                        addTimer := addTimer w; addAlerts := addAlerts w;
                        navigatedBack := navigatedBack w;
                        addStore := addStore w; addCalls := addCalls w |}).








Definition setSlotNumber (text : string) : App unit :=
  modifyUi (fun u => {| barcodeText := barcodeText u; slotNumber := text;
                        addError := addError u |}).










Definition tooShortMessage (n : Z) : string :=
  "Barcode too short: " +:+ pretty n +:+ "/14 digits minimum required".


(** [handleSlotChange]; the timer it sets only moves the focus. *)
Definition handleSlotChange (text : string) : App unit :=
  setSlotNumber text.



(** *** The Inventory screen *)

Record InventoryScreen := {
  selectedSlotId : option Z;
  scanMode : bool;
  scanInput : string;
  scanError : option string
}.

(** What the handlers of one render see: the state, and the slots the store
    hook returned. *)
Record InvRender := {
  seen : InventoryScreen;
  seenSlots : list InventorySlot
}.

(** Callbacks handed over to run later: the completion callback of the
    animation [exitScanMode] starts, and the 500 ms callback of
    [triggerFabForNextSlot] with the slot it closes over.  (The callbacks
    that only move the focus are left out.) *)
Inductive InvTask :=
  | ExitScanDone
  | EnterNextScan (nextSlotId : Z).

Record InvWorld := {
  invUi : InventoryScreen;
  invTimer : option InvRender;     (* the armed auto-submit timer: the render
                                      whose handleSubmitScan it calls *)
  invDeferred : list InvTask;      (* callbacks handed over so far *)
  invStore : InventoryState;
  invCalls : list Call
}.

Definition Inv := M InvWorld.

Definition invModifyUi (f : InventoryScreen -> InventoryScreen) : Inv unit :=
  setState (fun w => {| invUi := f (invUi w); invTimer := invTimer w;
                        invDeferred := invDeferred w;
                        invStore := invStore w; invCalls := invCalls w |}).

Definition invSetTimer (t : option InvRender) : Inv unit :=
  setState (fun w => {| invUi := invUi w; invTimer := t;
                        invDeferred := invDeferred w;
                        invStore := invStore w; invCalls := invCalls w |}).

Definition defer (t : InvTask) : Inv unit :=
  setState (fun w => {| invUi := invUi w; invTimer := invTimer w;
                        invDeferred := invDeferred w ++ [t];
                        invStore := invStore w; invCalls := invCalls w |}).

Definition invLogCall (c : Call) : Inv unit :=
  setState (fun w => {| invUi := invUi w; invTimer := invTimer w;
                        invDeferred := invDeferred w;
                        invStore := invStore w;
                        invCalls := invCalls w ++ [c] |}).

Definition invOnStore {A} (op : Store A) : Inv A :=
  fun w => match op (invStore w) with
           | Ok a st => Ok a {| invUi := invUi w; invTimer := invTimer w;
                                invDeferred := invDeferred w;
                                invStore := st; invCalls := invCalls w |}
           | Throw e => Throw e
           end.

Definition setSelectedSlotId (sel : option Z) : Inv unit :=
  invModifyUi (fun u => {| selectedSlotId := sel; scanMode := scanMode u;
                           scanInput := scanInput u;
                           scanError := scanError u |}).

Definition setScanMode (on : bool) : Inv unit :=
  invModifyUi (fun u => {| selectedSlotId := selectedSlotId u; scanMode := on;
                           scanInput := scanInput u;
                           scanError := scanError u |}).

Definition setScanInput (text : string) : Inv unit :=
  invModifyUi (fun u => {| selectedSlotId := selectedSlotId u;
                           scanMode := scanMode u;
                           scanInput := text;
                           scanError := scanError u |}).

Definition invSetError (e : option string) : Inv unit :=
  invModifyUi (fun u => {| selectedSlotId := selectedSlotId u;
                           scanMode := scanMode u;
                           scanInput := scanInput u;
                           scanError := e |}).

(** The render made from the current state and store. *)
Definition renderInv (w : InvWorld) : InvRender :=
  {| seen := invUi w; seenSlots := slots (invStore w) |}.

Definition enterScanMode : Inv unit :=
  setScanMode true >> setScanInput "" >> invSetError None.

Definition handleSlotPress (slotId : Z) : Inv unit :=
  setSelectedSlotId (Some slotId) >>
  invOnStore (setSelectedSlot (Some slotId)) >>
  enterScanMode.

(** [exitScanMode]: the timer is cleared at once; the state is reset by the
    callback of the animation. *)
Definition exitScanMode : Inv unit :=
  invSetTimer None >> defer ExitScanDone.

(** [triggerFabForNextSlot] of render [r]: the next slot is chosen at once,
    from the slots of that render, and selected 500 ms later. *)
Definition triggerFabForNextSlot (r : InvRender) : Inv unit :=
  let nextSlotId := findNextAvailableSlot (seenSlots r) in
  defer (EnterNextScan nextSlotId).



(** [handleSubmitScan] of render [r]; a selected slot id of 0 is falsy. *)
Definition handleSubmitScan (clk : Clock) (r : InvRender) : Inv unit :=
  invSetTimer None >>
  match selectedSlotId (seen r) with
  | None => invSetError (Some "No slot selected")
  | Some slotId =>
      if slotId =? 0 then invSetError (Some "No slot selected")
      else
        let numericOnly := JS.replaceNonDigits (scanInput (seen r)) in
        if negb (JS.truthy numericOnly) then
          invSetError (Some "No numeric data detected in scan")
        else if JS.strlen numericOnly <? 14 then
          invSetError (Some (tooShortMessage (JS.strlen numericOnly)))
        else
          invLogCall (CallValidateBarcode numericOnly slotId) >>
          let* validationResult := invOnStore (validateBarcode clk numericOnly slotId) in
          if negb (isValid validationResult) then
            if default false (requiresConfirmation validationResult)
               && JS.truthyOpt (previousGamepack validationResult)
            then
              invLogCall (CallMarkAsSoldOut slotId) >>
              invOnStore (markAsSoldOut clk slotId) >>
              invLogCall (CallUpdateSlot slotId numericOnly) >>
              invOnStore (updateSlot clk slotId numericOnly) >>
              exitScanMode >>
              triggerFabForNextSlot r
            else
              invSetError (Some (if JS.truthyOpt (message validationResult)
                                 then default "" (message validationResult)
                                 else "Invalid barcode"))
          else
            invLogCall (CallUpdateSlot slotId numericOnly) >>
            invOnStore (updateSlot clk slotId numericOnly) >>
            exitScanMode >>
            triggerFabForNextSlot r
  end.


End Screens.

(** ** Store operations as data, reachable stores, and sample states *)

Module Runs.
Import Inventory.

(** The four slot-mutating operations of the store, with their arguments. *)
Inductive StoreOp :=
  | OpUpdateSlot (i : Z) (bc : string)
  | OpClearSlot (i : Z)
  | OpMarkAsEmpty (i : Z)
  | OpMarkAsSoldOut (i : Z).

Definition opTarget (op : StoreOp) : Z :=
  match op with
  | OpUpdateSlot i _ | OpClearSlot i | OpMarkAsEmpty i | OpMarkAsSoldOut i => i
  end.

Definition runOp (clk : Clock) (op : StoreOp) : Store unit :=
  match op with
  | OpUpdateSlot i bc => updateSlot clk i bc
  | OpClearSlot i => clearSlot i
  | OpMarkAsEmpty i => markAsEmpty clk i
  | OpMarkAsSoldOut i => markAsSoldOut clk i
  end.

(** Stores reachable from [initializeSlots] by any sequence of operations,
    each at its own time. *)
Inductive reachable : InventoryState -> Prop :=
  | reach_init st0 st :
      initializeSlots st0 = Ok tt st -> reachable st
  | reach_step clk op st st' :
      reachable st -> runOp clk op st = Ok tt st' -> reachable st'.

(** The navigator's criteria, and being the first slot with a property. *)
Definition isPending (s : InventorySlot) : Prop := status s = pending.
Definition isUntouched (s : InventorySlot) : Prop :=
  barcode s = None /\ status s = empty.
Definition isNotScanned (s : InventorySlot) : Prop := status s <> scanned.

Definition firstWhere (P : InventorySlot -> Prop) (l : list InventorySlot)
    (s : InventorySlot) : Prop :=
  exists k, l !! k = Some s /\ P s
            /\ forall j y, l !! j = Some y -> (j < k)%nat -> ~ P y.

(** The screens call [updateSlot] only with a cleaned scan of 14 digits or
    more; [reachableByScans] are the stores they can produce. *)
Definition scanOp (op : StoreOp) : Prop :=
  match op with
  | OpUpdateSlot _ bc => 14 <= JS.strlen bc
  | _ => True
  end.

Inductive reachableByScans : InventoryState -> Prop :=
  | scans_init st0 st :
      initializeSlots st0 = Ok tt st -> reachableByScans st
  | scans_step clk op st st' :
      reachableByScans st -> scanOp op -> runOp clk op st = Ok tt st' ->
      reachableByScans st'.

(** In such a store a slot with a barcode has one of 14 characters or more,
    and its gamepack number is the first 11 of them. *)
Definition slotConsistent (s : InventorySlot) : Prop :=
  match barcode s with
  | Some b => 14 <= JS.strlen b /\ gamepackNumber s = Some (JS.substring 0 11 b)
  | None => gamepackNumber s = None
  end.


Definition exampleClock : Clock :=
  {| nowISO := "2024-01-15T10:00:00.000Z";
     todayString := "Mon Jan 15 2024";
     dateStringOf := fun ts =>
       if String.prefix "2024-01-15" ts then "Mon Jan 15 2024"
       else if String.prefix "2024-01-14" ts then "Sun Jan 14 2024"
       else "Invalid Date" |}.

Definition emptyStore : InventoryState :=
  {| slots := []; selectedSlot := None; soldOutPacks := [] |}.

Definition stateOf {A} (o : Outcome InventoryState A) : InventoryState :=
  match o with
  | Ok _ st => st
  | Throw _ => emptyStore
  end.

(** The store after [initializeSlots()]. *)
Definition freshStore : InventoryState := stateOf (initializeSlots emptyStore).

(** The store after [initializeSlots(); updateSlot(1, "12345678901234")]. *)
Definition scannedStore : InventoryState :=
  stateOf (updateSlot exampleClock 1 "12345678901234" freshStore).


(** A 26-digit scan, terminated by a line feed.  The Add screen with slot
    number "1" and the scan in its buffer; the Inventory screen with slot 1
    selected and the scan in its input; and the Inventory screen with slot 1
    selected and nothing typed yet. *)
Definition scan26 : string :=
  "12345000001234500001299988" +:+ String "010" EmptyString.


Definition invWorldWith (text : string) : Screens.InvWorld :=
  {| Screens.invUi := {| Screens.selectedSlotId := Some 1;
                         Screens.scanMode := true;
                         Screens.scanInput := text;
                         Screens.scanError := None |};
     Screens.invTimer := None;
     Screens.invDeferred := [];
     Screens.invStore := freshStore;
     Screens.invCalls := [] |}.

Definition invWorld26 : Screens.InvWorld := invWorldWith scan26.

End Runs.

(** ** The rest of src/utils/scannerUtils.ts *)

Module ScannerUtils.

Record FormatResult := {
  formatValid : bool;
  formatMessage : option string;
  formatComplete : option bool
}.

Definition incompleteMessage (n : Z) (wanted : string) : string :=
  "Barcode may be incomplete (" +:+ pretty n +:+ wanted.

Definition validateBarcodeFormat (barcode : string) : FormatResult :=
  if negb (JS.truthy (JS.trim barcode)) then
    {| formatValid := false; formatMessage := Some "Barcode is empty";
       formatComplete := None |}
  else
    let cleanedBarcode := JS.replaceNonDigits barcode in
    if JS.strlen cleanedBarcode =? 0 then
      {| formatValid := false; formatMessage := Some "Barcode must contain numbers";
         formatComplete := None |}
    else if JS.strlen cleanedBarcode <? 14 then
      {| formatValid := true;
         formatMessage := Some (incompleteMessage (JS.strlen cleanedBarcode)
                                                  "/14 digits minimum)");
         formatComplete := Some false |}
    else if JS.strlen cleanedBarcode <? 24 then
      {| formatValid := true;
         formatMessage := Some (incompleteMessage (JS.strlen cleanedBarcode)
                                                  "/24 digits expected)");
         formatComplete := Some false |}
    else
      {| formatValid := true; formatMessage := None; formatComplete := Some true |}.

(** [AsyncStorage] of @react-native-async-storage is an external library.  It
    is taken as an interface: its two calls run on the state [D] of the
    device and either resolve or reject.  The definitions below assume
    nothing more of it. *)
Record AsyncStorage (D : Type) := {
  getItem : string -> M D (option string);
  setItem : string -> string -> M D unit
}.
Arguments getItem {D} _ _ _.
Arguments setItem {D} _ _ _ _.

Definition DEFAULT_SCANNER_DELAY : Z := 500.

(** [Number.MAX_SAFE_INTEGER], and the delays of the model: a [delay: number]
    that is a safe integer, for which [delay.toString()] is the plain decimal
    numeral.  (Beyond them JavaScript prints rounded digits and, from 1e21
    on, an exponent.) *)
Definition MAX_SAFE_INTEGER : Z := 2 ^ 53 - 1.

Definition isSafeInteger (n : Z) : bool :=
  (- MAX_SAFE_INTEGER <=? n) && (n <=? MAX_SAFE_INTEGER).

Record SafeInteger := {
  value : Z;
  value_safe : isSafeInteger value = true
}.

(** A number read by [parseInt]: not a number, a safe integer, or a number
    beyond the safe integers, which JavaScript rounds to a double and whose
    value is not followed here. *)
Inductive ParsedNumber :=
  | NaN
  | Exact (n : Z)
  | Rounded.

Definition parsedNumber (parsed : option Z) : ParsedNumber :=
  match parsed with
  | None => NaN
  | Some n => if isSafeInteger n then Exact n else Rounded
  end.

(** [getScannerDelay]: the saved text parsed by [parseInt(_, 10)], the
    default when nothing is saved; a rejection is caught and gives the
    default. *)
Definition getScannerDelay {D} (storage : AsyncStorage D) : M D ParsedNumber :=
  fun d =>
    match getItem storage "scanner_delay" d with
    | Ok savedDelay d' =>
        Ok (if JS.truthyOpt savedDelay
            then parsedNumber (Screens.parseInt10 (default "" savedDelay))
            else Exact DEFAULT_SCANNER_DELAY) d'
    | Throw _ => Ok (Exact DEFAULT_SCANNER_DELAY) d
    end.

(** [setScannerDelay]: saves [delay.toString()]; a rejection is thrown on. *)
Definition setScannerDelay {D} (storage : AsyncStorage D) (delay : SafeInteger)
  : M D unit :=
  fun d =>
    match setItem storage "scanner_delay" (pretty (value delay)) d with
    | Ok _ d' => Ok tt d'
    | Throw error => Throw error
    end.

(** A storage kept in memory: its items, and whether its calls reject. *)
Record Device := {
  items : gmap string string;
  rejecting : bool
}.

Definition memoryStorage : AsyncStorage Device :=
  {| getItem := fun key d =>
       if rejecting d then Throw "storage unavailable"
       else Ok (items d !! key) d;
     setItem := fun key text d =>
       if rejecting d then Throw "storage unavailable"
       else Ok tt {| items := <[key := text]> (items d);
                     rejecting := rejecting d |} |}.

End ScannerUtils.

(** ** [analyzeRawBarcode] on every JavaScript string

    A JavaScript string is a sequence of 16-bit code units.  [.length] and the
    regular expression [/[^0-9]/g] (it has no [u] flag) work on code units,
    while [Array.from] iterates the string by code points and so keeps a
    surrogate pair together.  [Scanner.analyzeRawBarcode] above is this
    function on the strings whose code units are all below 256. *)

Module CodeUnits.

Definition isHighSurrogate (u : Z) : bool := (55296 <=? u) && (u <=? 56319).
Definition isLowSurrogate (u : Z) : bool := (56320 <=? u) && (u <=? 57343).

(** An element of [Array.from(s)]: a string of one code unit, or of the two
    code units of a surrogate pair. *)
Record Element := {
  first : Z;
  second : option Z
}.

(** [c.charCodeAt(0)] *)
Definition charCodeAt0 (c : Element) : Z := first c.

Definition isPair (c : Element) : bool :=
  match second c with Some _ => true | None => false end.

(** [Array.from(s)]: a high surrogate directly followed by a low surrogate
    makes one element with it; any other code unit stands alone. *)
Fixpoint arrayFrom (s : list Z) : list Element :=
  match s with
  | [] => []
  | u :: rest =>
      match rest with
      | v :: rest' =>
          if isHighSurrogate u && isLowSurrogate v
          then {| first := u; second := Some v |} :: arrayFrom rest'
          else {| first := u; second := None |} :: arrayFrom rest
      | [] => [{| first := u; second := None |}]
      end
  end.

Definition isDigitUnit (u : Z) : bool := (48 <=? u) && (u <=? 57).

(** [s.replace(/[^0-9]/g, '')] *)
Definition replaceNonDigits (s : list Z) : list Z := List.filter isDigitUnit s.

Record Analysis := {
  rawLength : Z;
  cleanedBarcode : list Z;
  cleanedLength : Z;
  charCodes : list Z;
  controlChars : list (Z * Z)   (* code, position *)
}.

Definition analyzeRawBarcode (rawInput : list Z) : Analysis :=
  let cleanedBarcode := replaceNonDigits rawInput in
  let charCodes := map charCodeAt0 (arrayFrom rawInput) in
  let controlChars :=
    List.filter (fun c => (fst c <? 32) || (fst c =? 127))
      (imap (fun i c => (charCodeAt0 c, Z.of_nat i)) (arrayFrom rawInput)) in
  {| rawLength := Z.of_nat (length rawInput);
     cleanedBarcode := cleanedBarcode;
     cleanedLength := Z.of_nat (length cleanedBarcode);
     charCodes := charCodes;
     controlChars := controlChars |}.

(** The code units of a string of characters below 256. *)
Definition units (s : string) : list Z :=
  map Scanner.charCode (String.list_ascii_of_string s).

End CodeUnits.

(** ** The rest of src/store/inventoryStore.ts: today's sold-out packs *)

Module Ledger.
Import Inventory.

(** Dates: [parseDate s] is the time value of [new Date(s)] in milliseconds
    ([None] for an invalid date), [localDay t] the local calendar
    (date, month, year) of a time value, [nowMs] the current time value. *)
Record Calendar := {
  parseDate : string -> option Z;
  localDay : Z -> Z * Z * Z;
  nowMs : Z
}.

Definition isToday (cal : Calendar) (dateString : string) : bool :=
  match parseDate cal dateString with
  | Some t =>
      let '(d, m, y) := localDay cal t in
      let '(d', m', y') := localDay cal (nowMs cal) in
      (d =? d') && (m =? m') && (y =? y')
  | None => false
  end.

(** The comparator of the sort, [None] being NaN. *)
Definition newestFirst (cal : Calendar) (a b : SoldOutPack) : option Z :=
  match parseDate cal (soldOutDate b), parseDate cal (soldOutDate a) with
  | Some tb, Some ta => Some (tb - ta)
  | _, _ => None
  end.

(** [Array.prototype.sort] with a comparator: a stable sort, in which a
    comparator result that is not a number counts as 0. *)
Fixpoint insertBy {A} (cmp : A -> A -> option Z) (x : A) (l : list A) : list A :=
  match l with
  | [] => [x]
  | y :: rest =>
      if default 0 (cmp x y) <=? 0 then x :: y :: rest
      else y :: insertBy cmp x rest
  end.

Definition sortBy {A} (cmp : A -> A -> option Z) (l : list A) : list A :=
  foldr (insertBy cmp) [] l.

Definition getSoldOutPacksForToday (cal : Calendar) : Store (list SoldOutPack) :=
  let* st := getState in
  ret (sortBy (newestFirst cal)
         (List.filter (fun pack => isToday cal (soldOutDate pack))
                      (soldOutPacks st))).

End Ledger.

(** ** Display helpers of the screens and the slot component *)

Module Display.
Import Inventory.

(** [getTicketNumber] of the slot component. *)
Definition getTicketNumber (barcode : option string) : string :=
  match barcode with
  | Some b =>
      if negb (JS.truthy b) || (JS.strlen b <? 14) then ""
      else JS.substring 11 14 b
  | None => ""
  end.

(** The text the slot component shows in place of a gamepack number. *)
Definition isUnscanned (slot : InventorySlot) : bool :=
  negb (SlotStatus_eqb (status slot) scanned)
  && negb match barcode slot with
          | Some b => String.eqb b sentinelBarcode
          | None => false
          end.

Inductive SlotText :=
  | ShowGamepack (gamepack ticket : string)
  | ShowLabel (label : string).

Definition slotText (slot : InventorySlot) : SlotText :=
  if SlotStatus_eqb (status slot) scanned && JS.truthyOpt (gamepackNumber slot)
  then ShowGamepack (default "" (gamepackNumber slot))
                    (getTicketNumber (barcode slot))
  else
    ShowLabel (if isUnscanned slot then "No Entry"
               else if match barcode slot with
                       | Some b => String.eqb b sentinelBarcode
                       | None => false
                       end
                    then "Marked Empty" else "No Entry").

(** The Review screen's two slot lists. *)
Definition scannedSlots (l : list InventorySlot) : list InventorySlot :=
  List.filter (fun slot => SlotStatus_eqb (status slot) scanned) l.

Definition emptySlots (l : list InventorySlot) : list InventorySlot :=
  List.filter (fun slot => SlotStatus_eqb (status slot) empty) l.



(** The scan history of the scanner test screen: [handleSubmit] with the
    buffer [raw] puts the cleaned text first and keeps ten entries. *)
Definition recordScan (history : list string) (raw : string) : list string :=
  let cleanedInput := Scanner.cleanedBarcode (Scanner.analyzeRawBarcode raw) in
  if 0 <? JS.strlen cleanedInput then take 10 (cleanedInput :: history)
  else history.

(** The pattern [/^([1-9]|1[0-9]|20)$/] of the Add screen's slot input. *)
Definition isSlotNumberText (text : string) : bool :=
  match text with
  | String c EmptyString =>
      let n := Scanner.charCode c in (49 <=? n) && (n <=? 57)
  | String c1 (String c2 EmptyString) =>
      (Ascii.eqb c1 "1" && JS.isDigit c2) || (Ascii.eqb c1 "2" && Ascii.eqb c2 "0")
  | _ => false
  end.

End Display.

(** ** A uniform view of the store operations *)

Module OpView.
Import Inventory Runs.

(** What an operation writes into a slot with the target id. *)
Definition opWrite (clk : Clock) (op : StoreOp) (slot : InventorySlot)
  : InventorySlot :=
  match op with
  | OpUpdateSlot _ bc =>
      {| id := id slot; status := scanned; barcode := Some bc;
         timestamp := Some (nowISO clk);
         gamepackNumber :=
           Some (if 11 <=? JS.strlen bc then JS.substring 0 11 bc else bc);
         soldOut := false |}
  | OpClearSlot _ =>
      {| id := id slot; status := empty; barcode := None; timestamp := None;
         gamepackNumber := None; soldOut := false |}
  | OpMarkAsEmpty _ =>
      {| id := id slot; status := empty; barcode := Some sentinelBarcode;
         timestamp := Some (nowISO clk);
         gamepackNumber := Some sentinelGamepack; soldOut := soldOut slot |}
  | OpMarkAsSoldOut _ => setSoldOut slot
  end.

(** The gamepack an operation records as sold out, if any. *)
Definition opSells (op : StoreOp) (st : InventoryState) : option string :=
  match op with
  | OpMarkAsSoldOut i =>
      match findSlot i (slots st) with
      | Some slot =>
          match gamepackNumber slot with
          | Some g =>
              if JS.truthy g && negb (String.eqb g sentinelGamepack)
              then Some g else None
          | None => None
          end
      | None => None
      end
  | _ => None
  end.

(** Whether an operation changes the store at all. *)
Definition opActs (op : StoreOp) (st : InventoryState) : bool :=
  match op with
  | OpMarkAsSoldOut _ => bool_decide (is_Some (opSells op st))
  | _ => true
  end.

(** The three shapes of a slot in a running store. *)
Definition untouched (s : InventorySlot) : Prop :=
  status s = empty /\ barcode s = None /\ timestamp s = None
  /\ gamepackNumber s = None /\ soldOut s = false.

Definition markedEmpty (s : InventorySlot) : Prop :=
  status s = empty /\ barcode s = Some sentinelBarcode
  /\ gamepackNumber s = Some sentinelGamepack
  /\ exists ts, timestamp s = Some ts.

Definition holdsScan (s : InventorySlot) : Prop :=
  status s = scanned
  /\ exists bc ts,
       barcode s = Some bc /\ timestamp s = Some ts
       /\ gamepackNumber s
          = Some (if 11 <=? JS.strlen bc then JS.substring 0 11 bc else bc).

Definition slotShape (s : InventorySlot) : Prop :=
  untouched s \/ markedEmpty s \/ holdsScan s.

(** The record [markAsSoldOut] appends for gamepack [g] of slot [i]. *)
Definition soldPack (clk : Clock) (i : Z) (g : string) : SoldOutPack :=
  let info := default {| name := ""; gprice := ""; gtype := "" |} (getGameInfo g) in
  {| packId := g +:+ "-" +:+ nowISO clk;
     packGamepackNumber := g;
     gameName := name info;
     price := gprice info;
     type := gtype info;
     soldOutDate := nowISO clk;
     slotId := i |}.

(** The store an operation leaves behind. *)
Definition opResult (clk : Clock) (op : StoreOp) (st : InventoryState)
  : InventoryState :=
  if opActs op st then
    {| slots := map (fun s => if id s =? opTarget op then opWrite clk op s else s)
                    (slots st);
       selectedSlot := selectedSlot st;
       soldOutPacks :=
         soldOutPacks st
         ++ match opSells op st with
            | Some g => [soldPack clk (opTarget op) g]
            | None => []
            end |}
  else st.

(** A sequence of operations, each at its own time. *)
Fixpoint runOps (ops : list (Clock * StoreOp)) : Store unit :=
  match ops with
  | [] => ret tt
  | (clk, op) :: rest => runOp clk op >> runOps rest
  end.

(** A sold-out record of a real pack. *)
Definition realPack (pack : SoldOutPack) : Prop :=
  packGamepackNumber pack <> "" /\ packGamepackNumber pack <> sentinelGamepack.

(** [a] was sold out no earlier than [b], both dates being valid. *)
Definition soldNoEarlier (cal : Ledger.Calendar) (a b : SoldOutPack) : Prop :=
  exists ta tb,
    Ledger.parseDate cal (soldOutDate a) = Some ta
    /\ Ledger.parseDate cal (soldOutDate b) = Some tb
    /\ tb <= ta.

(** A clock whose current instant falls on its current day. *)
Definition coherent (clk : Clock) : Prop :=
  nowISO clk <> "" /\ dateStringOf clk (nowISO clk) = todayString clk.

End OpView.

(** ** Outcomes of a submission on the Add screen *)

Module Outcomes.
Import Inventory Validation Screens Runs OpView.


End Outcomes.

(** ** Notation and automation for the proofs *)

Import Inventory Validation Screens Runs.
Import ScannerUtils Ledger Display OpView Outcomes.

Abbreviation chars := String.list_ascii_of_string.

(** Unfold the monadic plumbing of the screen handlers. *)
Ltac run :=
  unfold bind, setState, getState, ret; simpl.




(** * Properties *)

(** ** Strings as lists of characters *)

Section StringLists.

Lemma length_chars s : length (chars s) = String.length s.
Proof. induction s as [|c s IH]; simpl; congruence. Qed.

Lemma chars_inj s t : chars s = chars t -> s = t.
Proof.
  intros H. rewrite <- (String.string_of_list_ascii_of_string s),
    <- (String.string_of_list_ascii_of_string t). now rewrite H.
Qed.

Lemma chars_substring n m s :
  chars (String.substring n m s) = take m (drop n (chars s)).
Proof.
  revert n m. induction s as [|c s IH]; intros [|n] [|m]; simpl;
    try reflexivity.
  - now rewrite IH, drop_0.
  - now rewrite IH.
  - now rewrite IH.
Qed.

Lemma chars_replaceNonDigits s :
  chars (JS.replaceNonDigits s)
  = filter (fun c => Is_true (JS.isDigit c)) (chars s).
Proof.
  induction s as [|c s IH]; simpl; [reflexivity|].
  destruct (JS.isDigit c) eqn:E.
  - rewrite filter_cons_True by (rewrite E; exact I). simpl. now rewrite IH.
  - rewrite filter_cons_False by (rewrite E; intros []). exact IH.
Qed.

Lemma allDigits_chars s :
  JS.allDigits s = true <-> Forall (fun c => JS.isDigit c = true) (chars s).
Proof.
  induction s as [|c s IH]; simpl.
  - split; [constructor | reflexivity].
  - rewrite andb_true_iff, Forall_cons, IH. reflexivity.
Qed.

Lemma lastn_drop {A} n (l : list A) :
  Scanner.lastn n l = drop (length l - n)%nat l.
Proof.
  unfold Scanner.lastn. now rewrite List.firstn_rev, List.rev_involutive.
Qed.

Lemma strlen_chars s : JS.strlen s = Z.of_nat (length (chars s)).
Proof. unfold JS.strlen. now rewrite length_chars. Qed.

Lemma chars_slice_last (k : nat) s :
  (0 < k)%nat ->
  chars (JS.slice (- Z.of_nat k) s) = Scanner.lastn k (chars s).
Proof.
  intros Hk. unfold JS.slice. rewrite strlen_chars, chars_substring, lastn_drop.
  set (cs := chars s).
  destruct (Z.ltb_spec (- Z.of_nat k) 0) as [_|]; [|lia].
  replace (Z.to_nat (Z.max (Z.of_nat (length cs) + - Z.of_nat k) 0))
    with (length cs - k)%nat by lia.
  apply take_ge. rewrite length_drop. lia.
Qed.

Lemma chars_substring_prefix (n : nat) s :
  chars (JS.substring 0 (Z.of_nat n) s) = take n (chars s).
Proof.
  unfold JS.substring. rewrite strlen_chars, chars_substring.
  set (cs := chars s).
  replace (Z.to_nat (Z.min (Z.min (Z.max 0 0) (Z.of_nat (length cs)))
                           (Z.min (Z.max (Z.of_nat n) 0) (Z.of_nat (length cs)))))
    with 0%nat by lia.
  rewrite drop_0.
  destruct (Nat.le_gt_cases n (length cs)).
  - f_equal. lia.
  - rewrite !take_ge by lia. reflexivity.
Qed.

Lemma chars_reference rawText :
  chars (Scanner.extractIdentifier_reference rawText)
  = let digits := filter (fun c => Is_true (JS.isDigit c)) (chars rawText) in
    if decide (24 <= length digits)%nat then take 14 (Scanner.lastn 24 digits)
    else if decide (14 < length digits)%nat then Scanner.lastn 14 digits
    else digits.
Proof.
  unfold Scanner.extractIdentifier_reference.
  now rewrite String.list_ascii_of_string_of_list_ascii.
Qed.

Lemma extract_eq_reference rawInput :
  Scanner.extractBarcodeIdentifier rawInput
  = Scanner.extractIdentifier_reference rawInput.
Proof.
  apply chars_inj. rewrite chars_reference. cbv zeta.
  unfold Scanner.extractBarcodeIdentifier.
  rewrite strlen_chars, chars_replaceNonDigits.
  set (digits := filter _ _).
  destruct (Z.leb_spec 24 (Z.of_nat (length digits))).
  - rewrite decide_True by lia.
    rewrite (chars_substring_prefix 14), (chars_slice_last 24) by lia.
    now rewrite chars_replaceNonDigits.
  - rewrite decide_False by lia.
    destruct (Z.ltb_spec 14 (Z.of_nat (length digits))).
    + rewrite decide_True by lia.
      rewrite (chars_slice_last 14) by lia. now rewrite chars_replaceNonDigits.
    + rewrite decide_False by lia. apply chars_replaceNonDigits.
Qed.

Lemma Forall_lastn {A} (P : A -> Prop) n l :
  Forall P l -> Forall P (Scanner.lastn n l).
Proof. rewrite lastn_drop. apply Forall_drop. Qed.

Lemma length_lastn {A} n (l : list A) :
  length (Scanner.lastn n l) = Nat.min n (length l).
Proof. rewrite lastn_drop, length_drop. lia. Qed.

Lemma filter_digits_Forall l :
  Forall (fun c => JS.isDigit c = true)
         (filter (fun c => Is_true (JS.isDigit c)) l).
Proof.
  induction l as [|c l IH]; [constructor|].
  destruct (JS.isDigit c) eqn:E.
  - rewrite filter_cons_True by (rewrite E; exact I). now constructor.
  - rewrite filter_cons_False by (rewrite E; intros []). exact IH.
Qed.

End StringLists.

(** ** The digit extractor *)

Lemma extract_digits_length rawInput :
  JS.allDigits (Scanner.extractBarcodeIdentifier rawInput) = true
  /\ JS.strlen (Scanner.extractBarcodeIdentifier rawInput) <= 14.
Proof.
  rewrite extract_eq_reference, strlen_chars, allDigits_chars, chars_reference.
  cbv zeta. set (digits := filter _ _).
  assert (Hd : Forall (fun c => JS.isDigit c = true) digits)
    by apply filter_digits_Forall.
  repeat case_decide.
  - split; [now apply Forall_take, Forall_lastn|].
    rewrite length_take, length_lastn. lia.
  - split; [now apply Forall_lastn|]. rewrite length_lastn. lia.
  - split; [assumption|lia].
Qed.

(** C3: [extractBarcodeIdentifier] computes, on every raw input, what the
    reference rule computes (strip the non-digits; with at least 24 digits the
    first 14 of the last 24; with more than 14 the last 14; else the digits
    unchanged).  Hence its result holds digits only, is at most 14 characters
    long, and the empty input gives the empty identifier. *)
Theorem extractBarcodeIdentifier_refines_reference :
  (forall rawInput : string,
      Scanner.extractBarcodeIdentifier rawInput
      = Scanner.extractIdentifier_reference rawInput
      /\ JS.allDigits (Scanner.extractBarcodeIdentifier rawInput) = true
      /\ JS.strlen (Scanner.extractBarcodeIdentifier rawInput) <= 14)
  /\ Scanner.extractBarcodeIdentifier "" = "".
Proof.
  split; [|reflexivity].
  intros rawInput. split; [apply extract_eq_reference|].
  apply extract_digits_length.
Qed.

(** C4 as the specification states it: the 26-digit scenario would yield
    ["45000001234500"].  The code yields another identifier. *)
Lemma extract_scenario_26_not_as_stated :
  Scanner.extractBarcodeIdentifier "12345000001234500001299988"
  <> "45000001234500".
Proof. vm_compute. discriminate. Qed.

(** C4, amended: on the 26-digit input ["12345000001234500001299988"] the
    last 24 digits are ["345000001234500001299988"] and the extracted
    identifier is their first 14, ["34500000123450"]. *)
Theorem extract_scenario_26 :
  JS.slice (-24) (JS.replaceNonDigits "12345000001234500001299988")
  = "345000001234500001299988"
  /\ Scanner.extractBarcodeIdentifier "12345000001234500001299988"
     = "34500000123450".
Proof. split; vm_compute; reflexivity. Qed.

(** ** The inventory store *)

Section StoreFacts.

Variable clk : Clock.

Lemma getGameInfo_defined g : exists info, getGameInfo g = Some info.
Proof.
  unfold getGameInfo. destruct (gameData !! JS.substring 0 5 g) as [info|].
  - now exists info.
  - eexists. vm_compute. reflexivity.
Qed.

Lemma strlen_substring_prefix (n : nat) s :
  JS.strlen (JS.substring 0 (Z.of_nat n) s) <= Z.of_nat n.
Proof.
  rewrite strlen_chars, chars_substring_prefix, length_take. lia.
Qed.

(** A catalog key of at most five characters is never the key ["default"]. *)
Lemma prefix5_not_default g : JS.substring 0 5 g <> "default".
Proof.
  intros H. pose proof (strlen_substring_prefix 5 g) as Hl.
  change (Z.of_nat 5) with 5 in Hl. rewrite H in Hl. vm_compute in Hl.
  now apply Hl.
Qed.

Lemma map_id_mapSlots f l :
  (forall s, id (f s) = id s) ->
  map id (map f l) = map id l.
Proof.
  intros Hf. rewrite map_map. apply map_ext. exact Hf.
Qed.

Lemma lookup_map_other (f : InventorySlot -> InventorySlot) i l k s :
  (forall s, id s <> i -> f s = s) ->
  l !! k = Some s -> id s <> i -> map f l !! k = Some s.
Proof.
  intros Hf Hk Hne. change (map f l) with (f <$> l).
  rewrite list_lookup_fmap, Hk. simpl. now rewrite Hf.
Qed.

Lemma findSlot_Some i l s : findSlot i l = Some s -> In s l /\ id s = i.
Proof.
  unfold findSlot. intros H. apply List.find_some in H as [Hin He].
  split; [assumption | lia].
Qed.

End StoreFacts.

(** The recording branch of [markAsSoldOut]. *)
Lemma markAsSoldOut_records (clk : Clock) (i : Z) (st : InventoryState)
    (slot : InventorySlot) (g : string) :
  findSlot i (slots st) = Some slot ->
  gamepackNumber slot = Some g ->
  g <> "" -> g <> sentinelGamepack ->
  exists pack,
    markAsSoldOut clk i st
    = Ok tt {| slots := map (fun s => if id s =? i then setSoldOut s else s)
                            (slots st);
               selectedSlot := selectedSlot st;
               soldOutPacks := soldOutPacks st ++ [pack] |}.
Proof.
  intros Hfind Hg Hne Hsent.
  unfold markAsSoldOut, bind, getState. rewrite Hfind, Hg.
  assert (Ht : JS.truthy g = true) by (destruct g; [congruence | reflexivity]).
  apply String.eqb_neq in Hsent. rewrite Ht, Hsent. simpl.
  destruct (getGameInfo_defined g) as [info ->]. simpl.
  eexists. reflexivity.
Qed.

(** C7: [markAsSoldOut(id)] leaves the whole store as it is, and returns
    normally, when no slot has that id or the slot's gamepack number is
    missing (null or empty) or the sentinel.  Otherwise it sets [soldOut] to
    true on that slot, every other field of the slot and every other slot
    staying as they were, and appends exactly one sold-out record, whose game
    name, price and type are the catalog entry under the first five characters
    of the gamepack number, or "Unknown Game" / "N/A" when the catalog has
    none. *)
Theorem markAsSoldOut_noop_or_record (clk : Clock) (i : Z) (st : InventoryState) :
  ((findSlot i (slots st) = None
    \/ exists slot, findSlot i (slots st) = Some slot
         /\ (gamepackNumber slot = None
             \/ gamepackNumber slot = Some ""
             \/ gamepackNumber slot = Some "00000000000"))
   -> markAsSoldOut clk i st = Ok tt st)
  /\
  (forall slot g,
      findSlot i (slots st) = Some slot ->
      gamepackNumber slot = Some g ->
      g <> "" -> g <> "00000000000" ->
      exists pack st',
        markAsSoldOut clk i st = Ok tt st'
        /\ slots st'
           = map (fun s => if id s =? i
                           then {| id := id s; status := status s;
                                   barcode := barcode s;
                                   timestamp := timestamp s;
                                   gamepackNumber := gamepackNumber s;
                                   soldOut := true |}
                           else s)
                 (slots st)
        /\ findSlot i (slots st')
           = Some {| id := i; status := status slot; barcode := barcode slot;
                     timestamp := timestamp slot; gamepackNumber := Some g;
                     soldOut := true |}
        /\ Forall (fun s => id s = i -> soldOut s = true) (slots st')
        /\ selectedSlot st' = selectedSlot st
        /\ soldOutPacks st' = soldOutPacks st ++ [pack]
        /\ packGamepackNumber pack = g
        /\ slotId pack = i
        /\ soldOutDate pack = nowISO clk
        /\ packId pack = g +:+ "-" +:+ nowISO clk
        /\ match gameData !! JS.substring 0 5 g with
           | Some info =>
               gameName pack = name info /\ price pack = gprice info
               /\ type pack = gtype info
           | None =>
               gameName pack = "Unknown Game" /\ price pack = "N/A"
               /\ type pack = "Scratch-off"
           end).
Proof.
  split.
  - intros [Hnone | (slot & Hfind & Hg)]; unfold markAsSoldOut, bind, getState.
    + now rewrite Hnone.
    + rewrite Hfind. destruct Hg as [-> | [-> | ->]]; reflexivity.
  - intros slot g Hfind Hg Hne Hsent.
    unfold markAsSoldOut, bind, getState. rewrite Hfind, Hg.
    assert (Ht : JS.truthy g = true) by (destruct g; [congruence | reflexivity]).
    assert (Hs : String.eqb g sentinelGamepack = false)
      by (apply String.eqb_neq; exact Hsent).
    rewrite Ht, Hs. simpl.
    assert (Hslot : findSlot i
                      (map (fun s => if id s =? i
                                     then {| id := id s; status := status s;
                                             barcode := barcode s;
                                             timestamp := timestamp s;
                                             gamepackNumber := gamepackNumber s;
                                             soldOut := true |}
                                     else s) (slots st))
                    = Some {| id := i; status := status slot;
                              barcode := barcode slot;
                              timestamp := timestamp slot;
                              gamepackNumber := Some g; soldOut := true |}).
    { clear Ht Hs. revert Hfind. unfold findSlot.
      induction (slots st) as [|s l IH]; [discriminate|].
      cbn [map List.find]. destruct (id s =? i) eqn:He; cbn [id]; rewrite He.
      - intros [= ->]. apply Z.eqb_eq in He. now rewrite He, Hg.
      - exact IH. }
    assert (Hall : Forall (fun s => id s = i -> soldOut s = true)
                     (map (fun s => if id s =? i
                                    then {| id := id s; status := status s;
                                            barcode := barcode s;
                                            timestamp := timestamp s;
                                            gamepackNumber := gamepackNumber s;
                                            soldOut := true |}
                                    else s) (slots st))).
    { apply List.Forall_forall. intros s' Hin.
      apply List.in_map_iff in Hin as (s & <- & _).
      destruct (Z.eqb_spec (id s) i); [reflexivity | congruence]. }
    unfold getGameInfo.
    destruct (gameData !! JS.substring 0 5 g) as [info|] eqn:Hinfo; simpl.
    + eexists _, _. split; [reflexivity|]. cbn [slots selectedSlot soldOutPacks].
      split; [reflexivity|]. split; [exact Hslot|]. split; [exact Hall|].
      simpl. repeat split; reflexivity.
    + eexists _, _. split; [reflexivity|]. cbn [slots selectedSlot soldOutPacks].
      split; [reflexivity|]. split; [exact Hslot|]. split; [exact Hall|].
      simpl. repeat split; reflexivity.
Qed.

Lemma markAsSoldOut_noop_or_record_witness :
  markAsSoldOut exampleClock 2 scannedStore = Ok tt scannedStore
  /\ exists pack st',
       markAsSoldOut exampleClock 1 scannedStore = Ok tt st'
       /\ findSlot 1 (slots st')
          = Some {| id := 1; status := scanned;
                    barcode := Some "12345678901234";
                    timestamp := Some "2024-01-15T10:00:00.000Z";
                    gamepackNumber := Some "12345678901"; soldOut := true |}
       /\ findSlot 1 (slots scannedStore)
          = Some {| id := 1; status := scanned;
                    barcode := Some "12345678901234";
                    timestamp := Some "2024-01-15T10:00:00.000Z";
                    gamepackNumber := Some "12345678901"; soldOut := false |}
       /\ soldOutPacks st' = [pack]
       /\ gameName pack = "Lucky 7s".
Proof.
  destruct (markAsSoldOut_noop_or_record exampleClock 2 scannedStore) as [Hnoop _].
  destruct (markAsSoldOut_noop_or_record exampleClock 1 scannedStore) as [_ Hrec].
  split.
  - apply Hnoop. right. eexists. split; [reflexivity|]. left. reflexivity.
  - destruct (Hrec _ "12345678901" eq_refl eq_refl)
      as (pack & st' & Hrun & _ & Hslot & _ & _ & Hpacks & _ & _ & _ & _ & Hcat);
      [discriminate | discriminate |].
    exists pack, st'. split; [exact Hrun|]. split; [exact Hslot|].
    split; [reflexivity|]. split; [exact Hpacks|]. apply Hcat.
Defined.

(** C10: [markAsEmpty(id)] rewrites, in the slot(s) with that id, only the
    status (to empty), the barcode and gamepack number (to the sentinels) and
    the timestamp (to now); the slot's [soldOut] flag stays as it was, so a
    slot that was sold out is still sold out afterwards.  Every other slot,
    the selection and the sold-out ledger are unchanged. *)
Theorem markAsEmpty_frame (clk : Clock) (i : Z) (st : InventoryState) :
  exists st',
    markAsEmpty clk i st = Ok tt st'
    /\ soldOutPacks st' = soldOutPacks st
    /\ selectedSlot st' = selectedSlot st
    /\ Forall2 (fun old new =>
         if id old =? i
         then id new = id old
              /\ status new = empty
              /\ barcode new = Some "00000000000000"
              /\ gamepackNumber new = Some "00000000000"
              /\ timestamp new = Some (nowISO clk)
              /\ soldOut new = soldOut old
         else new = old)
         (slots st) (slots st')
    /\ (forall k old, slots st !! k = Some old -> id old = i -> soldOut old = true ->
          exists new, slots st' !! k = Some new /\ soldOut new = true).
Proof.
  eexists. split; [reflexivity|]. simpl. repeat split.
  - induction (slots st) as [|s l IH]; simpl; constructor; [|exact IH].
    destruct (id s =? i); simpl; repeat split; reflexivity.
  - intros k old Hk Hid Hso. change (map ?f ?l) with (f <$> l).
    rewrite list_lookup_fmap, Hk. simpl.
    eexists. split; [reflexivity|].
    rewrite (proj2 (Z.eqb_eq _ _) Hid). simpl. exact Hso.
Qed.

Lemma markAsEmpty_frame_witness :
  exists new,
    slots (stateOf (markAsEmpty exampleClock 1
                      (stateOf (markAsSoldOut exampleClock 1 scannedStore))))
      !! 0%nat = Some new
    /\ soldOut new = true.
Proof.
  destruct (markAsEmpty_frame exampleClock 1
              (stateOf (markAsSoldOut exampleClock 1 scannedStore)))
    as (st' & Hrun & _ & _ & _ & Hkeep).
  rewrite Hrun. simpl.
  apply (Hkeep 0%nat (setSoldOut
           {| id := 1; status := scanned; barcode := Some "12345678901234";
              timestamp := Some "2024-01-15T10:00:00.000Z";
              gamepackNumber := Some "12345678901"; soldOut := false |}));
    reflexivity.
Defined.

(** ** The slot collection is fixed *)

Lemma runOp_slots (clk : Clock) (op : StoreOp) (st : InventoryState) :
  exists (f : InventorySlot -> InventorySlot) st',
    runOp clk op st = Ok tt st'
    /\ slots st' = map f (slots st)
    /\ (forall s, id (f s) = id s)
    /\ (forall s, id s <> opTarget op -> f s = s).
Proof.
  destruct op as [i bc | i | i | i]; simpl.
  - eexists _, _. split; [reflexivity|]. split; [reflexivity|].
    split; intros s; [destruct (id s =? i) | intros H;
      destruct (Z.eqb_spec (id s) i)]; simpl; congruence.
  - eexists _, _. split; [reflexivity|]. split; [reflexivity|].
    split; intros s; [destruct (id s =? i) | intros H;
      destruct (Z.eqb_spec (id s) i)]; simpl; congruence.
  - eexists _, _. split; [reflexivity|]. split; [reflexivity|].
    split; intros s; [destruct (id s =? i) | intros H;
      destruct (Z.eqb_spec (id s) i)]; simpl; congruence.
  - unfold markAsSoldOut, bind, getState.
    assert (Hid : exists st', Ok (S := InventoryState) tt st = Ok tt st'
                    /\ slots st' = map (fun s => s) (slots st)
                    /\ (forall s : InventorySlot, id s = id s)
                    /\ (forall s : InventorySlot, id s <> i -> s = s)).
    { exists st. rewrite map_id. repeat split. }
    destruct (findSlot i (slots st)) as [slot|]; [|eexists; exact Hid].
    destruct (gamepackNumber slot) as [g|]; [|eexists; exact Hid].
    destruct (JS.truthy g && negb (String.eqb g sentinelGamepack));
      [|eexists; exact Hid].
    destruct (getGameInfo_defined g) as [info ->]. simpl.
    eexists _, _. split; [reflexivity|]. split; [reflexivity|].
    split; intros s; [destruct (id s =? i) | intros H;
      destruct (Z.eqb_spec (id s) i)]; simpl; congruence.
Qed.

Lemma reachable_ids st : reachable st -> map id (slots st) = seqZ 1 20.
Proof.
  induction 1 as [st0 st Hinit | clk op st st' Hreach IH Hrun].
  - injection Hinit as <-. reflexivity.
  - destruct (runOp_slots clk op st) as (f & st'' & Hrun' & Hslots & Hid & _).
    rewrite Hrun in Hrun'. injection Hrun' as <-.
    rewrite Hslots, map_id_mapSlots; assumption.
Qed.

(** C9: [initializeSlots] produces 20 empty slots with ids 1 to 20 in order;
    in every store reachable from it the collection still has 20 slots with
    the ids 1 to 20 in order; and each of [updateSlot], [clearSlot],
    [markAsEmpty], [markAsSoldOut] returns normally, keeps the ids, and can
    only change the one position that holds the slot with the given id. *)
Theorem slot_collection_fixed :
  (forall st0, exists st,
      initializeSlots st0 = Ok tt st
      /\ slots st
         = map (fun i => {| id := i; status := empty; barcode := None;
                            timestamp := None; gamepackNumber := None;
                            soldOut := false |}) (seqZ 1 20))
  /\ (forall st, reachable st ->
        length (slots st) = 20%nat /\ map id (slots st) = seqZ 1 20)
  /\ (forall clk op st, reachable st ->
        exists st',
          runOp clk op st = Ok tt st'
          /\ reachable st'
          /\ length (slots st') = 20%nat
          /\ map id (slots st') = seqZ 1 20
          /\ forall k : nat,
               Z.of_nat k + 1 <> opTarget op ->
               slots st' !! k = slots st !! k).
Proof.
  split; [|split].
  - intros st0. eexists. split; reflexivity.
  - intros st Hr. pose proof (reachable_ids st Hr) as Hids. split; [|exact Hids].
    rewrite <- (length_map id), Hids. reflexivity.
  - intros clk op st Hr.
    destruct (runOp_slots clk op st) as (f & st' & Hrun & Hslots & Hid & Hother).
    exists st'. split; [exact Hrun|].
    assert (Hr' : reachable st') by (eapply reach_step; eassumption).
    pose proof (reachable_ids st' Hr') as Hids'.
    repeat split; try assumption.
    + rewrite <- (length_map id), Hids'. reflexivity.
    + intros k Hk. rewrite Hslots. change (map f (slots st)) with (f <$> slots st).
      rewrite list_lookup_fmap.
      destruct (slots st !! k) as [s|] eqn:Hs; [|reflexivity]. simpl. f_equal.
      apply Hother.
      assert (Hidk : map id (slots st) !! k = Some (id s)).
      { change (map id (slots st)) with (id <$> slots st).
        now rewrite list_lookup_fmap, Hs. }
      rewrite (reachable_ids st Hr) in Hidk.
      apply lookup_seqZ in Hidk. lia.
Qed.

Lemma slot_collection_fixed_witness :
  length (slots scannedStore) = 20%nat
  /\ exists st',
       runOp exampleClock (OpMarkAsSoldOut 1) scannedStore = Ok tt st'
       /\ slots st' !! 4%nat = slots scannedStore !! 4%nat.
Proof.
  destruct slot_collection_fixed as (_ & Hinv & Hop).
  assert (Hr : reachable scannedStore).
  { apply (reach_step exampleClock (OpUpdateSlot 1 "12345678901234") freshStore).
    - apply (reach_init emptyStore). reflexivity.
    - reflexivity. }
  split.
  - apply (Hinv scannedStore Hr).
  - destruct (Hop exampleClock (OpMarkAsSoldOut 1) scannedStore Hr)
      as (st' & Hrun & _ & _ & _ & Hk).
    exists st'. split; [exact Hrun|]. apply Hk. simpl. lia.
Defined.

(** ** The slot navigator *)

Section Navigator.

Lemma find_firstWhere (f : InventorySlot -> bool) l s :
  firstWhere (fun x => f x = true) l s -> List.find f l = Some s.
Proof.
  intros (k & Hk & Hs & Hfirst). revert k Hk Hfirst.
  induction l as [|x l IH]; intros k Hk Hfirst; [discriminate|].
  destruct k as [|k]; simpl in *.
  - injection Hk as ->. now rewrite Hs.
  - destruct (f x) eqn:Hx.
    + exfalso. apply (Hfirst 0%nat x); [reflexivity | lia | exact Hx].
    + apply (IH k Hk). intros j y Hj Hlt.
      apply (Hfirst (S j) y); [exact Hj | lia].
Qed.

Lemma find_none_Forall (f : InventorySlot -> bool) l :
  Forall (fun x => f x = false) l -> List.find f l = None.
Proof.
  induction 1 as [|x l Hx _ IH]; simpl; [reflexivity|]. now rewrite Hx.
Qed.

Lemma firstWhere_ext (P Q : InventorySlot -> Prop) l s :
  (forall x, P x <-> Q x) -> firstWhere P l s -> firstWhere Q l s.
Proof.
  intros HPQ (k & Hk & Hs & Hfirst). exists k. split; [exact Hk|].
  split; [now apply HPQ|]. intros j y Hj Hlt HQ.
  apply (Hfirst j y Hj Hlt). now apply HPQ.
Qed.

Lemma pending_eqb s : SlotStatus_eqb (status s) pending = true <-> isPending s.
Proof. unfold isPending. destruct (status s); simpl; split; congruence. Qed.

Lemma untouched_eqb s :
  match barcode s with None => true | Some _ => false end
  && SlotStatus_eqb (status s) empty = true <-> isUntouched s.
Proof.
  unfold isUntouched. destruct (barcode s), (status s); simpl;
    split; intros H; try discriminate H; try (destruct H; discriminate);
    auto.
Qed.

Lemma notScanned_eqb s :
  negb (SlotStatus_eqb (status s) scanned) = true <-> isNotScanned s.
Proof. unfold isNotScanned. destruct (status s); simpl; split; congruence. Qed.

Lemma Forall_not_false (f : InventorySlot -> bool) (P : InventorySlot -> Prop) l :
  (forall x, f x = true <-> P x) ->
  Forall (fun x => ~ P x) l -> Forall (fun x => f x = false) l.
Proof.
  intros Hf. apply List.Forall_impl. intros x Hx.
  destruct (f x) eqn:E; [|reflexivity]. exfalso. now apply Hx, Hf.
Qed.

End Navigator.

(** C8: the navigator returns the id of the first Pending slot if there is
    one; else the id of the first slot with a null barcode and status Empty;
    else the id of the first slot that is not Scanned; else, when every slot
    is Scanned, 1. *)
Theorem findNextAvailableSlot_priority (l : list InventorySlot) :
  (forall s, firstWhere isPending l s -> findNextAvailableSlot l = id s)
  /\ (Forall (fun x => ~ isPending x) l ->
      forall s, firstWhere isUntouched l s -> findNextAvailableSlot l = id s)
  /\ (Forall (fun x => ~ isPending x) l ->
      Forall (fun x => ~ isUntouched x) l ->
      forall s, firstWhere isNotScanned l s -> findNextAvailableSlot l = id s)
  /\ (Forall (fun x => status x = scanned) l -> findNextAvailableSlot l = 1).
Proof.
  unfold findNextAvailableSlot. repeat split.
  - intros s Hs.
    rewrite (find_firstWhere _ l s); [reflexivity|].
    eapply firstWhere_ext; [|exact Hs]. intros x. symmetry. apply pending_eqb.
  - intros Hnp s Hs.
    rewrite find_none_Forall
      by (eapply Forall_not_false; [apply pending_eqb | exact Hnp]).
    rewrite (find_firstWhere _ l s); [reflexivity|].
    eapply firstWhere_ext; [|exact Hs]. intros x. symmetry. apply untouched_eqb.
  - intros Hnp Hnu s Hs.
    rewrite find_none_Forall
      by (eapply Forall_not_false; [apply pending_eqb | exact Hnp]).
    rewrite find_none_Forall
      by (eapply Forall_not_false; [apply untouched_eqb | exact Hnu]).
    rewrite (find_firstWhere _ l s); [reflexivity|].
    eapply firstWhere_ext; [|exact Hs]. intros x. symmetry. apply notScanned_eqb.
  - intros Hall.
    rewrite !find_none_Forall; [reflexivity | | |];
      (eapply List.Forall_impl; [|exact Hall]); intros x Hx; simpl in Hx;
      rewrite Hx; simpl; try reflexivity.
    now rewrite andb_false_r.
Qed.

Lemma findNextAvailableSlot_priority_witness :
  findNextAvailableSlot (slots scannedStore) = 2
  /\ findNextAvailableSlot
       [{| id := 7; status := scanned; barcode := Some "12345678901234";
           timestamp := None; gamepackNumber := Some "12345678901";
           soldOut := false |}] = 1.
Proof.
  destruct (findNextAvailableSlot_priority (slots scannedStore)) as (_ & Hb & _).
  destruct (findNextAvailableSlot_priority
              [{| id := 7; status := scanned; barcode := Some "12345678901234";
                  timestamp := None; gamepackNumber := Some "12345678901";
                  soldOut := false |}]) as (_ & _ & _ & Hd).
  split.
  - apply (Hb ltac:(repeat constructor; discriminate)
              {| id := 2; status := empty; barcode := None; timestamp := None;
                 gamepackNumber := None; soldOut := false |}).
    exists 1%nat. split; [reflexivity|]. split; [split; reflexivity|].
    intros j y Hj Hlt. destruct j as [|j]; [|lia].
    injection Hj as <-. intros [Hbar _]. discriminate Hbar.
  - apply Hd. repeat constructor.
Defined.

(** ** The validator *)

Section ValidatorFacts.

Variable clk : Clock.

Lemma digit_not_white c : JS.isDigit c = true -> JS.isWhiteSpace c = false.
Proof.
  destruct c as [[] [] [] [] [] [] [] []]; vm_compute; congruence.
Qed.

Lemma truthy_trimEnd_cons c s :
  JS.isWhiteSpace c = false -> JS.truthy (JS.trimEnd (String c s)) = true.
Proof.
  intros Hc. simpl. destruct (JS.trimEnd s); [now rewrite Hc | reflexivity].
Qed.

Lemma format_trim bc :
  14 <= JS.strlen bc -> JS.allDigits bc = true -> JS.truthy (JS.trim bc) = true.
Proof.
  destruct bc as [|c s]; [unfold JS.strlen; simpl; lia|].
  intros _ [Hc _]%andb_true_iff. apply digit_not_white in Hc.
  unfold JS.trim. simpl JS.trimStart. rewrite Hc.
  now apply truthy_trimEnd_cons.
Qed.

Lemma format_test bc :
  14 <= JS.strlen bc -> JS.allDigits bc = true -> JS.testDigitsOnly bc = true.
Proof.
  destruct bc as [|c s]; [unfold JS.strlen; simpl; lia|]. intros _ H. exact H.
Qed.

Lemma getPreviousGamepack_readonly i st :
  exists prev, getPreviousGamepack i st = Ok prev st.
Proof.
  unfold getPreviousGamepack, bind, getState.
  destruct (findSlot i (slots st)) as [slot|]; [|now eexists].
  destruct (_ || _); now eexists.
Qed.

Lemma checkGamepackUniqueness_readonly g st :
  exists b, checkGamepackUniqueness clk g st = Ok b st.
Proof.
  unfold checkGamepackUniqueness. destruct (String.eqb _ _); now eexists.
Qed.

(** The validator only reads the store and always returns. *)
Lemma validateBarcode_readonly bc i st :
  exists r, validateBarcode clk bc i st = Ok r st.
Proof.
  unfold validateBarcode.
  destruct (negb (JS.truthy (JS.trim bc))); [now eexists|].
  destruct (JS.strlen bc <? 14); [now eexists|].
  destruct (negb (JS.testDigitsOnly bc)); [now eexists|].
  destruct (String.eqb _ _); [now eexists|].
  unfold bind. destruct (getPreviousGamepack_readonly i st) as [prev ->].
  destruct (checkGamepackUniqueness_readonly (JS.substring 0 11 bc) st)
    as [b Hb].
  destruct prev as [p|].
  - destruct (_ && _); [now eexists|]. rewrite Hb. destruct (negb b); now eexists.
  - rewrite Hb. destruct (negb b); now eexists.
Qed.

(** Past the format checks and the sentinel test, the validator asks the
    store for the slot's previous gamepack. *)
Lemma validateBarcode_checked bc i st :
  14 <= JS.strlen bc -> JS.allDigits bc = true ->
  JS.substring 0 11 bc <> sentinelGamepack ->
  validateBarcode clk bc i st
  = (let gamepack := JS.substring 0 11 bc in
     let* prev := getPreviousGamepack i in
     match prev with
     | Some p =>
         if JS.truthy p && negb (String.eqb p sentinelGamepack)
            && negb (String.eqb p gamepack)
         then ret (RequiresConfirmation p (confirmationMessage p i))
         else
           let* isUnique := checkGamepackUniqueness clk gamepack in
           if negb isUnique then ret (Reject (duplicateMessage gamepack))
           else ret Accept
     | None =>
         let* isUnique := checkGamepackUniqueness clk gamepack in
         if negb isUnique then ret (Reject (duplicateMessage gamepack))
         else ret Accept
     end) st.
Proof.
  intros Hlen Hdig Hsent. unfold validateBarcode.
  rewrite (format_trim bc Hlen Hdig), (format_test bc Hlen Hdig). simpl.
  destruct (Z.ltb_spec (JS.strlen bc) 14); [lia|].
  apply String.eqb_neq in Hsent. rewrite Hsent. reflexivity.
Qed.

(** What the callback of the uniqueness scan tests. *)
Lemma activeToday_true g slot :
  activeToday clk g slot = true
  <-> gamepackNumber slot = Some g
      /\ soldOut slot = false
      /\ exists ts, timestamp slot = Some ts /\ ts <> ""
                    /\ dateStringOf clk ts = todayString clk.
Proof.
  unfold activeToday. destruct (timestamp slot) as [ts|].
  - destruct ts as [|c ts]; simpl.
    + split; [discriminate|]. intros (_ & _ & ts & [= <-] & Hne & _). congruence.
    + destruct (gamepackNumber slot) as [g'|]; simpl.
      * destruct (String.eqb_spec g' g) as [->|Hne]; simpl.
        -- rewrite andb_true_iff, String.eqb_eq, negb_true_iff. split.
           ++ intros [Hd Hs]. repeat split; [exact Hs|].
              eexists. repeat split; [discriminate | exact Hd].
           ++ intros (_ & Hs & ts' & [= <-] & _ & Hd). now split.
        -- split; [discriminate|]. intros ([= E] & _). congruence.
      * split; [discriminate|]. intros (E & _). discriminate E.
  - split; [discriminate|]. intros (_ & _ & ts & E & _). discriminate E.
Qed.

(** When the confirmation branch does not fire, the verdict is the uniqueness
    scan over all slots of the store, the target slot included. *)
Lemma validateBarcode_uniqueness bc i st prev :
  14 <= JS.strlen bc -> JS.allDigits bc = true ->
  JS.substring 0 11 bc <> sentinelGamepack ->
  getPreviousGamepack i st = Ok prev st ->
  (prev = None \/ prev = Some (JS.substring 0 11 bc)) ->
  validateBarcode clk bc i st
  = Ok (if existsb (activeToday clk (JS.substring 0 11 bc)) (slots st)
        then Reject (duplicateMessage (JS.substring 0 11 bc))
        else Accept) st.
Proof.
  intros Hlen Hdig Hsent Hprev Hcase.
  rewrite validateBarcode_checked by assumption. cbv zeta.
  unfold bind at 1. rewrite Hprev.
  assert (Hu : (let* isUnique := checkGamepackUniqueness clk (JS.substring 0 11 bc) in
                if negb isUnique
                then ret (Reject (duplicateMessage (JS.substring 0 11 bc)))
                else ret Accept) st
               = Ok (if existsb (activeToday clk (JS.substring 0 11 bc)) (slots st)
                     then Reject (duplicateMessage (JS.substring 0 11 bc))
                     else Accept) st).
  { unfold bind, checkGamepackUniqueness.
    apply String.eqb_neq in Hsent. rewrite Hsent. unfold bind, getState, ret.
    destruct (existsb _ _); reflexivity. }
  destruct Hcase as [-> | ->]; [exact Hu|].
  rewrite String.eqb_refl, andb_false_r. exact Hu.
Qed.

(** The confirmation branch. *)
Lemma validateBarcode_confirmation bc i st slot b G1 :
  14 <= JS.strlen bc -> JS.allDigits bc = true ->
  JS.substring 0 11 bc <> sentinelGamepack ->
  findSlot i (slots st) = Some slot ->
  barcode slot = Some b -> b <> "" ->
  gamepackNumber slot = Some G1 -> G1 <> "" ->
  G1 <> sentinelGamepack ->
  G1 <> JS.substring 0 11 bc ->
  validateBarcode clk bc i st
  = Ok (RequiresConfirmation G1 (confirmationMessage G1 i)) st.
Proof.
  intros Hlen Hdig Hsent Hfind Hb Hbne Hg Hgne Hgs Hdiff.
  rewrite validateBarcode_checked by assumption. cbv zeta.
  unfold bind at 1, getPreviousGamepack, bind, getState.
  rewrite Hfind, Hb, Hg. simpl.
  assert (Htb : JS.truthy b = true) by (destruct b; [congruence | reflexivity]).
  assert (Htg : JS.truthy G1 = true) by (destruct G1; [congruence | reflexivity]).
  apply String.eqb_neq in Hgs, Hdiff.
  rewrite Htb, Htg, Hgs. simpl. rewrite Htg, Hgs, Hdiff. reflexivity.
Qed.

End ValidatorFacts.

Section SentinelAndUniqueness.

Variable clk : Clock.

Lemma substring_sentinel_prefix suffix :
  JS.substring 0 11 ("00000000000" +:+ suffix) = "00000000000".
Proof.
  apply chars_inj. rewrite (chars_substring_prefix 11). reflexivity.
Qed.

Lemma gamepack_nonempty bc :
  14 <= JS.strlen bc -> JS.substring 0 11 bc <> "".
Proof.
  intros Hlen H. apply (f_equal (fun s => length (chars s))) in H.
  rewrite (chars_substring_prefix 11), length_take in H.
  rewrite strlen_chars in Hlen. change (length (chars "")) with 0%nat in H. lia.
Qed.

Lemma findSlot_map (f : InventorySlot -> InventorySlot) i l :
  (forall s, id (f s) = id s) ->
  findSlot i (map f l) = f <$> findSlot i l.
Proof.
  intros Hid. unfold findSlot. induction l as [|s l IH]; simpl; [reflexivity|].
  rewrite Hid. destruct (id s =? i); [reflexivity | exact IH].
Qed.

Lemma getPreviousGamepack_other_slot (f : InventorySlot -> InventorySlot) A B st st' prev :
  (forall s, id (f s) = id s) ->
  (forall s, id s <> A -> f s = s) ->
  B <> A ->
  slots st' = map f (slots st) ->
  getPreviousGamepack B st = Ok prev st ->
  getPreviousGamepack B st' = Ok prev st'.
Proof.
  intros Hid Hother Hne Hslots.
  unfold getPreviousGamepack, bind, getState. rewrite Hslots, findSlot_map by exact Hid.
  destruct (findSlot B (slots st)) as [s|] eqn:Hfind; simpl.
  - apply findSlot_Some in Hfind as [_ HB].
    rewrite Hother by congruence.
    destruct (_ || _); intros [= <-]; reflexivity.
  - intros [= <-]. reflexivity.
Qed.

(** The duplicate verdict, when the confirmation branch does not fire: the
    scan rejects exactly when some slot of the store, whichever its id, holds
    the gamepack with a timestamp of today and is not sold out. *)
Lemma validateBarcode_duplicate_iff bc i st prev :
  14 <= JS.strlen bc -> JS.allDigits bc = true ->
  JS.substring 0 11 bc <> sentinelGamepack ->
  getPreviousGamepack i st = Ok prev st ->
  (prev = None \/ prev = Some (JS.substring 0 11 bc)) ->
  (validateBarcode clk bc i st
   = Ok (Reject (duplicateMessage (JS.substring 0 11 bc))) st
   <-> exists slot, In slot (slots st)
         /\ gamepackNumber slot = Some (JS.substring 0 11 bc)
         /\ soldOut slot = false
         /\ exists ts, timestamp slot = Some ts /\ ts <> ""
                       /\ dateStringOf clk ts = todayString clk)
  /\ (validateBarcode clk bc i st = Ok Accept st
      <-> ~ exists slot, In slot (slots st)
            /\ gamepackNumber slot = Some (JS.substring 0 11 bc)
            /\ soldOut slot = false
            /\ exists ts, timestamp slot = Some ts /\ ts <> ""
                          /\ dateStringOf clk ts = todayString clk).
Proof.
  intros Hlen Hdig Hsent Hprev Hcase.
  rewrite (validateBarcode_uniqueness clk bc i st prev) by assumption.
  destruct (existsb _ _) eqn:E.
  - apply List.existsb_exists in E as (slot & Hin & Hact).
    apply activeToday_true in Hact.
    split; split; try discriminate; eauto.
    intros Hno. exfalso. apply Hno. eauto.
  - assert (Hno : ~ exists slot, In slot (slots st)
                    /\ gamepackNumber slot = Some (JS.substring 0 11 bc)
                    /\ soldOut slot = false
                    /\ exists ts, timestamp slot = Some ts /\ ts <> ""
                                  /\ dateStringOf clk ts = todayString clk).
    { intros (slot & Hin & Hact). apply not_true_iff_false in E. apply E.
      apply List.existsb_exists. exists slot. split; [exact Hin|].
      now apply activeToday_true. }
    split; split; try discriminate; tauto.
Qed.

(** Across two different slots the rule works as described: while slot [A]
    holds the gamepack actively today, a scan of it into slot [B] is
    rejected; once [A], the only active holder, is marked sold out, the same
    scan is accepted. *)
Lemma uniqueness_across_slots (soldAt : Clock) bc A B st a prev :
  14 <= JS.strlen bc -> JS.allDigits bc = true ->
  JS.substring 0 11 bc <> sentinelGamepack ->
  findSlot A (slots st) = Some a ->
  activeToday clk (JS.substring 0 11 bc) a = true ->
  B <> A ->
  getPreviousGamepack B st = Ok prev st ->
  (prev = None \/ prev = Some (JS.substring 0 11 bc)) ->
  validateBarcode clk bc B st
  = Ok (Reject (duplicateMessage (JS.substring 0 11 bc))) st
  /\ (Forall (fun s => activeToday clk (JS.substring 0 11 bc) s = true -> id s = A)
             (slots st) ->
      exists st', markAsSoldOut soldAt A st = Ok tt st'
                  /\ validateBarcode clk bc B st' = Ok Accept st').
Proof.
  intros Hlen Hdig Hsent Hfind Hact Hne Hprev Hcase.
  set (G := JS.substring 0 11 bc) in *.
  split.
  - rewrite (validateBarcode_uniqueness clk bc B st prev) by assumption.
    fold G. replace (existsb (activeToday clk G) (slots st)) with true; [reflexivity|].
    symmetry. apply List.existsb_exists. exists a. split; [|exact Hact].
    now apply findSlot_Some in Hfind.
  - intros Honly.
    destruct (markAsSoldOut_records soldAt A st a G) as (pack & Hrun);
      try assumption.
    + now apply activeToday_true in Hact.
    + now apply gamepack_nonempty.
    + eexists. split; [exact Hrun|].
      set (st' := {| slots := _ |}).
      rewrite (validateBarcode_uniqueness clk bc B st' prev); try assumption.
      * fold G. replace (existsb (activeToday clk G) (slots st')) with false;
          [reflexivity|].
        symmetry. apply not_true_iff_false. intros E.
        apply List.existsb_exists in E as (s' & Hin & Hs').
        simpl in Hin. apply List.in_map_iff in Hin as (s & <- & Hin).
        destruct (Z.eqb_spec (id s) A) as [HA|HA].
        -- apply activeToday_true in Hs' as (_ & Hso & _). discriminate Hso.
        -- rewrite List.Forall_forall in Honly. now apply HA, Honly.
      * eapply (getPreviousGamepack_other_slot
                  (fun s => if id s =? A then setSoldOut s else s) A B st st');
          try eassumption; try reflexivity.
        -- intros s. destruct (id s =? A); reflexivity.
        -- intros s Hs. destruct (Z.eqb_spec (id s) A); [contradiction|reflexivity].
Qed.

Lemma Forall_map_keeps (P : InventorySlot -> Prop) (f : InventorySlot -> InventorySlot) l :
  (forall s, P s -> P (f s)) -> Forall P l -> Forall P (map f l).
Proof.
  intros Hf. induction 1; simpl; constructor; auto.
Qed.

Lemma runOp_consistent (c : Clock) op st st' :
  scanOp op -> runOp c op st = Ok tt st' ->
  Forall slotConsistent (slots st) -> Forall slotConsistent (slots st').
Proof.
  intros Hop Hrun Hall. destruct op as [i bc | i | i | i]; simpl in *.
  - injection Hrun as <-. simpl. apply Forall_map_keeps; [|exact Hall].
    intros s Hs. destruct (id s =? i); [|exact Hs].
    unfold slotConsistent. simpl. split; [exact Hop|].
    destruct (Z.leb_spec 11 (JS.strlen bc)); [reflexivity | lia].
  - injection Hrun as <-. simpl. apply Forall_map_keeps; [|exact Hall].
    intros s Hs. destruct (id s =? i); [reflexivity | exact Hs].
  - injection Hrun as <-. simpl. apply Forall_map_keeps; [|exact Hall].
    intros s Hs. destruct (id s =? i); [|exact Hs].
    unfold slotConsistent. simpl. split; [vm_compute; congruence | reflexivity].
  - revert Hrun. unfold markAsSoldOut, bind, getState.
    destruct (findSlot i (slots st)) as [slot|]; [|intros [= <-]; exact Hall].
    destruct (gamepackNumber slot) as [g|]; [|intros [= <-]; exact Hall].
    destruct (JS.truthy g && negb (String.eqb g sentinelGamepack));
      [|intros [= <-]; exact Hall].
    destruct (getGameInfo_defined g) as [info ->]. simpl. intros [= <-]. simpl.
    apply Forall_map_keeps; [|exact Hall].
    intros s Hs. destruct (id s =? i); exact Hs.
Qed.

Lemma reachableByScans_consistent st :
  reachableByScans st -> Forall slotConsistent (slots st).
Proof.
  induction 1 as [st0 st Hinit | c op st st' _ IH Hop Hrun].
  - injection Hinit as <-. simpl. repeat constructor.
  - eapply runOp_consistent; eassumption.
Qed.

End SentinelAndUniqueness.

(** C5: for an identifier that passes the format checks and whose gamepack
    [G2] (its first 11 digits) is not the sentinel, and a target slot that
    holds a barcode and a current gamepack [G1], not the sentinel and not
    [G2], the validator answers RequiresConfirmation with
    [previousGamepack = G1] and the message
    "Was the previous pack (G1) in Slot <slotId> completely sold out?",
    (the slot id printed in decimal) and leaves the store as it was.  This
    holds in every store in which the
    slot's barcode and gamepack number are non-empty strings, and so in every
    store the screens can produce, where a non-null barcode is never empty. *)
Theorem validateBarcode_requires_confirmation :
  (forall (clk : Clock) (st : InventoryState) (slotId : Z) (bc : string)
          (slot : InventorySlot) (b G1 : string),
      14 <= JS.strlen bc ->
      JS.allDigits bc = true ->
      JS.substring 0 11 bc <> "00000000000" ->
      findSlot slotId (slots st) = Some slot ->
      barcode slot = Some b -> b <> "" ->
      gamepackNumber slot = Some G1 -> G1 <> "" ->
      G1 <> "00000000000" ->
      G1 <> JS.substring 0 11 bc ->
      validateBarcode clk bc slotId st
      = Ok {| isValid := false;
              message := Some ("Was the previous pack (" +:+ G1 +:+ ") in Slot "
                               +:+ pretty slotId +:+ " completely sold out?");
              previousGamepack := Some G1;
              requiresConfirmation := Some true |} st)
  /\
  (forall (clk : Clock) (st : InventoryState) (slotId : Z) (bc : string)
          (slot : InventorySlot) (b G1 : string),
      reachableByScans st ->
      14 <= JS.strlen bc ->
      JS.allDigits bc = true ->
      JS.substring 0 11 bc <> "00000000000" ->
      findSlot slotId (slots st) = Some slot ->
      barcode slot = Some b ->
      gamepackNumber slot = Some G1 ->
      G1 <> "00000000000" ->
      G1 <> JS.substring 0 11 bc ->
      validateBarcode clk bc slotId st
      = Ok {| isValid := false;
              message := Some ("Was the previous pack (" +:+ G1 +:+ ") in Slot "
                               +:+ pretty slotId +:+ " completely sold out?");
              previousGamepack := Some G1;
              requiresConfirmation := Some true |} st).
Proof.
  split.
  - intros clk st slotId bc slot b G1 Hlen Hdig Hsent Hfind Hb Hbne Hg Hgne Hgs Hdiff.
    now apply (validateBarcode_confirmation clk bc slotId st slot b G1).
  - intros clk st slotId bc slot b G1 Hr Hlen Hdig Hsent Hfind Hb Hg Hgs Hdiff.
    pose proof (reachableByScans_consistent st Hr) as Hall.
    rewrite List.Forall_forall in Hall.
    specialize (Hall slot (proj1 (findSlot_Some _ _ _ Hfind))).
    unfold slotConsistent in Hall. rewrite Hb, Hg in Hall.
    destruct Hall as [Hblen [= ->]].
    apply (validateBarcode_confirmation clk bc slotId st slot b
             (JS.substring 0 11 b)); try assumption.
    + intros ->. vm_compute in Hblen. now apply Hblen.
    + now apply gamepack_nonempty.
Qed.

Lemma validateBarcode_requires_confirmation_witness :
  validateBarcode exampleClock "23456000001234" 1 scannedStore
  = Ok {| isValid := false;
          message := Some "Was the previous pack (12345678901) in Slot 1 completely sold out?";
          previousGamepack := Some "12345678901";
          requiresConfirmation := Some true |} scannedStore
  /\ validateBarcode exampleClock "12345678901234" 1
       (stateOf (updateSlot exampleClock 1 "23456000001234" freshStore))
     = Ok {| isValid := false;
             message := Some "Was the previous pack (23456000001) in Slot 1 completely sold out?";
             previousGamepack := Some "23456000001";
             requiresConfirmation := Some true |}
          (stateOf (updateSlot exampleClock 1 "23456000001234" freshStore)).
Proof.
  destruct validateBarcode_requires_confirmation as [Hany Hscans].
  split.
  - apply (Hany exampleClock scannedStore 1 "23456000001234"
             {| id := 1; status := scanned; barcode := Some "12345678901234";
                timestamp := Some "2024-01-15T10:00:00.000Z";
                gamepackNumber := Some "12345678901"; soldOut := false |}
             "12345678901234" "12345678901");
      try reflexivity; try discriminate; vm_compute; congruence.
  - apply (Hscans exampleClock _ 1 "12345678901234"
             {| id := 1; status := scanned; barcode := Some "23456000001234";
                timestamp := Some "2024-01-15T10:00:00.000Z";
                gamepackNumber := Some "23456000001"; soldOut := false |}
             "23456000001234" "23456000001");
      try reflexivity; try discriminate; try (vm_compute; congruence).
    apply (scans_step exampleClock (OpUpdateSlot 1 "23456000001234") freshStore).
    + apply (scans_init emptyStore). reflexivity.
    + vm_compute. congruence.
    + reflexivity.
Defined.

(** C6 as stated, with any suffix: a sentinel identifier padded with
    characters that are not digits is rejected by the format check. *)
Lemma sentinel_nondigit_suffix_rejected :
  14 <= JS.strlen ("00000000000" +:+ "abc")
  /\ validateBarcode exampleClock ("00000000000" +:+ "abc") 1 freshStore
     = Ok (Reject "Barcode must contain only numbers") freshStore
  /\ validateBarcode exampleClock ("00000000000" +:+ "abc") 1 freshStore
     <> Ok Accept freshStore.
Proof. split; [|split]; vm_compute; congruence. Qed.

(** C6, amended: an identifier made of the sentinel gamepack "00000000000"
    and any suffix of digits that brings it to 14 characters or more is
    accepted for every slot id and every store, whatever the slot held before
    and whatever the other slots hold; the store is left as it was. *)
Theorem validateBarcode_sentinel_accepts
    (clk : Clock) (suffix : string) (slotId : Z) (st : InventoryState) :
  JS.allDigits suffix = true ->
  14 <= JS.strlen ("00000000000" +:+ suffix) ->
  validateBarcode clk ("00000000000" +:+ suffix) slotId st
  = Ok {| isValid := true; message := None;
          previousGamepack := None; requiresConfirmation := None |} st.
Proof.
  intros Hdig Hlen.
  assert (Hall : JS.allDigits ("00000000000" +:+ suffix) = true) by exact Hdig.
  unfold validateBarcode.
  rewrite (format_trim _ Hlen Hall), (format_test _ Hlen Hall). simpl negb.
  destruct (Z.ltb_spec (JS.strlen ("00000000000" +:+ suffix)) 14); [lia|].
  cbv iota. rewrite substring_sentinel_prefix. reflexivity.
Qed.

Lemma validateBarcode_sentinel_accepts_witness :
  validateBarcode exampleClock "00000000000000" 1 scannedStore
  = Ok Accept scannedStore.
Proof.
  apply (validateBarcode_sentinel_accepts exampleClock "000" 1 scannedStore).
  - reflexivity.
  - vm_compute. congruence.
Defined.

(** C1 at a store the program reaches: slot 1 was scanned today with pack
    12345678901 and is the only slot holding it, so the previous gamepack of
    slot 1 equals the new one and no confirmation is asked.  Scanning the same
    pack into slot 1 again is rejected as a duplicate in another slot. *)
Theorem validateBarcode_rescan_same_slot_rejected :
  getPreviousGamepack 1 scannedStore = Ok (Some "12345678901") scannedStore
  /\ List.filter (fun s => match gamepackNumber s with
                           | Some g => String.eqb g "12345678901"
                           | None => false
                           end) (slots scannedStore)
     = [ {| id := 1; status := scanned; barcode := Some "12345678901234";
            timestamp := Some "2024-01-15T10:00:00.000Z";
            gamepackNumber := Some "12345678901"; soldOut := false |} ]
  /\ validateBarcode exampleClock "12345678901234" 1 scannedStore
     = Ok (Reject "This gamepack (12345678901) is already active in another slot today.")
          scannedStore.
Proof. repeat split; vm_compute; reflexivity. Qed.

(** ** Submitting a scan *)

Section Submit.

Variable clk : Clock.


Lemma truthy_trimEnd s : JS.truthy (JS.trimEnd s) = JS.hasNonWhite s.
Proof.
  induction s as [|c s IH]; [reflexivity|].
  cbn [JS.trimEnd JS.hasNonWhite]. rewrite <- IH.
  destruct (JS.trimEnd s); cbn [JS.truthy].
  - destruct (JS.isWhiteSpace c); reflexivity.
  - now rewrite orb_true_r.
Qed.

Lemma hasNonWhite_trimStart s : JS.hasNonWhite (JS.trimStart s) = JS.hasNonWhite s.
Proof.
  induction s as [|c s IH]; [reflexivity|].
  cbn [JS.trimStart]. destruct (JS.isWhiteSpace c) eqn:E.
  - rewrite IH. cbn [JS.hasNonWhite]. now rewrite E.
  - reflexivity.
Qed.

Lemma digits_hasNonWhite s :
  JS.replaceNonDigits s <> "" -> JS.hasNonWhite s = true.
Proof.
  induction s as [|c s IH]; [simpl; congruence|].
  cbn [JS.replaceNonDigits JS.hasNonWhite]. destruct (JS.isDigit c) eqn:E.
  - intros _. now rewrite (digit_not_white c E).
  - intros H. rewrite (IH H). apply orb_true_r.
Qed.







End Submit.






(** * Further properties of the code *)

(** ** The extractor and the scan analysis *)

Section ScannerMore.

Lemma replaceNonDigits_digits s :
  JS.allDigits s = true -> JS.replaceNonDigits s = s.
Proof.
  induction s as [|c s IH]; [reflexivity|].
  cbn [JS.allDigits JS.replaceNonDigits]. intros [Hc Hs]%andb_true_iff.
  rewrite Hc. f_equal. exact (IH Hs).
Qed.

Lemma chars_append s t : chars (s +:+ t) = chars s ++ chars t.
Proof. induction s as [|c s IH]; simpl; [reflexivity|]. now rewrite IH. Qed.

Lemma strlen_append s t : JS.strlen (s +:+ t) = JS.strlen s + JS.strlen t.
Proof. rewrite !strlen_chars, chars_append, length_app. lia. Qed.

Lemma chars_ofChars l : chars (String.string_of_list_ascii l) = l.
Proof. apply String.list_ascii_of_string_of_list_ascii. Qed.

Lemma strlen_nonneg s : 0 <= JS.strlen s.
Proof. unfold JS.strlen. lia. Qed.

Lemma strlen_zero s : JS.strlen s = 0 <-> s = "".
Proof.
  split; [|now intros ->]. destruct s; [reflexivity|].
  unfold JS.strlen. simpl. lia.
Qed.

Lemma extract_on_digits rawInput :
  Scanner.extractBarcodeIdentifier (JS.replaceNonDigits rawInput)
  = Scanner.extractBarcodeIdentifier rawInput.
Proof.
  unfold Scanner.extractBarcodeIdentifier.
  assert (H : JS.replaceNonDigits (JS.replaceNonDigits rawInput)
              = JS.replaceNonDigits rawInput).
  { apply replaceNonDigits_digits, allDigits_chars.
    rewrite chars_replaceNonDigits. apply filter_digits_Forall. }
  now rewrite H.
Qed.

End ScannerMore.

(** X1: extraction is idempotent, and it only looks at the digits: extracting
    from an extracted identifier, or from the digit-cleaned text, gives the
    same identifier as extracting from the raw text. *)
Theorem extract_idempotent (rawInput : string) :
  Scanner.extractBarcodeIdentifier (Scanner.extractBarcodeIdentifier rawInput)
  = Scanner.extractBarcodeIdentifier rawInput
  /\ Scanner.extractBarcodeIdentifier (JS.replaceNonDigits rawInput)
     = Scanner.extractBarcodeIdentifier rawInput.
Proof.
  split; [|apply extract_on_digits].
  destruct (extract_digits_length rawInput) as [Hdig Hlen].
  set (e := Scanner.extractBarcodeIdentifier rawInput) in *.
  unfold Scanner.extractBarcodeIdentifier at 1.
  rewrite (replaceNonDigits_digits e Hdig).
  destruct (Z.leb_spec 24 (JS.strlen e)); [lia|].
  destruct (Z.ltb_spec 14 (JS.strlen e)); [lia|]. reflexivity.
Qed.

(** X2: where the identifier sits in the digits of the scan.  With 24 digits
    or more it is the 14 digits that are followed by exactly 10 more to the
    end; with 15 to 23 digits it is the last 14; with 14 or fewer it is all
    of them. *)
Theorem extract_position (rawInput : string) :
  let digits := JS.replaceNonDigits rawInput in
  let ident := Scanner.extractBarcodeIdentifier rawInput in
  (24 <= JS.strlen digits ->
     JS.strlen ident = 14
     /\ exists before after,
          digits = before +:+ ident +:+ after /\ JS.strlen after = 10)
  /\ (14 < JS.strlen digits < 24 ->
        JS.strlen ident = 14 /\ exists before, digits = before +:+ ident)
  /\ (JS.strlen digits <= 14 -> ident = digits).
Proof.
  cbv zeta. set (digits := JS.replaceNonDigits rawInput).
  assert (Hc : chars (Scanner.extractBarcodeIdentifier rawInput)
               = if decide (24 <= length (chars digits))%nat
                 then take 14 (Scanner.lastn 24 (chars digits))
                 else if decide (14 < length (chars digits))%nat
                      then Scanner.lastn 14 (chars digits)
                      else chars digits).
  { rewrite extract_eq_reference, chars_reference. cbv zeta.
    unfold digits. now rewrite chars_replaceNonDigits. }
  rewrite !strlen_chars, Hc. set (cs := chars digits) in *.
  split; [|split].
  - intros H. rewrite decide_True by lia. rewrite lastn_drop.
    split; [rewrite length_take, length_drop; lia|].
    exists (String.string_of_list_ascii (take (length cs - 24) cs)),
           (String.string_of_list_ascii (drop 14 (drop (length cs - 24) cs))).
    split.
    + apply chars_inj. rewrite !chars_append, !chars_ofChars, Hc.
      rewrite decide_True by lia. rewrite lastn_drop.
      now rewrite take_drop, take_drop.
    + rewrite strlen_chars, chars_ofChars, !length_drop. lia.
  - intros H. rewrite decide_False, decide_True by lia. rewrite lastn_drop.
    split; [rewrite length_drop; lia|].
    exists (String.string_of_list_ascii (take (length cs - 14) cs)).
    apply chars_inj. rewrite chars_append, chars_ofChars, Hc.
    rewrite decide_False, decide_True by lia. rewrite lastn_drop.
    now rewrite take_drop.
  - intros H. apply chars_inj. rewrite Hc.
    now rewrite !decide_False by lia.
Qed.

Lemma extract_position_witness :
  (exists before after,
      JS.replaceNonDigits "12345000001234500001299988"
      = before +:+ "34500000123450" +:+ after /\ JS.strlen after = 10)
  /\ (exists before, "123456789012345678" = before +:+ "56789012345678")
  /\ Scanner.extractBarcodeIdentifier "12-34" = "1234".
Proof.
  destruct (extract_position "12345000001234500001299988") as (H24 & _ & _).
  destruct (extract_position "123456789012345678") as (_ & H15 & _).
  destruct (extract_position "12-34") as (_ & _ & Hshort).
  split; [|split].
  - destruct H24 as (_ & before & after & Heq & Hlen); [vm_compute; congruence|].
    exists before, after. split; [exact Heq | exact Hlen].
  - destruct H15 as (_ & before & Heq); [split; vm_compute; congruence|].
    exists before. exact Heq.
  - apply Hshort. vm_compute. congruence.
Defined.

Section AnalysisFacts.


End AnalysisFacts.

Section CodeUnitFacts.
Import CodeUnits.

(** Facts about [arrayFrom] are proved for a string and for the same string
    with one more unit in front, together. *)
Lemma arrayFrom_ind (P : list Z -> Prop) :
  P [] ->
  (forall u, P [u]) ->
  (forall u v rest,
      P rest -> P (v :: rest) -> P (u :: v :: rest)) ->
  forall s, P s.
Proof.
  intros Hnil Hone Htwo s.
  assert (H : P s /\ forall u, P (u :: s)); [|exact (proj1 H)].
  induction s as [|v rest [IH1 IH2]].
  - split; [exact Hnil | exact Hone].
  - split; [apply IH2|]. intros u. apply Htwo; [exact IH1 | apply IH2].
Qed.

Lemma arrayFrom_length (s : list Z) :
  (length (arrayFrom s) + length (List.filter isPair (arrayFrom s)) = length s)%nat.
Proof.
  induction s as [| u | u v rest IH1 IH2] using arrayFrom_ind;
    [reflexivity | reflexivity |].
  cbn [arrayFrom] in *.
  destruct (isHighSurrogate u && isLowSurrogate v).
  - cbn [length List.filter isPair second]. cbn [length]. lia.
  - cbn [length List.filter isPair second]. cbn [length] in *. lia.
Qed.

Lemma arrayFrom_plain (s : list Z) :
  Forall (fun u => isHighSurrogate u = false) s ->
  arrayFrom s = map (fun u => {| first := u; second := None |}) s.
Proof.
  induction s as [| u | u v rest IH1 IH2] using arrayFrom_ind;
    [reflexivity | reflexivity |].
  intros H. inversion H as [|? ? Hu Hrest]; subst.
  cbn [arrayFrom map] in *. rewrite Hu. cbn [andb].
  f_equal. apply IH2, Hrest.
Qed.

Lemma digitUnit_plain (u : Z) :
  isDigitUnit u = true ->
  isHighSurrogate u = false /\ (u <? 32) || (u =? 127) = false.
Proof.
  unfold isDigitUnit, isHighSurrogate.
  intros [H1 H2]%andb_true_iff. apply Z.leb_le in H1, H2. split.
  - apply andb_false_iff. left. apply Z.leb_gt. lia.
  - apply orb_false_iff. split; [apply Z.ltb_ge | apply Z.eqb_neq]; lia.
Qed.

Lemma charCode_plain (c : ascii) : isHighSurrogate (Scanner.charCode c) = false.
Proof.
  unfold isHighSurrogate, Scanner.charCode.
  pose proof (nat_ascii_bounded c). apply andb_false_iff. left.
  apply Z.leb_gt. lia.
Qed.

Lemma controls_imap {A} (code : A -> Z) (p : nat) (l : list A) (c : Z) (pos : Z) :
  In (c, pos)
     (List.filter (fun x => (fst x <? 32) || (fst x =? 127))
        (imap (fun i a => (code a, Z.of_nat (p + i))) l))
  <-> Z.of_nat p <= pos
      /\ map code l !! Z.to_nat (pos - Z.of_nat p) = Some c
      /\ (c < 32 \/ c = 127).
Proof.
  rewrite List.filter_In. cbn [fst].
  rewrite orb_true_iff, Z.ltb_lt, Z.eqb_eq.
  rewrite <- list_elem_of_In, elem_of_lookup_imap.
  change (map code l) with (code <$> l).
  split.
  - intros [(i & a & [= -> ->] & Hl) Hc]. split; [lia|]. split; [|exact Hc].
    replace (Z.to_nat (Z.of_nat (p + i) - Z.of_nat p)) with i by lia.
    now rewrite list_lookup_fmap, Hl.
  - intros (Hp & Hl & Hc). split; [|exact Hc].
    rewrite list_lookup_fmap in Hl.
    destruct (l !! Z.to_nat (pos - Z.of_nat p)) as [a|] eqn:Ha; [|discriminate].
    injection Hl as <-. exists (Z.to_nat (pos - Z.of_nat p)), a.
    split; [|exact Ha]. f_equal. lia.
Qed.

Lemma controlsFrom_imap (p : nat) (cs : list ascii) :
  Scanner.controlsFrom (Z.of_nat p) cs
  = List.filter (fun x => (fst x <? 32) || (fst x =? 127))
      (imap (fun i a => (Scanner.charCode a, Z.of_nat (p + i))) cs).
Proof.
  revert p. induction cs as [|c cs IH]; intros p; [reflexivity|].
  cbn [Scanner.controlsFrom imap List.filter fst].
  replace (Z.of_nat (p + 0)) with (Z.of_nat p) by lia.
  replace (Z.of_nat p + 1) with (Z.of_nat (S p)) by lia.
  rewrite IH.
  assert (He : imap (fun i a => (Scanner.charCode a, Z.of_nat (S p + i))) cs
               = imap ((fun i a => (Scanner.charCode a, Z.of_nat (p + i))) ∘ S) cs).
  { apply imap_ext. intros i a _. cbn. do 2 f_equal. lia. }
  rewrite He.
  destruct ((Scanner.charCode c <? 32) || (Scanner.charCode c =? 127));
    reflexivity.
Qed.

Lemma replaceNonDigits_units (s : string) :
  replaceNonDigits (units s) = units (JS.replaceNonDigits s).
Proof.
  unfold replaceNonDigits, units. induction s as [|c s IH]; [reflexivity|].
  cbn [String.list_ascii_of_string map List.filter JS.replaceNonDigits].
  change (isDigitUnit (Scanner.charCode c)) with (JS.isDigit c).
  destruct (JS.isDigit c); cbn [String.list_ascii_of_string map]; now rewrite IH.
Qed.

End CodeUnitFacts.

(** X3: what [analyzeRawBarcode] reports, for every JavaScript string.  The
    raw length counts code units, while [charCodes] has one entry per code
    point: it is shorter than the raw length by the number of surrogate pairs,
    and is the input itself when the input has no high surrogate.  The cleaned
    text is never longer than the raw text and holds no control character.
    The control-character list names exactly the positions in [charCodes]
    whose code is below 32 or is 127, each with that code.  On a string of
    characters below 256 the report is the one [Scanner.analyzeRawBarcode]
    computes. *)
Theorem analyzeRawBarcode_report (rawInput : list Z) :
  let a := CodeUnits.analyzeRawBarcode rawInput in
  CodeUnits.rawLength a = Z.of_nat (length rawInput)
  /\ Z.of_nat (length (CodeUnits.charCodes a))
     + Z.of_nat (length (List.filter CodeUnits.isPair
                                     (CodeUnits.arrayFrom rawInput)))
     = CodeUnits.rawLength a
  /\ (Forall (fun u => CodeUnits.isHighSurrogate u = false) rawInput ->
      CodeUnits.charCodes a = rawInput)
  /\ CodeUnits.cleanedLength a
     = Z.of_nat (length (CodeUnits.cleanedBarcode a))
  /\ CodeUnits.cleanedLength a <= CodeUnits.rawLength a
  /\ CodeUnits.controlChars
       (CodeUnits.analyzeRawBarcode (CodeUnits.cleanedBarcode a)) = []
  /\ (forall code pos,
        In (code, pos) (CodeUnits.controlChars a)
        <-> 0 <= pos
            /\ CodeUnits.charCodes a !! Z.to_nat pos = Some code
            /\ (code < 32 \/ code = 127))
  /\ (forall s : string,
        let b := CodeUnits.analyzeRawBarcode (CodeUnits.units s) in
        let n := Scanner.analyzeRawBarcode s in
        CodeUnits.rawLength b = Scanner.rawLength n
        /\ CodeUnits.cleanedBarcode b = CodeUnits.units (Scanner.cleanedBarcode n)
        /\ CodeUnits.cleanedLength b = Scanner.cleanedLength n
        /\ CodeUnits.charCodes b = Scanner.charCodes n
        /\ CodeUnits.controlChars b = Scanner.controlChars n).
Proof.
  cbv zeta. unfold CodeUnits.analyzeRawBarcode.
  cbn [CodeUnits.rawLength CodeUnits.cleanedBarcode CodeUnits.cleanedLength
       CodeUnits.charCodes CodeUnits.controlChars].
  split; [reflexivity|].
  split; [rewrite length_map; pose proof (arrayFrom_length rawInput); lia|].
  split.
  { intros Hplain. rewrite (arrayFrom_plain _ Hplain), map_map.
    apply map_id. }
  split; [reflexivity|].
  split.
  { pose proof (List.filter_length_le CodeUnits.isDigitUnit rawInput).
    unfold CodeUnits.replaceNonDigits. lia. }
  split.
  { match goal with |- ?l = [] => destruct l as [|[code pos] l'] eqn:Hl end;
      [reflexivity | exfalso].
    assert (Hin : In (code, pos) ((code, pos) :: l')) by now left.
    rewrite <- Hl in Hin.
    apply (controls_imap CodeUnits.charCodeAt0 0) in Hin as (_ & Hlook & Hctl).
    change (map CodeUnits.charCodeAt0 ?l) with (CodeUnits.charCodeAt0 <$> l)
      in Hlook.
    rewrite list_lookup_fmap in Hlook.
    destruct (_ !! _) as [c|] eqn:Hc in Hlook; [|discriminate].
    injection Hlook as <-.
    assert (Hdigits : Forall (fun u => CodeUnits.isDigitUnit u = true)
                        (CodeUnits.replaceNonDigits rawInput)).
    { apply List.Forall_forall. intros u Hu.
      now apply List.filter_In in Hu. }
    rewrite arrayFrom_plain in Hc.
    2:{ eapply List.Forall_impl; [|exact Hdigits].
        intros u Hu. now apply digitUnit_plain. }
    change (map ?f ?l) with (f <$> l) in Hc. rewrite list_lookup_fmap in Hc.
    destruct (_ !! _) as [u|] eqn:Hu in Hc; [|discriminate].
    injection Hc as <-. cbn [CodeUnits.charCodeAt0 CodeUnits.first] in Hctl.
    apply list_elem_of_lookup_2, list_elem_of_In in Hu.
    rewrite List.Forall_forall in Hdigits.
    destruct (digitUnit_plain u (Hdigits u Hu)) as [_ Hno].
    apply orb_false_iff in Hno as [H1 H2].
    apply Z.ltb_ge in H1. apply Z.eqb_neq in H2. lia. }
  split.
  { intros code pos.
    pose proof (controls_imap CodeUnits.charCodeAt0 0
                  (CodeUnits.arrayFrom rawInput) code pos) as H.
    change (Z.of_nat 0) with 0 in H. rewrite Z.sub_0_r in H. exact H. }
  intros s. cbv zeta. unfold CodeUnits.analyzeRawBarcode, Scanner.analyzeRawBarcode.
  cbn [CodeUnits.rawLength CodeUnits.cleanedBarcode CodeUnits.cleanedLength
       CodeUnits.charCodes CodeUnits.controlChars
       Scanner.rawLength Scanner.cleanedBarcode Scanner.cleanedLength
       Scanner.charCodes Scanner.controlChars].
  assert (Hplain : CodeUnits.arrayFrom (CodeUnits.units s)
                   = map (fun u => {| CodeUnits.first := u;
                                      CodeUnits.second := None |})
                         (CodeUnits.units s)).
  { apply arrayFrom_plain, List.Forall_forall. intros u Hu.
    apply List.in_map_iff in Hu as (c & <- & _). apply charCode_plain. }
  rewrite Hplain, replaceNonDigits_units.
  split; [unfold CodeUnits.units; now rewrite length_map, strlen_chars|].
  split; [reflexivity|].
  split; [unfold CodeUnits.units; now rewrite length_map, strlen_chars|].
  split; [rewrite map_map; apply map_id|].
  rewrite (controlsFrom_imap 0). unfold CodeUnits.units.
  change (map ?f ?l) with (f <$> l). rewrite <- list_fmap_compose, imap_fmap.
  reflexivity.
Qed.

(** The report on the four code units of ["1\u{1F600}2"]: raw length 4, but
    three character codes, the pair giving its high surrogate. *)
Example analyzeRawBarcode_surrogate_pair :
  let a := CodeUnits.analyzeRawBarcode [49; 55357; 56832; 50] in
  CodeUnits.rawLength a = 4
  /\ CodeUnits.charCodes a = [49; 55357; 50]
  /\ CodeUnits.cleanedBarcode a = [49; 50]
  /\ CodeUnits.controlChars (CodeUnits.analyzeRawBarcode [49; 10; 55357; 56832; 13])
     = [(10, 1); (13, 3)].
Proof. repeat split. Qed.

Section FormatFacts.

Lemma digits_trim_nonblank s :
  JS.replaceNonDigits s <> "" -> JS.truthy (JS.trim s) = true.
Proof.
  intros H. unfold JS.trim.
  rewrite truthy_trimEnd, hasNonWhite_trimStart. now apply digits_hasNonWhite.
Qed.

End FormatFacts.

(** X4: [validateBarcodeFormat] calls an input valid exactly when it holds at
    least one digit, complete exactly when it holds 24 digits or more, and
    gives no message exactly when it is complete. *)
Theorem validateBarcodeFormat_verdict (barcode : string) :
  let r := validateBarcodeFormat barcode in
  let n := JS.strlen (JS.replaceNonDigits barcode) in
  (formatValid r = true <-> 1 <= n)
  /\ (formatComplete r = Some true <-> 24 <= n)
  /\ (formatMessage r = None <-> 24 <= n)
  /\ (formatValid r = false <-> formatComplete r = None).
Proof.
  cbv zeta. unfold validateBarcodeFormat.
  set (cleaned := JS.replaceNonDigits barcode).
  pose proof (strlen_nonneg cleaned) as Hn.
  destruct (JS.truthy (JS.trim barcode)) eqn:Htrim; simpl.
  - destruct (Z.eqb_spec (JS.strlen cleaned) 0) as [H0|H0]; simpl.
    + rewrite H0. repeat split; try discriminate; try lia; auto.
    + destruct (Z.ltb_spec (JS.strlen cleaned) 14); simpl;
        [|destruct (Z.ltb_spec (JS.strlen cleaned) 24); simpl];
        repeat split; try discriminate; try lia; auto.
  - assert (H0 : JS.strlen cleaned = 0).
    { apply strlen_zero. destruct (String.string_dec cleaned "") as [E|E];
        [exact E|]. rewrite (digits_trim_nonblank barcode E) in Htrim.
      discriminate. }
    rewrite H0. repeat split; try discriminate; try lia; auto.
Qed.

(** ** The scanner delay setting *)

Section DelayFacts.

Lemma pretty_N_char_digit (d : N) :
  (d < 10)%N ->
  JS.isDigit (pretty_N_char d) = true
  /\ digitValue (pretty_N_char d) = Z.of_N d.
Proof.
  intros H.
  assert (d = 0 \/ d = 1 \/ d = 2 \/ d = 3 \/ d = 4 \/ d = 5 \/ d = 6
          \/ d = 7 \/ d = 8 \/ d = 9)%N as Hd by lia.
  repeat (destruct Hd as [-> | Hd]; [split; reflexivity|]).
  subst d. split; reflexivity.
Qed.

(** Reading back the digits that [pretty] writes in front of [s]. *)
Lemma parseDigits_pretty_N_go (x : N) (s : string) :
  (0 < x)%N ->
  parseDigits None (pretty_N_go x s) = parseDigits (Some (Z.of_N x)) s.
Proof.
  revert s. induction (N.lt_wf_0 x) as [x _ IH]. intros s Hx.
  rewrite pretty_N_go_step by exact Hx.
  destruct (pretty_N_char_digit (x `mod` 10)%N) as [Hd Hv];
    [apply N.mod_lt; discriminate|].
  pose proof (N.div_mod x 10%N ltac:(discriminate)) as Hdm.
  destruct (N.eq_dec (x `div` 10)%N 0%N) as [E|E].
  - rewrite E, pretty_N_go_0. cbn [parseDigits]. rewrite Hd, Hv. simpl.
    do 2 f_equal. rewrite E in Hdm. rewrite Hdm at 2. reflexivity.
  - rewrite IH; [|apply N.div_lt; [exact Hx | reflexivity]
                 |apply N.neq_0_lt_0; exact E].
    cbn [parseDigits]. rewrite Hd, Hv. simpl default.
    do 2 f_equal. rewrite Hdm at 3.
    now rewrite N2Z.inj_add, N2Z.inj_mul.
Qed.

Lemma pretty_N_go_head (x : N) (s : string) :
  (0 < x)%N ->
  exists c rest, pretty_N_go x s = String c rest /\ JS.isDigit c = true.
Proof.
  revert s. induction (N.lt_wf_0 x) as [x _ IH]. intros s Hx.
  rewrite pretty_N_go_step by exact Hx.
  destruct (N.eq_dec (x `div` 10)%N 0%N) as [E|E].
  - rewrite E, pretty_N_go_0. eexists _, _. split; [reflexivity|].
    apply pretty_N_char_digit, N.mod_lt. discriminate.
  - apply IH; [apply N.div_lt; [exact Hx | reflexivity]
              |apply N.neq_0_lt_0; exact E].
Qed.

Lemma digit_head_plain c rest :
  JS.isDigit c = true ->
  parseInt10 (String c rest) = parseDigits None (String c rest).
Proof.
  intros Hc. unfold parseInt10. cbn [JS.trimStart].
  rewrite (digit_not_white c Hc).
  destruct (Ascii.eqb_spec c "-") as [->|Hm]; [discriminate Hc|].
  destruct (Ascii.eqb_spec c "+") as [->|Hp]; [discriminate Hc|].
  destruct c as [[] [] [] [] [] [] [] []]; try reflexivity; congruence.
Qed.

Lemma parseInt10_pretty_pos (p : positive) :
  parseInt10 (pretty (N.pos p)) = Some (Z.pos p).
Proof.
  unfold pretty, pretty_N. rewrite decide_False by discriminate.
  destruct (pretty_N_go_head (N.pos p) "") as (c & rest & Heq & Hc); [lia|].
  rewrite Heq, (digit_head_plain c rest Hc), <- Heq.
  rewrite parseDigits_pretty_N_go by lia. reflexivity.
Qed.

(** [parseInt(n.toString(), 10)] is [n], for every integer. *)
Lemma parseInt10_pretty (n : Z) : parseInt10 (pretty n) = Some n.
Proof.
  destruct n as [|p|p].
  - reflexivity.
  - apply parseInt10_pretty_pos.
  - change (pretty (Z.neg p)) with ("-" +:+ pretty (N.pos p)).
    pose proof (parseInt10_pretty_pos p) as Hp.
    unfold pretty, pretty_N in *. rewrite decide_False in * by discriminate.
    destruct (pretty_N_go_head (N.pos p) "") as (c & rest & Heq & Hc); [lia|].
    rewrite Heq in *. rewrite (digit_head_plain c rest Hc) in Hp.
    change ("-" +:+ String c rest) with (String "-" (String c rest)).
    unfold parseInt10. cbn [JS.trimStart].
    change (JS.isWhiteSpace "-") with false. cbv iota.
    rewrite Hp. reflexivity.
Qed.

Lemma pretty_truthy (n : Z) : JS.truthy (pretty n) = true.
Proof.
  destruct n as [|p|p]; try reflexivity.
  unfold pretty, pretty_Z, pretty, pretty_positive, pretty, pretty_N.
  rewrite decide_False by discriminate.
  destruct (pretty_N_go_head (N.pos p) "") as (c & rest & -> & _); [lia|].
  reflexivity.
Qed.

End DelayFacts.

(** X5: the scanner delay setting round-trips on any storage that gives back
    what it was given.  For every delay that is a safe integer,
    [getScannerDelay] after a [setScannerDelay(delay)] that resolved returns
    that delay.  Whatever the storage does, [getScannerDelay] never throws: it
    returns the default 500 when the storage rejects, holds nothing or holds
    the empty text; and [setScannerDelay] throws on the storage's own error. *)
Theorem scannerDelay_roundtrip {D : Type} (storage : AsyncStorage D) :
  (forall key text d d',
      setItem storage key text d = Ok tt d' ->
      getItem storage key d' = Ok (Some text) d') ->
  (forall (delay : SafeInteger) d d',
      setScannerDelay storage delay d = Ok tt d' ->
      getScannerDelay storage d' = Ok (Exact (value delay)) d')
  /\ (forall d, exists r d', getScannerDelay storage d = Ok r d')
  /\ (forall d error,
        getItem storage "scanner_delay" d = Throw error ->
        getScannerDelay storage d = Ok (Exact 500) d)
  /\ (forall d d',
        getItem storage "scanner_delay" d = Ok None d'
        \/ getItem storage "scanner_delay" d = Ok (Some "") d' ->
        getScannerDelay storage d = Ok (Exact 500) d')
  /\ (forall delay d error,
        setItem storage "scanner_delay" (pretty (value delay)) d = Throw error ->
        setScannerDelay storage delay d = Throw error).
Proof.
  intros Hkeeps. split; [|split; [|split; [|split]]].
  - intros delay d d' Hset. unfold setScannerDelay in Hset.
    destruct (setItem storage "scanner_delay" (pretty (value delay)) d)
      as [[] d1|] eqn:Hitem; [|discriminate].
    injection Hset as <-. unfold getScannerDelay.
    rewrite (Hkeeps _ _ _ _ Hitem).
    change (default "" (Some (pretty (value delay)))) with (pretty (value delay)).
    cbn [JS.truthyOpt]. rewrite pretty_truthy, parseInt10_pretty.
    cbn [parsedNumber]. now rewrite (value_safe delay).
  - intros d. unfold getScannerDelay.
    destruct (getItem storage "scanner_delay" d); eexists _, _; reflexivity.
  - intros d error H. unfold getScannerDelay. now rewrite H.
  - intros d d' [H | H]; unfold getScannerDelay; now rewrite H.
  - intros delay d error H. unfold setScannerDelay. now rewrite H.
Qed.

Lemma scannerDelay_roundtrip_witness :
  getScannerDelay memoryStorage
    {| items := <["scanner_delay" := "700"]> ∅; rejecting := false |}
  = Ok (Exact 700)
       {| items := <["scanner_delay" := "700"]> ∅; rejecting := false |}.
Proof.
  assert (Hkeeps : forall key text d d',
             setItem memoryStorage key text d = Ok tt d' ->
             getItem memoryStorage key d' = Ok (Some text) d').
  { intros key text d d'. cbn [setItem getItem memoryStorage].
    destruct (rejecting d) eqn:Hr; [discriminate|].
    intros [= <-]. cbn [rejecting items]. now rewrite lookup_insert_eq. }
  destruct (scannerDelay_roundtrip memoryStorage Hkeeps) as [Hround _].
  exact (Hround {| value := 700; value_safe := eq_refl |}
                {| items := ∅; rejecting := false |} _ eq_refl).
Defined.

(** ** Today's sold-out packs *)

Section LedgerFacts.

Variable cal : Calendar.

Lemma insertBy_Permutation {A} (cmp : A -> A -> option Z) x l :
  insertBy cmp x l ≡ₚ x :: l.
Proof.
  induction l as [|y l IH]; simpl; [reflexivity|].
  destruct (_ <=? _); [reflexivity|].
  rewrite IH. apply Permutation_swap.
Qed.

Lemma sortBy_Permutation {A} (cmp : A -> A -> option Z) l : sortBy cmp l ≡ₚ l.
Proof.
  induction l as [|x l IH]; simpl; [reflexivity|].
  now rewrite insertBy_Permutation, IH.
Qed.

Lemma isToday_valid d : isToday cal d = true -> is_Some (parseDate cal d).
Proof. unfold isToday. destruct (parseDate cal d); [eauto | discriminate]. Qed.

Lemma soldNoEarlier_trans a b c :
  soldNoEarlier cal a b -> soldNoEarlier cal b c -> soldNoEarlier cal a c.
Proof.
  intros (ta & tb & Ha & Hb & Hab) (tb' & tc & Hb' & Hc & Hbc).
  exists ta, tc. repeat split; try assumption.
  rewrite Hb in Hb'. injection Hb' as <-. lia.
Qed.

Lemma insertBy_sorted x l :
  is_Some (parseDate cal (soldOutDate x)) ->
  Forall (fun p => is_Some (parseDate cal (soldOutDate p))) l ->
  StronglySorted (soldNoEarlier cal) l ->
  StronglySorted (soldNoEarlier cal) (insertBy (newestFirst cal) x l).
Proof.
  intros [tx Hx] Hvalid Hsorted.
  induction l as [|y l IH]; simpl; [repeat constructor|].
  apply Forall_cons in Hvalid as [[ty Hy] Hvalid].
  apply StronglySorted_inv in Hsorted as [Hsl Hyl].
  unfold newestFirst at 1. rewrite Hx, Hy. simpl.
  destruct (Z.leb_spec (ty - tx) 0).
  - assert (Hxy : soldNoEarlier cal x y)
      by (exists tx, ty; repeat split; [assumption..|lia]).
    constructor; [constructor; assumption|].
    constructor; [exact Hxy|].
    eapply List.Forall_impl; [|exact Hyl]. intros z. now apply soldNoEarlier_trans.
  - constructor; [now apply IH|].
    rewrite insertBy_Permutation. constructor; [|exact Hyl].
    exists ty, tx. repeat split; [assumption..|lia].
Qed.

Lemma sortBy_sorted l :
  Forall (fun p => is_Some (parseDate cal (soldOutDate p))) l ->
  StronglySorted (soldNoEarlier cal) (sortBy (newestFirst cal) l).
Proof.
  induction 1 as [|x l Hx Hl IH]; simpl; [constructor|].
  apply insertBy_sorted; [exact Hx | | exact IH].
  now rewrite sortBy_Permutation.
Qed.

End LedgerFacts.

(** X6: [getSoldOutPacksForToday] returns the sold-out records whose date
    falls on the current local day, each as often as the ledger holds it,
    ordered from the newest to the oldest, and leaves the store as it was. *)
Theorem getSoldOutPacksForToday_sorted (cal : Calendar) (st : InventoryState) :
  exists packs,
    getSoldOutPacksForToday cal st = Ok packs st
    /\ packs ≡ₚ List.filter (fun pack => isToday cal (soldOutDate pack))
                            (soldOutPacks st)
    /\ (forall pack, In pack packs
          <-> In pack (soldOutPacks st) /\ isToday cal (soldOutDate pack) = true)
    /\ StronglySorted (soldNoEarlier cal) packs.
Proof.
  eexists. split; [reflexivity|].
  split; [apply sortBy_Permutation|]. split.
  - intros pack.
    pose proof (List.filter_In (fun pack => isToday cal (soldOutDate pack))
                  pack (soldOutPacks st)) as Hf. simpl in Hf.
    rewrite <- Hf. split; intros H.
    + eapply Permutation_in; [apply sortBy_Permutation | exact H].
    + eapply Permutation_in; [symmetry; apply sortBy_Permutation | exact H].
  - apply sortBy_sorted, List.Forall_forall. intros p Hp.
    apply List.filter_In in Hp as [_ Hp]. now apply isToday_valid.
Qed.

(** ** Store operations: what they write, how they compose *)

Section OpFacts.

Lemma getGameInfo_default g :
  getGameInfo g
  = Some (default {| name := ""; gprice := ""; gtype := "" |} (getGameInfo g)).
Proof. destruct (getGameInfo_defined g) as [info ->]. reflexivity. Qed.

(** Every operation returns, and leaves [opResult] behind. *)
Lemma runOp_view clk op st : runOp clk op st = Ok tt (opResult clk op st).
Proof.
  unfold opResult. destruct op as [i bc | i | i | i]; simpl.
  - unfold updateSlot, setState, mapSlots. now rewrite app_nil_r.
  - unfold clearSlot, setState, mapSlots. now rewrite app_nil_r.
  - unfold markAsEmpty, setState, mapSlots. now rewrite app_nil_r.
  - unfold markAsSoldOut, bind, getState.
    destruct (findSlot i (slots st)) as [slot|]; [|reflexivity].
    destruct (gamepackNumber slot) as [g|]; [|reflexivity].
    destruct (JS.truthy g && negb (String.eqb g sentinelGamepack));
      [|reflexivity].
    simpl. unfold soldPack. rewrite (getGameInfo_default g) at 1. reflexivity.
Qed.

Lemma opSells_real op st g :
  opSells op st = Some g -> g <> "" /\ g <> sentinelGamepack.
Proof.
  destruct op as [i bc | i | i | i]; try discriminate. simpl.
  destruct (findSlot i (slots st)) as [slot|]; [|discriminate].
  destruct (gamepackNumber slot) as [g'|]; [|discriminate].
  destruct (JS.truthy g') eqn:Ht; simpl; [|discriminate].
  destruct (String.eqb_spec g' sentinelGamepack); simpl; [discriminate|].
  intros [= <-]. split; [|assumption]. intros ->. discriminate Ht.
Qed.

Lemma opActs_sells op st :
  opActs op st = false -> opSells op st = None.
Proof.
  destruct op; simpl; try discriminate.
  destruct (findSlot _ _) as [slot|]; [|reflexivity].
  destruct (gamepackNumber slot) as [g|]; [|reflexivity].
  destruct (_ && _); [|reflexivity].
  intros H. apply bool_decide_eq_false in H. exfalso. apply H. eauto.
Qed.

Lemma opWrite_id clk op s : id (opWrite clk op s) = id s.
Proof. destruct op; reflexivity. Qed.

Lemma opResult_ledger clk op st :
  soldOutPacks (opResult clk op st)
  = soldOutPacks st
    ++ match opSells op st with
       | Some g => [soldPack clk (opTarget op) g]
       | None => []
       end.
Proof.
  unfold opResult. destruct (opActs op st) eqn:E; [reflexivity|].
  rewrite (opActs_sells op st E). now rewrite app_nil_r.
Qed.

Lemma opResult_selected clk op st :
  selectedSlot (opResult clk op st) = selectedSlot st.
Proof. unfold opResult. now destruct (opActs op st). Qed.

Lemma runOps_app ops1 ops2 st st1 :
  runOps ops1 st = Ok tt st1 ->
  runOps (ops1 ++ ops2) st = runOps ops2 st1.
Proof.
  revert st. induction ops1 as [|[clk op] ops1 IH]; intros st; simpl.
  - now intros [= <-].
  - unfold bind. rewrite runOp_view. apply IH.
Qed.

End OpFacts.

(** X7: the sold-out ledger only grows.  Any sequence of store operations
    returns normally, keeps the selection, and leaves the old ledger as a
    prefix of the new one; what it adds is at most one record per operation,
    each for a real pack (gamepack neither empty nor the sentinel); and only
    [markAsSoldOut] adds anything, so a second [markAsSoldOut] of the same
    slot records the same pack once more. *)
Theorem ledger_append_only :
  (forall (ops : list (Clock * StoreOp)) (st : InventoryState),
      exists st' added,
        runOps ops st = Ok tt st'
        /\ selectedSlot st' = selectedSlot st
        /\ soldOutPacks st' = soldOutPacks st ++ added
        /\ (length added <= length ops)%nat
        /\ Forall realPack added)
  /\ (forall clk op st st',
        runOp clk op st = Ok tt st' ->
        soldOutPacks st' <> soldOutPacks st ->
        exists i, op = OpMarkAsSoldOut i)
  /\ (forall clk1 clk2 i st slot g,
        findSlot i (slots st) = Some slot ->
        gamepackNumber slot = Some g -> g <> "" -> g <> sentinelGamepack ->
        exists st',
          runOps [(clk1, OpMarkAsSoldOut i); (clk2, OpMarkAsSoldOut i)] st
          = Ok tt st'
          /\ soldOutPacks st'
             = soldOutPacks st ++ [soldPack clk1 i g; soldPack clk2 i g]).
Proof.
  split; [|split].
  - induction ops as [|[clk op] ops IH]; intros st.
    + exists st, []. rewrite app_nil_r. repeat split; constructor.
    + simpl. unfold bind. rewrite runOp_view.
      destruct (IH (opResult clk op st)) as (st' & added & Hrun & Hsel & Hled & Hlen & Hreal).
      exists st'. eexists. split; [exact Hrun|].
      rewrite Hsel, Hled, opResult_selected, opResult_ledger, <- app_assoc.
      split; [reflexivity|]. split; [reflexivity|].
      destruct (opSells op st) as [g|] eqn:Hg; simpl.
      * split; [lia|]. constructor; [|exact Hreal].
        apply (opSells_real op st g Hg).
      * split; [lia | exact Hreal].
  - intros clk op st st' Hrun Hne. rewrite runOp_view in Hrun.
    injection Hrun as <-. rewrite opResult_ledger in Hne.
    destruct op as [i bc | i | i | i]; simpl in Hne;
      try (rewrite app_nil_r in Hne; congruence).
    now exists i.
  - intros clk1 clk2 i st slot g Hfind Hg Hne Hsent. cbn [runOps]. unfold bind.
    rewrite !runOp_view. eexists. split; [reflexivity|].
    assert (Ht : JS.truthy g = true) by (destruct g; [congruence|reflexivity]).
    apply String.eqb_neq in Hsent.
    assert (Hs1 : opSells (OpMarkAsSoldOut i) st = Some g).
    { simpl. now rewrite Hfind, Hg, Ht, Hsent. }
    assert (Hs2 : opSells (OpMarkAsSoldOut i)
                    (opResult clk1 (OpMarkAsSoldOut i) st) = Some g).
    { unfold opResult, opActs. rewrite Hs1.
      rewrite bool_decide_eq_true_2 by eauto. simpl.
      rewrite (findSlot_map (fun s => if id s =? i then setSoldOut s else s))
        by (intros s; destruct (id s =? i); reflexivity).
      rewrite Hfind. simpl fmap.
      assert (Hi : (id slot =? i) = true)
        by (apply Z.eqb_eq; now apply findSlot_Some in Hfind).
      rewrite Hi. simpl. now rewrite Hg, Ht, Hsent. }
    rewrite !opResult_ledger, Hs1, Hs2, <- app_assoc. reflexivity.
Qed.

Lemma ledger_append_only_witness :
  (exists st' added,
      runOps [(exampleClock, OpMarkAsSoldOut 1); (exampleClock, OpClearSlot 1)]
             scannedStore = Ok tt st'
      /\ soldOutPacks st' = soldOutPacks scannedStore ++ added
      /\ (length added <= 2)%nat)
  /\ (exists st',
        runOps [(exampleClock, OpMarkAsSoldOut 1); (exampleClock, OpMarkAsSoldOut 1)]
               scannedStore = Ok tt st'
        /\ length (soldOutPacks st') = 2%nat)
  /\ exists i, OpMarkAsSoldOut 1 = OpMarkAsSoldOut i.
Proof.
  destruct ledger_append_only as (Hgrow & Honly & Htwice).
  split; [|split].
  - destruct (Hgrow [(exampleClock, OpMarkAsSoldOut 1); (exampleClock, OpClearSlot 1)]
                scannedStore) as (st' & added & Hrun & _ & Hled & Hlen & _).
    exists st', added. repeat split; assumption.
  - destruct (Htwice exampleClock exampleClock 1 scannedStore
                {| id := 1; status := scanned; barcode := Some "12345678901234";
                   timestamp := Some "2024-01-15T10:00:00.000Z";
                   gamepackNumber := Some "12345678901"; soldOut := false |}
                "12345678901" eq_refl eq_refl)
      as (st' & Hrun & Hled); [discriminate | discriminate |].
    exists st'. split; [exact Hrun|]. rewrite Hled. reflexivity.
  - apply (Honly exampleClock (OpMarkAsSoldOut 1) scannedStore
             (stateOf (markAsSoldOut exampleClock 1 scannedStore)));
      [reflexivity | vm_compute; discriminate].
Defined.

Section ShapeFacts.

Lemma findSlot_unique i l slot s :
  NoDup (map id l) -> findSlot i l = Some slot ->
  In s l -> id s = i -> s = slot.
Proof.
  unfold findSlot. induction l as [|x l IH]; simpl; [intros _ [=]|].
  intros Hnd Hfind Hin Hid. apply NoDup_cons in Hnd as [Hx Hnd].
  destruct (Z.eqb_spec (id x) i) as [Hxi|Hxi].
  - injection Hfind as <-. destruct Hin as [->|Hin]; [reflexivity|].
    exfalso. apply Hx. apply list_elem_of_In, List.in_map_iff.
    exists s. split; [congruence | exact Hin].
  - destruct Hin as [->|Hin]; [contradiction|]. now apply IH.
Qed.

Lemma reachable_NoDup st : reachable st -> NoDup (map id (slots st)).
Proof. intros H. rewrite (reachable_ids st H). apply NoDup_seqZ. Qed.

Lemma opWrite_shape clk op s :
  (forall i, op <> OpMarkAsSoldOut i) -> slotShape (opWrite clk op s).
Proof.
  intros Hop. destruct op as [i bc | i | i | i]; simpl.
  - right. right. split; [reflexivity|]. now eexists _, _.
  - left. repeat split.
  - right. left. repeat split. now eexists.
  - now destruct (Hop i).
Qed.

Lemma setSoldOut_shape s :
  is_Some (gamepackNumber s) -> slotShape s -> slotShape (setSoldOut s).
Proof.
  intros [g Hg] [(_ & _ & _ & Hn & _) | [H | H]].
  - congruence.
  - right. left. exact H.
  - right. right. exact H.
Qed.

Lemma opResult_shape clk op st :
  NoDup (map id (slots st)) ->
  Forall slotShape (slots st) -> Forall slotShape (slots (opResult clk op st)).
Proof.
  intros Hnd Hall. unfold opResult. destruct (opActs op st) eqn:Hact; [|exact Hall].
  simpl. rewrite List.Forall_forall in *. intros s' Hin.
  apply List.in_map_iff in Hin as (s & <- & Hin).
  destruct (Z.eqb_spec (id s) (opTarget op)) as [Hid|Hid]; [|now apply Hall].
  destruct op as [i bc | i | i | i];
    try (apply opWrite_shape; intros ?; discriminate).
  simpl in *. apply setSoldOut_shape; [|now apply Hall].
  apply bool_decide_eq_true in Hact as [g Hg].
  destruct (findSlot i (slots st)) as [slot|] eqn:Hfind; [|discriminate].
  rewrite (findSlot_unique i (slots st) slot s Hnd Hfind Hin Hid).
  destruct (gamepackNumber slot); [eauto | discriminate].
Qed.

Lemma reachable_shape st : reachable st -> Forall slotShape (slots st).
Proof.
  intros Hr. induction Hr as [st0 st Hinit | clk op st st' Hr IH Hrun].
  - injection Hinit as <-. simpl. apply List.Forall_forall. intros s Hin.
    apply List.in_map_iff in Hin as (i & <- & _). left. repeat split.
  - rewrite runOp_view in Hrun. injection Hrun as <-.
    apply opResult_shape; [now apply reachable_NoDup | exact IH].
Qed.

Lemma shape_status s :
  slotShape s ->
  status s <> pending
  /\ (status s = empty -> untouched s \/ markedEmpty s)
  /\ (status s = scanned -> holdsScan s).
Proof.
  intros [H | [H | H]]; pose proof H as H'; destruct H as (Hs & _);
    rewrite Hs; (split; [|split]); intros; try discriminate; auto.
Qed.

Lemma filter_status_count (l : list InventorySlot) :
  Forall (fun s => status s <> pending) l ->
  (length (scannedSlots l) + length (emptySlots l) = length l)%nat.
Proof.
  unfold scannedSlots, emptySlots.
  induction 1 as [|s l Hs _ IH]; simpl; [reflexivity|].
  destruct (status s); simpl; try lia. congruence.
Qed.

End ShapeFacts.

(** X8: in every store reachable from [initializeSlots] each slot has one of
    three shapes: untouched (Empty, every field null, not sold out), marked
    empty (Empty with the sentinel barcode and gamepack and a timestamp), or
    holding a scan (Scanned, with barcode, timestamp and the gamepack number
    cut from the barcode).  No operation ever produces the status Pending. *)
Theorem reachable_slot_shapes (st : InventoryState) :
  reachable st ->
  Forall slotShape (slots st)
  /\ Forall (fun s => status s <> pending) (slots st)
  /\ Forall (fun s => soldOut s = true -> barcode s <> None) (slots st).
Proof.
  intros Hr. pose proof (reachable_shape st Hr) as Hall.
  split; [exact Hall|]. split.
  - eapply List.Forall_impl; [|exact Hall]. intros s Hs.
    now apply shape_status.
  - eapply List.Forall_impl; [|exact Hall].
    intros s [(_ & _ & _ & _ & Hso) | [(_ & Hb & _) | (_ & bc & ts & Hb & _)]] H;
      congruence.
Qed.

Lemma reachable_slot_shapes_witness :
  Forall slotShape (slots scannedStore)
  /\ Forall (fun s => status s <> pending) (slots scannedStore).
Proof.
  assert (Hr : reachable scannedStore).
  { apply (reach_step exampleClock (OpUpdateSlot 1 "12345678901234") freshStore).
    - apply (reach_init emptyStore). reflexivity.
    - reflexivity. }
  destruct (reachable_slot_shapes scannedStore Hr) as (Hshape & Hpend & _).
  split; assumption.
Defined.

(** X9: on every reachable store the Review screen's two counts add up to the
    20 slots, and the slot navigator never takes its Pending branch: it picks
    the first untouched slot; if there is none, the first slot marked empty;
    and slot 1 if every slot holds a scan. *)
Theorem review_and_navigation_on_reachable (st : InventoryState) :
  reachable st ->
  (length (scannedSlots (slots st)) + length (emptySlots (slots st)) = 20)%nat
  /\ (forall s, firstWhere untouched (slots st) s ->
                findNextAvailableSlot (slots st) = id s)
  /\ (Forall (fun x => ~ untouched x) (slots st) ->
      forall s, firstWhere markedEmpty (slots st) s ->
                findNextAvailableSlot (slots st) = id s)
  /\ (Forall holdsScan (slots st) -> findNextAvailableSlot (slots st) = 1).
Proof.
  intros Hr. pose proof (reachable_shape st Hr) as Hall.
  assert (Hpend : Forall (fun s => status s <> pending) (slots st)).
  { eapply List.Forall_impl; [|exact Hall]. intros s Hs. now apply shape_status. }
  assert (Hlen : length (slots st) = 20%nat).
  { rewrite <- (length_map id), (reachable_ids st Hr). reflexivity. }
  assert (Hnop : List.find (fun slot => SlotStatus_eqb (status slot) pending)
                           (slots st) = None).
  { apply find_none_Forall. eapply List.Forall_impl; [|exact Hpend].
    intros s Hs. simpl in *. destruct (status s); simpl; congruence. }
  assert (Hunt : forall s, In s (slots st) -> isUntouched s <-> untouched s).
  { rewrite List.Forall_forall in Hall. intros s Hin. unfold isUntouched.
    destruct (Hall s Hin) as [H | [H | H]].
    - split; [intros _; exact H|]. destruct H as (? & ? & _). now split.
    - destruct H as (Hs & Hb & _).
      split; [intros (? & ?) | intros (? & ? & _)]; congruence.
    - destruct H as (Hs & _). split.
      + intros (_ & ?); congruence.
      + intros (? & _); congruence. }
  split; [rewrite <- Hlen; now apply filter_status_count|].
  unfold findNextAvailableSlot. rewrite Hnop.
  split; [|split].
  - intros s (k & Hk & Hs & Hfirst).
    rewrite (find_firstWhere _ (slots st) s); [reflexivity|].
    exists k. split; [exact Hk|].
    assert (Hin : In s (slots st))
      by (apply list_elem_of_In; eapply list_elem_of_lookup_2; exact Hk).
    split; [now apply untouched_eqb, Hunt|].
    intros j y Hj Hlt Hy. apply (Hfirst j y Hj Hlt).
    apply Hunt; [|now apply untouched_eqb].
    apply list_elem_of_In. eapply list_elem_of_lookup_2. exact Hj.
  - intros Hnone s (k & Hk & Hs & Hfirst).
    rewrite find_none_Forall.
    2:{ rewrite List.Forall_forall in *. intros x Hx.
        destruct (_ && _) eqn:E; [|reflexivity].
        exfalso. apply (Hnone x Hx). now apply Hunt, untouched_eqb. }
    rewrite (find_firstWhere _ (slots st) s); [reflexivity|].
    exists k. split; [exact Hk|]. split.
    + destruct Hs as (Hs & _). now rewrite Hs.
    + intros j y Hj Hlt Hy. apply (Hfirst j y Hj Hlt).
      assert (Hin : In y (slots st))
        by (apply list_elem_of_In; eapply list_elem_of_lookup_2; exact Hj).
      rewrite List.Forall_forall in Hall, Hnone.
      destruct (Hall y Hin) as [H | [H | H]]; [now destruct (Hnone y Hin) | exact H|].
      destruct H as (Hsc & _). rewrite Hsc in Hy. discriminate.
  - intros Hscan.
    rewrite !find_none_Forall; [reflexivity | |];
      (eapply List.Forall_impl; [|exact Hscan]); intros x (Hx & _);
      rewrite Hx; simpl; [reflexivity | apply andb_false_r].
Qed.

Lemma review_and_navigation_on_reachable_witness :
  (length (scannedSlots (slots scannedStore))
   + length (emptySlots (slots scannedStore)) = 20)%nat
  /\ findNextAvailableSlot (slots scannedStore) = 2.
Proof.
  assert (Hr : reachable scannedStore).
  { apply (reach_step exampleClock (OpUpdateSlot 1 "12345678901234") freshStore).
    - apply (reach_init emptyStore). reflexivity.
    - reflexivity. }
  destruct (review_and_navigation_on_reachable scannedStore Hr)
    as (Hcount & Hfirst & _).
  split; [exact Hcount|].
  apply (Hfirst {| id := 2; status := empty; barcode := None; timestamp := None;
                   gamepackNumber := None; soldOut := false |}).
  exists 1%nat. split; [reflexivity|]. split; [repeat split|].
  intros j y Hj Hlt. destruct j as [|j]; [|lia].
  injection Hj as <-. intros (Hs & _). discriminate Hs.
Defined.

Section ComposeFacts.

Lemma findSlot_opResult clk op st i slot :
  findSlot i (slots st) = Some slot ->
  findSlot i (slots (opResult clk op st))
  = Some (if opActs op st && (i =? opTarget op) then opWrite clk op slot else slot).
Proof.
  intros Hfind. unfold opResult. destruct (opActs op st); [|exact Hfind].
  simpl slots.
  rewrite (findSlot_map (fun s => if id s =? opTarget op then opWrite clk op s else s))
    by (intros s; destruct (id s =? opTarget op); [apply opWrite_id | reflexivity]).
  rewrite Hfind. simpl. apply findSlot_Some in Hfind as [_ ->]. reflexivity.
Qed.

Lemma findSlot_opResult_None clk op st i :
  findSlot i (slots st) = None ->
  findSlot i (slots (opResult clk op st)) = None.
Proof.
  intros Hfind. unfold opResult. destruct (opActs op st); [|exact Hfind].
  simpl slots.
  rewrite (findSlot_map (fun s => if id s =? opTarget op then opWrite clk op s else s))
    by (intros s; destruct (id s =? opTarget op); [apply opWrite_id | reflexivity]).
  now rewrite Hfind.
Qed.

Lemma opSells_other clk op1 op2 st :
  opTarget op1 <> opTarget op2 ->
  opSells op2 (opResult clk op1 st) = opSells op2 st.
Proof.
  intros Hne. destruct op2 as [j bc | j | j | j]; try reflexivity. simpl in *.
  destruct (findSlot j (slots st)) as [slot|] eqn:Hfind.
  - rewrite (findSlot_opResult clk op1 st j slot Hfind).
    destruct (Z.eqb_spec j (opTarget op1)); [congruence|].
    now rewrite andb_false_r.
  - now rewrite findSlot_opResult_None.
Qed.

Lemma opActs_other clk op1 op2 st :
  opTarget op1 <> opTarget op2 ->
  opActs op2 (opResult clk op1 st) = opActs op2 st.
Proof.
  intros Hne. destruct op2; try reflexivity.
  unfold opActs. now rewrite opSells_other.
Qed.

(** The slots after an operation, acting or not. *)
Lemma opResult_slots clk op st :
  slots (opResult clk op st)
  = map (fun s => if opActs op st && (id s =? opTarget op)
                  then opWrite clk op s else s) (slots st).
Proof.
  unfold opResult. destruct (opActs op st); simpl; [reflexivity|].
  now rewrite map_id.
Qed.

End ComposeFacts.

(** X10: writing a slot and reading it back.  Where a slot with id [i] exists,
    after [updateSlot(i, bc)] the slot found under [i] is Scanned with barcode
    [bc], the current time, not sold out, and [getPreviousGamepack(i)] is the
    first 11 characters of a barcode of 14 or more, unless these are the
    sentinel; after [clearSlot(i)] or [markAsEmpty(i)] it is null; and
    [markAsSoldOut(i)] leaves it as it was. *)
Theorem write_then_read_slot (clk : Clock) (i : Z) (st : InventoryState)
    (slot : InventorySlot) :
  findSlot i (slots st) = Some slot ->
  (forall bc,
      14 <= JS.strlen bc ->
      exists st',
        updateSlot clk i bc st = Ok tt st'
        /\ findSlot i (slots st')
           = Some {| id := i; status := scanned; barcode := Some bc;
                     timestamp := Some (nowISO clk);
                     gamepackNumber := Some (JS.substring 0 11 bc);
                     soldOut := false |}
        /\ getPreviousGamepack i st'
           = Ok (if String.eqb (JS.substring 0 11 bc) sentinelGamepack
                 then None else Some (JS.substring 0 11 bc)) st')
  /\ (exists st', clearSlot i st = Ok tt st'
                  /\ getPreviousGamepack i st' = Ok None st')
  /\ (exists st', markAsEmpty clk i st = Ok tt st'
                  /\ getPreviousGamepack i st' = Ok None st')
  /\ (exists st' prev,
        markAsSoldOut clk i st = Ok tt st'
        /\ getPreviousGamepack i st = Ok prev st
        /\ getPreviousGamepack i st' = Ok prev st').
Proof.
  intros Hfind. pose proof (findSlot_Some _ _ _ Hfind) as [_ Hid].
  split; [|split; [|split]].
  - intros bc Hlen.
    pose proof (runOp_view clk (OpUpdateSlot i bc) st) as Hrun.
    cbn [runOp] in Hrun.
    exists (opResult clk (OpUpdateSlot i bc) st). split; [exact Hrun|].
    pose proof (findSlot_opResult clk (OpUpdateSlot i bc) st i slot Hfind) as Hf.
    cbn [opActs opTarget opWrite andb] in Hf. rewrite Z.eqb_refl in Hf.
    assert (Hle : (11 <=? JS.strlen bc) = true) by (apply Z.leb_le; lia).
    rewrite Hle, Hid in Hf. split; [exact Hf|].
    unfold getPreviousGamepack, bind, getState. rewrite Hf. simpl.
    assert (Hbc : JS.truthy bc = true).
    { destruct bc; [unfold JS.strlen in Hlen; simpl in Hlen; lia | reflexivity]. }
    rewrite Hbc. simpl.
    destruct (String.eqb _ sentinelGamepack); [reflexivity|].
    pose proof (gamepack_nonempty bc Hlen) as Hne.
    destruct (JS.substring 0 11 bc); [congruence | reflexivity].
  - pose proof (runOp_view clk (OpClearSlot i) st) as Hrun. cbn [runOp] in Hrun.
    exists (opResult clk (OpClearSlot i) st). split; [exact Hrun|].
    unfold getPreviousGamepack, bind, getState.
    rewrite (findSlot_opResult clk (OpClearSlot i) st i slot Hfind).
    cbn [opActs opTarget opWrite andb]. now rewrite Z.eqb_refl.
  - pose proof (runOp_view clk (OpMarkAsEmpty i) st) as Hrun. cbn [runOp] in Hrun.
    exists (opResult clk (OpMarkAsEmpty i) st). split; [exact Hrun|].
    unfold getPreviousGamepack, bind, getState.
    rewrite (findSlot_opResult clk (OpMarkAsEmpty i) st i slot Hfind).
    cbn [opActs opTarget opWrite andb]. now rewrite Z.eqb_refl.
  - pose proof (runOp_view clk (OpMarkAsSoldOut i) st) as Hrun.
    cbn [runOp] in Hrun.
    destruct (getPreviousGamepack_readonly i st) as [prev Hprev].
    exists (opResult clk (OpMarkAsSoldOut i) st), prev.
    split; [exact Hrun|]. split; [exact Hprev|].
    revert Hprev. unfold getPreviousGamepack, bind, getState.
    rewrite (findSlot_opResult clk (OpMarkAsSoldOut i) st i slot Hfind), Hfind.
    destruct (opActs (OpMarkAsSoldOut i) st && (i =? opTarget (OpMarkAsSoldOut i)));
      simpl; destruct (_ || _); intros [= <-]; reflexivity.
Qed.

Lemma write_then_read_slot_witness :
  getPreviousGamepack 3 (stateOf (updateSlot exampleClock 3 "23456000001234" freshStore))
  = Ok (Some "23456000001")
       (stateOf (updateSlot exampleClock 3 "23456000001234" freshStore))
  /\ getPreviousGamepack 1 (stateOf (clearSlot 1 scannedStore))
     = Ok None (stateOf (clearSlot 1 scannedStore)).
Proof.
  split.
  - destruct (write_then_read_slot exampleClock 3 freshStore
                {| id := 3; status := empty; barcode := None; timestamp := None;
                   gamepackNumber := None; soldOut := false |} eq_refl)
      as (Hupd & _).
    destruct (Hupd "23456000001234") as (st' & Hrun & _ & Hprev);
      [vm_compute; congruence|].
    rewrite Hrun. exact Hprev.
  - destruct (write_then_read_slot exampleClock 1 scannedStore
                {| id := 1; status := scanned; barcode := Some "12345678901234";
                   timestamp := Some "2024-01-15T10:00:00.000Z";
                   gamepackNumber := Some "12345678901"; soldOut := false |}
                eq_refl)
      as (_ & (st' & Hrun & Hprev) & _).
    rewrite Hrun. exact Hprev.
Defined.

(** X11: operations on different slots do not interfere.  Run in either
    order they leave the same slots and the same selection and record the
    same sold-out packs; the whole stores are equal unless both operations
    record a sold-out pack, in which case only the order of the two new
    records differs. *)
Theorem ops_on_different_slots_commute
    (c1 c2 : Clock) (op1 op2 : StoreOp) (st : InventoryState) :
  opTarget op1 <> opTarget op2 ->
  exists st12 st21,
    runOps [(c1, op1); (c2, op2)] st = Ok tt st12
    /\ runOps [(c2, op2); (c1, op1)] st = Ok tt st21
    /\ slots st12 = slots st21
    /\ selectedSlot st12 = selectedSlot st21
    /\ soldOutPacks st12 ≡ₚ soldOutPacks st21
    /\ (opSells op1 st = None \/ opSells op2 st = None -> st12 = st21).
Proof.
  intros Hne. cbn [runOps]. unfold bind. rewrite !runOp_view.
  eexists _, _. split; [reflexivity|]. split; [reflexivity|].
  assert (Hslots : slots (opResult c2 op2 (opResult c1 op1 st))
                   = slots (opResult c1 op1 (opResult c2 op2 st))).
  { rewrite !opResult_slots, !map_map.
    rewrite (opActs_other c1 op1 op2 st Hne).
    rewrite (opActs_other c2 op2 op1 st) by congruence.
    apply map_ext. intros s.
    destruct (opActs op1 st), (opActs op2 st); simpl; try reflexivity;
      destruct (id s =? opTarget op1) eqn:E1, (id s =? opTarget op2) eqn:E2;
      simpl; rewrite ?opWrite_id, ?E1, ?E2; simpl; try reflexivity;
      apply Z.eqb_eq in E1, E2; congruence. }
  assert (Hsel : selectedSlot (opResult c2 op2 (opResult c1 op1 st))
                 = selectedSlot (opResult c1 op1 (opResult c2 op2 st)))
    by now rewrite !opResult_selected.
  assert (Hled : forall a b : list SoldOutPack,
             a = match opSells op1 st with
                 | Some g => [soldPack c1 (opTarget op1) g] | None => [] end ->
             b = match opSells op2 st with
                 | Some g => [soldPack c2 (opTarget op2) g] | None => [] end ->
             soldOutPacks (opResult c2 op2 (opResult c1 op1 st))
             = (soldOutPacks st ++ a) ++ b
             /\ soldOutPacks (opResult c1 op1 (opResult c2 op2 st))
                = (soldOutPacks st ++ b) ++ a).
  { intros a b -> ->. rewrite !opResult_ledger.
    rewrite (opSells_other c1 op1 op2 st Hne).
    rewrite (opSells_other c2 op2 op1 st) by congruence. now split. }
  destruct (Hled _ _ eq_refl eq_refl) as [H12 H21].
  split; [exact Hslots|]. split; [exact Hsel|]. split.
  - rewrite H12, H21, <- !app_assoc. apply Permutation_app_head, Permutation_app_comm.
  - intros Hnone.
    assert (Hl : soldOutPacks (opResult c2 op2 (opResult c1 op1 st))
                 = soldOutPacks (opResult c1 op1 (opResult c2 op2 st))).
    { rewrite H12, H21. destruct Hnone as [-> | ->];
        now rewrite ?app_nil_r. }
    destruct (opResult c2 op2 (opResult c1 op1 st)),
             (opResult c1 op1 (opResult c2 op2 st)).
    simpl in *. congruence.
Qed.

Lemma ops_on_different_slots_commute_witness :
  stateOf (runOps [(exampleClock, OpMarkAsSoldOut 1);
                   (exampleClock, OpUpdateSlot 2 "23456000001234")] scannedStore)
  = stateOf (runOps [(exampleClock, OpUpdateSlot 2 "23456000001234");
                     (exampleClock, OpMarkAsSoldOut 1)] scannedStore).
Proof.
  destruct (ops_on_different_slots_commute exampleClock exampleClock
              (OpMarkAsSoldOut 1) (OpUpdateSlot 2 "23456000001234") scannedStore)
    as (st12 & st21 & H12 & H21 & _ & _ & _ & Heq); [simpl; lia|].
  rewrite H12, H21. simpl. apply Heq. right. reflexivity.
Defined.

(** X12: [clearSlot] overrides and undoes.  After any operation on slot [i],
    [clearSlot(i)] leaves the slots that [clearSlot(i)] alone would leave;
    and when every slot with id [i] was untouched, an operation on [i]
    followed by [clearSlot(i)] gives back the whole store as it was.
    [clearSlot] is idempotent. *)
Theorem clearSlot_overrides (clk : Clock) (op : StoreOp) (st : InventoryState) :
  (exists st1 st2 st3,
      runOps [(clk, op); (clk, OpClearSlot (opTarget op))] st = Ok tt st1
      /\ clearSlot (opTarget op) st = Ok tt st2
      /\ slots st1 = slots st2
      /\ clearSlot (opTarget op) st2 = Ok tt st3 /\ st3 = st2)
  /\ (Forall (fun s => id s = opTarget op -> untouched s) (slots st) ->
      runOps [(clk, op); (clk, OpClearSlot (opTarget op))] st = Ok tt st).
Proof.
  set (i := opTarget op).
  assert (Hclear : forall st0, clearSlot i st0
                   = Ok tt (opResult clk (OpClearSlot i) st0))
    by (intros st0; apply (runOp_view clk (OpClearSlot i) st0)).
  assert (Hslots : slots (opResult clk (OpClearSlot i) (opResult clk op st))
                   = slots (opResult clk (OpClearSlot i) st)).
  { rewrite !opResult_slots, map_map. apply map_ext. intros s. fold i.
    cbn [opActs opTarget andb opWrite].
    destruct (opActs op st); simpl; [|reflexivity].
    destruct (id s =? i) eqn:E; [|now rewrite E].
    now rewrite opWrite_id, E. }
  split.
  - cbn [runOps]. unfold bind. rewrite runOp_view.
    change (runOp clk (OpClearSlot i)) with (clearSlot i).
    rewrite !Hclear. eexists _, _, _. split; [reflexivity|].
    split; [reflexivity|]. split; [exact Hslots|]. split; [reflexivity|].
    unfold opResult. cbn [opActs opTarget opSells opWrite slots selectedSlot soldOutPacks].
    unfold mapSlots. cbn [slots selectedSlot soldOutPacks].
    rewrite map_map. f_equal. apply map_ext. intros s.
    destruct (id s =? i) eqn:E; simpl; now rewrite E.
  - intros Hunt. cbn [runOps]. unfold bind. rewrite runOp_view.
    change (runOp clk (OpClearSlot i)) with (clearSlot i). rewrite Hclear.
    simpl. f_equal.
    assert (Hsame : slots (opResult clk (OpClearSlot i) st) = slots st).
    { rewrite opResult_slots. rewrite <- (map_id (slots st)) at 2.
      apply map_ext_in. intros s Hin. cbn [opActs opTarget andb opWrite].
      destruct (Z.eqb_spec (id s) i) as [Hid|]; [|reflexivity].
      rewrite List.Forall_forall in Hunt.
      destruct (Hunt s Hin Hid) as (H1 & H2 & H3 & H4 & H5).
      destruct s. simpl in *. congruence. }
    assert (Hnosale : opSells op st = None).
    { destruct op as [j bc | j | j | j]; try reflexivity. simpl in *.
      destruct (findSlot j (slots st)) as [slot|] eqn:Hfind; [|reflexivity].
      apply findSlot_Some in Hfind as [Hin Hid].
      rewrite List.Forall_forall in Hunt.
      destruct (Hunt slot Hin Hid) as (_ & _ & _ & -> & _). reflexivity. }
    destruct st as [sl sel led].
    assert (Hfields :
      slots (opResult clk (OpClearSlot i)
               (opResult clk op {| slots := sl; selectedSlot := sel; soldOutPacks := led |}))
      = sl
      /\ selectedSlot (opResult clk (OpClearSlot i)
               (opResult clk op {| slots := sl; selectedSlot := sel; soldOutPacks := led |}))
         = sel
      /\ soldOutPacks (opResult clk (OpClearSlot i)
               (opResult clk op {| slots := sl; selectedSlot := sel; soldOutPacks := led |}))
         = led).
    { rewrite Hslots, Hsame, !opResult_selected, !opResult_ledger, Hnosale.
      simpl. now rewrite !app_nil_r. }
    destruct (opResult clk (OpClearSlot i) _). simpl in Hfields.
    destruct Hfields as (-> & -> & ->). reflexivity.
Qed.

Lemma clearSlot_overrides_witness :
  runOps [(exampleClock, OpUpdateSlot 2 "23456000001234");
          (exampleClock, OpClearSlot 2)] scannedStore = Ok tt scannedStore.
Proof.
  destruct (clearSlot_overrides exampleClock (OpUpdateSlot 2 "23456000001234")
              scannedStore) as [_ Hundo].
  apply Hundo. simpl.
  repeat (constructor; [intros Hid; try discriminate Hid; repeat split|]).
  constructor.
Defined.

(** ** More on the validator *)

Section ValidatorMore.

Variable clk : Clock.

Lemma getPreviousGamepack_real i st p :
  getPreviousGamepack i st = Ok (Some p) st ->
  p <> "" /\ p <> sentinelGamepack
  /\ exists slot, findSlot i (slots st) = Some slot
                  /\ gamepackNumber slot = Some p
                  /\ JS.truthyOpt (barcode slot) = true.
Proof.
  unfold getPreviousGamepack, bind, getState.
  destruct (findSlot i (slots st)) as [slot|] eqn:Hfind; [|discriminate].
  destruct (JS.truthyOpt (barcode slot)) eqn:Hb; simpl; [|discriminate].
  destruct (gamepackNumber slot) as [g|] eqn:Hg; simpl; [|discriminate].
  destruct (String.eqb_spec g sentinelGamepack); [discriminate|].
  destruct g as [|c g]; simpl; [discriminate|]. intros [= <-].
  split; [discriminate|]. split; [assumption|]. now exists slot.
Qed.

Lemma validateBarcode_format_reject bc i st :
  JS.strlen bc < 14 \/ JS.allDigits bc = false ->
  exists msg, validateBarcode clk bc i st = Ok (Reject msg) st.
Proof.
  intros H. unfold validateBarcode.
  destruct (JS.truthy (JS.trim bc)); simpl; [|now eexists].
  destruct (Z.ltb_spec (JS.strlen bc) 14); [now eexists|].
  destruct H as [H|H]; [lia|].
  assert (Ht : JS.testDigitsOnly bc = false) by (destruct bc; [reflexivity|exact H]).
  rewrite Ht. now eexists.
Qed.

End ValidatorMore.

(** X13: what a verdict of the validator guarantees.  When it accepts, the
    barcode has 14 characters or more, all digits, the store is unchanged, and
    either the gamepack is the sentinel, or no slot at all holds the gamepack
    actively today and the target slot's previous gamepack is absent or the
    same.  When it asks for confirmation, the gamepack it names is the one the
    target slot holds, a real one, different from the scanned one. *)
Theorem validateBarcode_verdict_sound
    (clk : Clock) (bc : string) (i : Z) (st st' : InventoryState)
    (r : ValidationResult) :
  validateBarcode clk bc i st = Ok r st' ->
  st' = st
  /\ (isValid r = true ->
        14 <= JS.strlen bc /\ JS.allDigits bc = true
        /\ (JS.substring 0 11 bc = sentinelGamepack
            \/ existsb (activeToday clk (JS.substring 0 11 bc)) (slots st) = false
               /\ (getPreviousGamepack i st = Ok None st
                   \/ getPreviousGamepack i st = Ok (Some (JS.substring 0 11 bc)) st)))
  /\ (requiresConfirmation r = Some true ->
        isValid r = false
        /\ exists slot p,
             previousGamepack r = Some p
             /\ findSlot i (slots st) = Some slot
             /\ gamepackNumber slot = Some p
             /\ p <> "" /\ p <> sentinelGamepack /\ p <> JS.substring 0 11 bc).
Proof.
  intros Hrun.
  destruct (validateBarcode_readonly clk bc i st) as [r0 Hr0].
  assert (st' = st /\ r0 = r) as [-> ->] by (rewrite Hrun in Hr0; now injection Hr0).
  clear Hr0. split; [reflexivity|].
  destruct (Z.ltb_spec (JS.strlen bc) 14) as [Hshort|Hlen].
  { destruct (validateBarcode_format_reject clk bc i st (or_introl Hshort))
      as [msg Hmsg]. rewrite Hmsg in Hrun. injection Hrun as <-.
    split; discriminate. }
  destruct (JS.allDigits bc) eqn:Hdig.
  2:{ destruct (validateBarcode_format_reject clk bc i st (or_intror Hdig))
        as [msg Hmsg]. rewrite Hmsg in Hrun. injection Hrun as <-.
      split; discriminate. }
  destruct (String.eqb_spec (JS.substring 0 11 bc) sentinelGamepack) as [Hs|Hs].
  { assert (Hacc : validateBarcode clk bc i st = Ok Accept st).
    { unfold validateBarcode.
      rewrite (format_trim bc Hlen Hdig), (format_test bc Hlen Hdig). simpl.
      destruct (Z.ltb_spec (JS.strlen bc) 14); [lia|].
      rewrite Hs. reflexivity. }
    rewrite Hacc in Hrun. injection Hrun as <-.
    split; [intros _; repeat split; [lia | now left] | discriminate]. }
  rewrite validateBarcode_checked in Hrun by assumption. cbv zeta in Hrun.
  unfold bind at 1 in Hrun.
  destruct (getPreviousGamepack_readonly i st) as [prev Hprev].
  rewrite Hprev in Hrun.
  assert (Huniq : forall r1,
    (let* isUnique := checkGamepackUniqueness clk (JS.substring 0 11 bc) in
     if negb isUnique
     then ret (Reject (duplicateMessage (JS.substring 0 11 bc)))
     else ret Accept) st = Ok r1 st ->
    (isValid r1 = true ->
       existsb (activeToday clk (JS.substring 0 11 bc)) (slots st) = false)
    /\ requiresConfirmation r1 = None).
  { intros r1. unfold bind, checkGamepackUniqueness.
    rewrite (proj2 (String.eqb_neq _ _) Hs). unfold bind, getState, ret.
    destruct (existsb _ _); simpl; intros [= <-]; split;
      try reflexivity; discriminate. }
  destruct prev as [p|].
  - destruct (getPreviousGamepack_real i st p Hprev)
      as (Hne & Hsent & slot & Hfind & Hg & _).
    assert (Htp : JS.truthy p = true) by (destruct p; [congruence|reflexivity]).
    rewrite Htp, (proj2 (String.eqb_neq _ _) Hsent) in Hrun. simpl in Hrun.
    destruct (String.eqb_spec p (JS.substring 0 11 bc)) as [Heq|Hdiff];
      simpl in Hrun.
    + destruct (Huniq r Hrun) as [Hv Hc]. rewrite Heq in Hprev. split.
      * intros Hval. repeat split; [lia|]. right. split; [now apply Hv | now right].
      * rewrite Hc. discriminate.
    + injection Hrun as <-. split; [discriminate|]. intros _.
      split; [reflexivity|]. exists slot, p. repeat split; assumption.
  - destruct (Huniq r Hrun) as [Hv Hc]. split.
    + intros Hval. repeat split; [lia|]. right. split; [now apply Hv | now left].
    + rewrite Hc. discriminate.
Qed.

Lemma validateBarcode_verdict_sound_witness :
  existsb (activeToday exampleClock "23456000001") (slots scannedStore) = false
  /\ exists slot p,
       findSlot 1 (slots scannedStore) = Some slot
       /\ gamepackNumber slot = Some p /\ p <> "23456000001".
Proof.
  split.
  - destruct (validateBarcode_verdict_sound exampleClock "23456000001234" 2
                scannedStore scannedStore Accept eq_refl)
      as (_ & Hacc & _).
    destruct (Hacc eq_refl) as (_ & _ & [Hs | [Hnone _]]);
      [discriminate Hs | exact Hnone].
  - destruct (validateBarcode_verdict_sound exampleClock "23456000001234" 1
                scannedStore scannedStore
                (RequiresConfirmation "12345678901"
                   (confirmationMessage "12345678901" 1)) eq_refl)
      as (_ & _ & Hconf).
    destruct (Hconf eq_refl) as (_ & slot & p & _ & Hfind & Hg & _ & _ & Hdiff).
    exists slot, p. repeat split; assumption.
Defined.

(** X14: a stored scan protects its pack for the day.  With a clock whose
    current instant falls on its current day, once [updateSlot(i, bc)] has
    written a valid, non-sentinel barcode into an existing slot, the
    validator no longer accepts that barcode for any slot; for the same slot
    it rejects it as a duplicate. *)
Theorem stored_scan_blocks_rescan
    (clk : Clock) (st : InventoryState) (i j : Z) (bc : string)
    (slot : InventorySlot) :
  coherent clk ->
  14 <= JS.strlen bc -> JS.allDigits bc = true ->
  JS.substring 0 11 bc <> sentinelGamepack ->
  findSlot i (slots st) = Some slot ->
  exists st' r,
    updateSlot clk i bc st = Ok tt st'
    /\ validateBarcode clk bc j st' = Ok r st'
    /\ isValid r = false
    /\ (j = i -> r = Reject (duplicateMessage (JS.substring 0 11 bc))).
Proof.
  intros [Hnow Hday] Hlen Hdig Hs Hfind.
  pose proof (runOp_view clk (OpUpdateSlot i bc) st) as Hrun. cbn [runOp] in Hrun.
  set (st' := opResult clk (OpUpdateSlot i bc) st) in *.
  pose proof (findSlot_opResult clk (OpUpdateSlot i bc) st i slot Hfind) as Hf.
  cbn [opActs opTarget opWrite andb] in Hf. rewrite Z.eqb_refl in Hf.
  assert (Hle : (11 <=? JS.strlen bc) = true) by (apply Z.leb_le; lia).
  rewrite Hle in Hf. fold st' in Hf.
  set (G := JS.substring 0 11 bc) in *.
  assert (Hact : existsb (activeToday clk G) (slots st') = true).
  { apply List.existsb_exists. eexists. split; [exact (proj1 (findSlot_Some _ _ _ Hf))|].
    apply activeToday_true. simpl. repeat split.
    exists (nowISO clk). now repeat split. }
  assert (Hdup : (let* isUnique := checkGamepackUniqueness clk G in
                  if negb isUnique then ret (Reject (duplicateMessage G))
                  else ret Accept) st'
                 = Ok (Reject (duplicateMessage G)) st').
  { unfold bind, checkGamepackUniqueness.
    rewrite (proj2 (String.eqb_neq _ _) Hs). unfold bind, getState, ret.
    now rewrite Hact. }
  assert (Hprev_i : getPreviousGamepack i st' = Ok (Some G) st').
  { unfold getPreviousGamepack, bind, getState. rewrite Hf. simpl.
    assert (Hbc : JS.truthy bc = true).
    { destruct bc; [unfold JS.strlen in Hlen; simpl in Hlen; lia | reflexivity]. }
    rewrite Hbc, (proj2 (String.eqb_neq _ _) Hs). simpl.
    pose proof (gamepack_nonempty bc Hlen) as Hne. fold G in Hne.
    destruct G; [congruence | reflexivity]. }
  destruct (getPreviousGamepack_readonly j st') as [prev Hprev].
  assert (Hval : forall prev0, getPreviousGamepack j st' = Ok prev0 st' ->
            exists r, validateBarcode clk bc j st' = Ok r st'
                      /\ isValid r = false
                      /\ (prev0 = Some G -> r = Reject (duplicateMessage G))).
  { intros prev0 Hp. rewrite validateBarcode_checked by assumption. cbv zeta.
    unfold bind at 1. rewrite Hp. fold G. destruct prev0 as [p|].
    - destruct (JS.truthy p && negb (String.eqb p sentinelGamepack)
                && negb (String.eqb p G)) eqn:Hc.
      + eexists. split; [reflexivity|]. split; [reflexivity|].
        intros [= ->]. rewrite String.eqb_refl, andb_false_r in Hc. discriminate.
      + eexists. split; [exact Hdup|]. split; [reflexivity|]. reflexivity.
    - eexists. split; [exact Hdup|]. split; [reflexivity|]. discriminate. }
  destruct (Hval prev Hprev) as (r & Hr & Hinv & _).
  exists st', r. split; [exact Hrun|]. split; [exact Hr|]. split; [exact Hinv|].
  intros ->. destruct (Hval (Some G) Hprev_i) as (r' & Hr' & _ & Hrej).
  rewrite Hr in Hr'. injection Hr' as ->. now apply Hrej.
Qed.

Lemma stored_scan_blocks_rescan_witness :
  exists r,
    validateBarcode exampleClock "12345678901234" 7 scannedStore = Ok r scannedStore
    /\ isValid r = false.
Proof.
  destruct (stored_scan_blocks_rescan exampleClock freshStore 1 7 "12345678901234"
              {| id := 1; status := empty; barcode := None; timestamp := None;
                 gamepackNumber := None; soldOut := false |})
    as (st' & r & Hupd & Hval & Hinv & _).
  - split; [discriminate | reflexivity].
  - vm_compute. congruence.
  - reflexivity.
  - discriminate.
  - reflexivity.
  - injection Hupd as <-. exists r. split; [exact Hval | exact Hinv].
Defined.

(** ** What a submitted scan does to the store *)

Section SubmitOutcomes.

Variable clk : Clock.



End SubmitOutcomes.



(** On the fresh store with slot 1 selected, a scan of 26 digits is stored in
    slot 1, and the slot selected next is slot 1 again: the navigator looked
    at the slots as they were before the scan was stored. *)
Example handleSubmitScan_selects_same_slot :
  exists w',
    handleSubmitScan exampleClock (renderInv invWorld26) invWorld26 = Ok tt w'
    /\ (exists slot, findSlot 1 (slots (invStore w')) = Some slot
                     /\ status slot = scanned)
    /\ invDeferred w' = [ExitScanDone; EnterNextScan 1]
    /\ findNextAvailableSlot (slots (invStore w')) = 2.
Proof.
  eexists. split; [vm_compute; reflexivity|].
  split; [eexists; split; vm_compute; reflexivity|].
  split; reflexivity.
Qed.

Section AddOutcomes.
Variable clk : Clock.


End AddOutcomes.


(** ** Display helpers *)

Section DisplayFacts.

Lemma chars_substring_range (a b : nat) s :
  (a <= b)%nat ->
  chars (JS.substring (Z.of_nat a) (Z.of_nat b) s)
  = take (b - a) (drop a (chars s)).
Proof.
  intros Hab. unfold JS.substring. rewrite strlen_chars, chars_substring.
  set (cs := chars s). set (n := length cs).
  replace (Z.to_nat (Z.min (Z.min (Z.max (Z.of_nat a) 0) (Z.of_nat n))
                           (Z.min (Z.max (Z.of_nat b) 0) (Z.of_nat n))))
    with (Nat.min a n) by lia.
  replace (Z.to_nat (Z.max (Z.min (Z.max (Z.of_nat a) 0) (Z.of_nat n))
                           (Z.min (Z.max (Z.of_nat b) 0) (Z.of_nat n))
                     - Z.min (Z.min (Z.max (Z.of_nat a) 0) (Z.of_nat n))
                             (Z.min (Z.max (Z.of_nat b) 0) (Z.of_nat n))))
    with (Nat.min b n - Nat.min a n)%nat by lia.
  destruct (Nat.le_gt_cases a n) as [Han|Han].
  - replace (Nat.min a n) with a by lia.
    destruct (Nat.le_gt_cases b n).
    + f_equal. lia.
    + rewrite !take_ge; [reflexivity | |]; rewrite length_drop; subst n; lia.
  - replace (Nat.min a n) with n by lia.
    rewrite !drop_ge by (subst n; lia). now rewrite !take_nil.
Qed.




Lemma take10_cons {A} (x : A) l : take 10 (x :: take 10 l) = take 10 (x :: l).
Proof.
  simpl. f_equal. rewrite take_take. f_equal.
Qed.

End DisplayFacts.

(** X17: the slot component splits a stored barcode where the store does.
    [getTicketNumber] is empty for a missing barcode or one shorter than 14,
    and otherwise three characters long; for a barcode of 14 or more the
    gamepack number that [updateSlot] stores, followed by the ticket number,
    is the first 14 characters of the barcode, and the whole barcode when it
    has exactly 14. *)
Theorem ticket_number_splits_barcode :
  getTicketNumber None = ""
  /\ (forall b, JS.strlen b < 14 -> getTicketNumber (Some b) = "")
  /\ (forall b, 14 <= JS.strlen b ->
        JS.strlen (getTicketNumber (Some b)) = 3
        /\ JS.substring 0 11 b +:+ getTicketNumber (Some b) = JS.substring 0 14 b
        /\ (JS.strlen b = 14 ->
              JS.substring 0 11 b +:+ getTicketNumber (Some b) = b)).
Proof.
  split; [reflexivity|]. split.
  - intros b Hb. unfold getTicketNumber.
    destruct (Z.ltb_spec (JS.strlen b) 14); [|lia]. now rewrite orb_true_r.
  - intros b Hb. unfold getTicketNumber.
    assert (Ht : JS.truthy b = true).
    { destruct b; [unfold JS.strlen in Hb; simpl in Hb; lia | reflexivity]. }
    rewrite Ht. destruct (Z.ltb_spec (JS.strlen b) 14); [lia|]. simpl.
    rewrite strlen_chars in Hb.
    assert (H14 : chars (JS.substring 0 11 b +:+ JS.substring 11 14 b)
                  = take 14 (chars b)).
    { rewrite chars_append, (chars_substring_prefix 11),
        (chars_substring_range 11 14) by lia.
      change (14 - 11)%nat with 3%nat.
      rewrite <- (take_drop 11 (take 14 (chars b))).
      rewrite take_take, take_drop_commute. reflexivity. }
    split; [|split].
    + rewrite strlen_chars, (chars_substring_range 11 14) by lia.
      rewrite length_take, length_drop. lia.
    + apply chars_inj. rewrite H14. symmetry. apply (chars_substring_prefix 14).
    + intros Hlen. apply chars_inj. rewrite H14. apply take_ge.
      rewrite strlen_chars in Hlen. lia.
Qed.

Lemma ticket_number_splits_barcode_witness :
  getTicketNumber (Some "1234567") = ""
  /\ "12345678901" +:+ getTicketNumber (Some "12345678901234") = "12345678901234".
Proof.
  destruct ticket_number_splits_barcode as (_ & Hshort & Hlong).
  split.
  - apply Hshort. vm_compute. reflexivity.
  - destruct (Hlong "12345678901234") as (_ & _ & Hall); [vm_compute; congruence|].
    apply Hall. reflexivity.
Defined.



(** X19: the scan history of the scanner test screen.  Starting from an empty
    history, after any sequence of submitted buffers it holds the cleaned
    texts of the submissions that contained a digit, newest first, cut to the
    ten most recent; so it never has more than ten entries. *)
Theorem scan_history_recent_ten (raws : list string) :
  let history := foldl recordScan [] raws in
  history
  = take 10 (reverse (List.filter (fun s => 0 <? JS.strlen s)
                                  (map JS.replaceNonDigits raws)))
  /\ (length history <= 10)%nat.
Proof.
  cbv zeta.
  assert (Hgen : forall h,
             foldl recordScan (take 10 h) raws
             = take 10 (reverse (List.filter (fun s => 0 <? JS.strlen s)
                                             (map JS.replaceNonDigits raws))
                        ++ h)).
  { induction raws as [|raw rest IH]; intros h; [reflexivity|].
    cbn [foldl map List.filter]. unfold recordScan at 2.
    unfold Scanner.analyzeRawBarcode. cbn [Scanner.cleanedBarcode].
    destruct (0 <? JS.strlen (JS.replaceNonDigits raw)).
    - rewrite take10_cons, IH, reverse_cons, <- app_assoc. reflexivity.
    - apply IH. }
  specialize (Hgen []). rewrite app_nil_r in Hgen.
  change (take 10 []) with (@nil string) in Hgen.
  split; [exact Hgen|]. rewrite Hgen, length_take. lia.
Qed.

(** X20: what the slot component writes for a slot of one of the three shapes
    of a running store: "No Entry" for an untouched slot, "Marked Empty"
    exactly for a slot marked empty, and for a slot holding a non-empty scan
    its gamepack number with the ticket number, also when the scanned barcode
    is the sentinel one. *)
Theorem slotText_by_shape (s : InventorySlot) :
  (untouched s -> slotText s = ShowLabel "No Entry")
  /\ (markedEmpty s -> slotText s = ShowLabel "Marked Empty")
  /\ (holdsScan s ->
      forall bc, barcode s = Some bc -> 14 <= JS.strlen bc ->
                 slotText s = ShowGamepack (JS.substring 0 11 bc)
                                           (JS.substring 11 14 bc))
  /\ (slotShape s -> (slotText s = ShowLabel "Marked Empty" <-> markedEmpty s)).
Proof.
  assert (Hu : untouched s -> slotText s = ShowLabel "No Entry").
  { intros (Hs & Hb & _ & Hg & _). unfold slotText, isUnscanned.
    now rewrite Hs, Hb, Hg. }
  assert (Hm : markedEmpty s -> slotText s = ShowLabel "Marked Empty").
  { intros (Hs & Hb & Hg & _). unfold slotText, isUnscanned.
    now rewrite Hs, Hb, Hg. }
  assert (Hh : holdsScan s -> exists t, slotText s = t /\ t <> ShowLabel "Marked Empty").
  { intros (Hs & bc & ts & Hb & _ & Hg). unfold slotText, isUnscanned.
    rewrite Hs, Hb, Hg. simpl.
    destruct (JS.truthy _) eqn:Ht; simpl.
    - eexists. split; [reflexivity | discriminate].
    - destruct (String.eqb bc sentinelBarcode) eqn:E.
      + apply String.eqb_eq in E. subst bc. vm_compute in Ht. discriminate Ht.
      + eexists. split; [reflexivity | discriminate]. }
  split; [exact Hu|]. split; [exact Hm|]. split.
  - intros (Hs & bc' & ts & Hb' & _ & Hg) bc Hb Hlen.
    rewrite Hb in Hb'. injection Hb' as <-.
    unfold slotText. rewrite Hs, Hg, Hb.
    destruct (Z.leb_spec 11 (JS.strlen bc)); [|lia]. simpl.
    pose proof (gamepack_nonempty bc Hlen) as Hne.
    unfold getTicketNumber.
    assert (Ht : JS.truthy bc = true).
    { destruct bc; [unfold JS.strlen in Hlen; simpl in Hlen; lia | reflexivity]. }
    rewrite Ht. destruct (Z.ltb_spec (JS.strlen bc) 14); [lia|]. simpl.
    destruct (JS.substring 0 11 bc); [congruence | reflexivity].
  - intros [H | [H | H]]; split; intros H'; try assumption; try (now apply Hm).
    + rewrite (Hu H) in H'. discriminate.
    + destruct (Hh H) as (t & Ht & Hne). congruence.
Qed.

Lemma slotText_by_shape_witness :
  slotText {| id := 4; status := empty; barcode := Some "00000000000000";
              timestamp := Some "2024-01-15T10:00:00.000Z";
              gamepackNumber := Some "00000000000"; soldOut := false |}
  = ShowLabel "Marked Empty"
  /\ slotText {| id := 4; status := scanned; barcode := Some "00000000000000";
                 timestamp := Some "2024-01-15T10:00:00.000Z";
                 gamepackNumber := Some "00000000000"; soldOut := false |}
     = ShowGamepack "00000000000" "000".
Proof.
  split.
  - destruct (slotText_by_shape
                {| id := 4; status := empty; barcode := Some "00000000000000";
                   timestamp := Some "2024-01-15T10:00:00.000Z";
                   gamepackNumber := Some "00000000000"; soldOut := false |})
      as (_ & Hmarked & _).
    apply Hmarked. split; [reflexivity|]. split; [reflexivity|].
    split; [reflexivity|]. now eexists.
  - destruct (slotText_by_shape
                {| id := 4; status := scanned; barcode := Some "00000000000000";
                   timestamp := Some "2024-01-15T10:00:00.000Z";
                   gamepackNumber := Some "00000000000"; soldOut := false |})
      as (_ & _ & Hscan & _).
    apply (Hscan ltac:(split; [reflexivity | now eexists _, _])
                 "00000000000000" eq_refl).
    vm_compute. congruence.
Defined.

(** X21: the slot-number pattern of the Add screen accepts exactly the
    decimal numerals of 1 to 20, and every text it accepts is read by
    [parseInt] as that number, so it passes the range check of the submit
    handler. *)
Theorem slot_number_pattern (text : string) :
  (isSlotNumberText text = true
   <-> exists n, 1 <= n <= 20 /\ text = pretty n)
  /\ (isSlotNumberText text = true ->
      exists n, parseInt10 text = Some n /\ 1 <= n <= 20).
Proof.
  assert (Hiff : isSlotNumberText text = true
                 <-> exists n, 1 <= n <= 20 /\ text = pretty n).
  { split.
    - destruct text as [|c1 [|c2 [|c3 rest]]]; try discriminate.
      + intros H. exists (Scanner.charCode c1 - 48).
        destruct c1 as [[] [] [] [] [] [] [] []]; vm_compute in H;
          try discriminate H; vm_compute; repeat split; congruence.
      + unfold isSlotNumberText.
        destruct (Ascii.eqb_spec c1 "1") as [->|H1]; simpl.
        * rewrite orb_false_r. intros H. exists (Scanner.charCode c2 - 38).
          destruct c2 as [[] [] [] [] [] [] [] []]; vm_compute in H;
            try discriminate H; vm_compute; repeat split; congruence.
        * destruct (Ascii.eqb_spec c1 "2") as [->|H2]; [|discriminate].
          destruct (Ascii.eqb_spec c2 "0") as [->|H0]; [|discriminate].
          intros _. exists 20. vm_compute. repeat split; congruence.
    - intros (n & Hn & ->).
      assert (n = 1 \/ n = 2 \/ n = 3 \/ n = 4 \/ n = 5 \/ n = 6 \/ n = 7
              \/ n = 8 \/ n = 9 \/ n = 10 \/ n = 11 \/ n = 12 \/ n = 13
              \/ n = 14 \/ n = 15 \/ n = 16 \/ n = 17 \/ n = 18 \/ n = 19
              \/ n = 20) as Hcases by lia.
      repeat (destruct Hcases as [-> | Hcases]; [reflexivity|]).
      subst n. reflexivity. }
  split; [exact Hiff|].
  intros H. apply Hiff in H as (n & Hn & ->).
  exists n. split; [apply parseInt10_pretty | exact Hn].
Qed.

Lemma slot_number_pattern_witness :
  exists n, parseInt10 "17" = Some n /\ 1 <= n <= 20.
Proof.
  destruct (slot_number_pattern "17") as [_ Hparse]. apply Hparse. reflexivity.
Defined.

(** X22: the duplicate verdict scans every slot.  For a well-formed,
    non-sentinel barcode, when the target slot's previous gamepack is absent
    or is the scanned gamepack itself, the validator rejects with the
    duplicate message exactly when some slot of the store, whichever its id,
    holds that gamepack with a non-empty timestamp of today and is not sold
    out, and accepts exactly when no slot does. *)
Theorem duplicate_verdict_scans_every_slot
    (clk : Clock) (bc : string) (i : Z) (st : InventoryState)
    (prev : option string) :
  14 <= JS.strlen bc -> JS.allDigits bc = true ->
  JS.substring 0 11 bc <> sentinelGamepack ->
  getPreviousGamepack i st = Ok prev st ->
  prev = None \/ prev = Some (JS.substring 0 11 bc) ->
  (validateBarcode clk bc i st
   = Ok (Reject (duplicateMessage (JS.substring 0 11 bc))) st
   <-> exists slot, In slot (slots st)
         /\ gamepackNumber slot = Some (JS.substring 0 11 bc)
         /\ soldOut slot = false
         /\ exists ts, timestamp slot = Some ts /\ ts <> ""
                       /\ dateStringOf clk ts = todayString clk)
  /\ (validateBarcode clk bc i st = Ok Accept st
      <-> ~ exists slot, In slot (slots st)
            /\ gamepackNumber slot = Some (JS.substring 0 11 bc)
            /\ soldOut slot = false
            /\ exists ts, timestamp slot = Some ts /\ ts <> ""
                          /\ dateStringOf clk ts = todayString clk).
Proof. apply validateBarcode_duplicate_iff. Qed.

Lemma duplicate_verdict_scans_every_slot_witness :
  validateBarcode exampleClock "12345678901234" 2 scannedStore
  = Ok (Reject (duplicateMessage "12345678901")) scannedStore.
Proof.
  destruct (duplicate_verdict_scans_every_slot exampleClock "12345678901234" 2
              scannedStore None) as [[_ Hrej] _].
  - vm_compute. congruence.
  - reflexivity.
  - discriminate.
  - reflexivity.
  - now left.
  - apply Hrej. eexists. split; [left; reflexivity|].
    repeat split. eexists. repeat split. discriminate.
Defined.

(** X23: uniqueness across two slots, and its release.  While slot [A] holds
    a gamepack actively today, the validator rejects a scan of it into another
    slot [B] whose previous gamepack is absent or the same; once [A], the only
    active holder, has been marked sold out, the same scan is accepted. *)
Theorem sold_out_releases_gamepack
    (clk soldAt : Clock) (bc : string) (A B : Z) (st : InventoryState)
    (a : InventorySlot) (prev : option string) :
  14 <= JS.strlen bc -> JS.allDigits bc = true ->
  JS.substring 0 11 bc <> sentinelGamepack ->
  findSlot A (slots st) = Some a ->
  activeToday clk (JS.substring 0 11 bc) a = true ->
  B <> A ->
  getPreviousGamepack B st = Ok prev st ->
  prev = None \/ prev = Some (JS.substring 0 11 bc) ->
  validateBarcode clk bc B st
  = Ok (Reject (duplicateMessage (JS.substring 0 11 bc))) st
  /\ (Forall (fun s => activeToday clk (JS.substring 0 11 bc) s = true -> id s = A)
             (slots st) ->
      exists st', markAsSoldOut soldAt A st = Ok tt st'
                  /\ validateBarcode clk bc B st' = Ok Accept st').
Proof. apply uniqueness_across_slots. Qed.

Lemma sold_out_releases_gamepack_witness :
  validateBarcode exampleClock "12345678901234" 2 scannedStore
  = Ok (Reject (duplicateMessage "12345678901")) scannedStore
  /\ exists st', markAsSoldOut exampleClock 1 scannedStore = Ok tt st'
                 /\ validateBarcode exampleClock "12345678901234" 2 st'
                    = Ok Accept st'.
Proof.
  destruct (sold_out_releases_gamepack exampleClock exampleClock
              "12345678901234" 1 2 scannedStore
              {| id := 1; status := scanned; barcode := Some "12345678901234";
                 timestamp := Some "2024-01-15T10:00:00.000Z";
                 gamepackNumber := Some "12345678901"; soldOut := false |}
              None) as [Hrej Hrel].
  - vm_compute. congruence.
  - reflexivity.
  - discriminate.
  - reflexivity.
  - reflexivity.
  - lia.
  - reflexivity.
  - now left.
  - split; [exact Hrej|]. apply Hrel.
    simpl. repeat (constructor; [intros H; first [reflexivity | discriminate H]|]).
    constructor.
Defined.
